(** * RecoMart ingestion pipeline: storage manager, ingesters, scheduler
    and orchestrator

  A shallow embedding of the parts of

    - [src/storage/storage_manager.py]            ([DataLakeStorageManager]),
    - [src/ingestion/csv_ingester.py]             ([CSVDataIngester]),
    - [src/ingestion/api_ingester.py]             ([APIDataIngester]),
    - [src/ingestion/scheduler.py]                ([IngestionScheduler]),
    - [src/ingestion/ingestion_orchestrator.py]   ([IngestionOrchestrator])

  that the specification talks about and of the functions around them,
  together with the properties the specification states about them and
  further properties of the code.

  Conventions.  Python integers are [Z]; [str] is [string]; a [dict] whose
  iteration order matters is an association list, one used as a table is a
  [gmap]; the file system is a finite map from paths to nodes; a call that
  may raise returns a [result]; clocks, HTTP responses and disk faults are
  explicit parameters of the functions that consult them. *)

From Stdlib Require Import ZArith Ascii String List Bool Lia.
From stdpp Require Import base tactics option list gmap strings pretty fin_maps sorting.

Open Scope Z_scope.


(** ** Python strings *)

Module PyStr.

(** [s.split(sep)] for a one-character separator. *)
Fixpoint split_on (sep : ascii) (s : string) : list string :=
  match s with
  | EmptyString => [EmptyString]
  | String c s' =>
      if Ascii.eqb c sep then EmptyString :: split_on sep s'
      else match split_on sep s' with
           | [] => [String c EmptyString]
           | p :: ps => String c p :: ps
           end
  end.

(** [s.startswith(p)] *)
Fixpoint startswith (p s : string) : bool :=
  match p, s with
  | EmptyString, _ => true
  | String a p', String b s' => Ascii.eqb a b && startswith p' s'
  | String _ _, EmptyString => false
  end.

(** [c in s] for a character [c]. *)
Fixpoint contains_char (c : ascii) (s : string) : bool :=
  match s with
  | EmptyString => false
  | String a s' => Ascii.eqb a c || contains_char c s'
  end.

(** [sep.join(l)] *)
Fixpoint join (sep : string) (l : list string) : string :=
  match l with
  | [] => ""
  | [x] => x
  | x :: rest => x +:+ sep +:+ join sep rest
  end.

(** The decimal digit [0..9] as a character. *)
Definition digit_char (d : Z) : ascii := ascii_of_nat (48 + Z.to_nat d).

(** ["%02d" % n] and ["%04d" % n] on their intended ranges. *)
Definition pad2 (n : Z) : string :=
  String (digit_char (n / 10)) (String (digit_char (n mod 10)) "").

Definition pad4 (n : Z) : string :=
  String (digit_char (n / 1000))
    (String (digit_char ((n / 100) mod 10))
       (String (digit_char ((n / 10) mod 10))
          (String (digit_char (n mod 10)) ""))).

Definition is_digit (c : ascii) : bool :=
  (48 <=? nat_of_ascii c)%nat && (nat_of_ascii c <=? 57)%nat.

Definition is_space (c : ascii) : bool :=
  let n := nat_of_ascii c in
  (n =? 32)%nat || ((9 <=? n)%nat && (n <=? 13)%nat).

Fixpoint lstrip (s : string) : string :=
  match s with
  | String c s' => if is_space c then lstrip s' else s
  | EmptyString => EmptyString
  end.

Fixpoint rev_string_aux (s acc : string) : string :=
  match s with
  | EmptyString => acc
  | String c s' => rev_string_aux s' (String c acc)
  end.

Definition rev_string (s : string) : string := rev_string_aux s "".

Definition strip (s : string) : string :=
  rev_string (lstrip (rev_string (lstrip s))).

(** Digits of an [int] literal: decimal digits, single underscores allowed
    between digits.  [acc] is the value read so far, [prev_digit] whether
    the previous character was a digit. *)
Fixpoint int_digits (s : string) (acc : Z) (prev_digit : bool) : option Z :=
  match s with
  | EmptyString => if prev_digit then Some acc else None
  | String c s' =>
      if is_digit c then
        int_digits s' (10 * acc + (Z.of_nat (nat_of_ascii c) - 48)) true
      else if Ascii.eqb c "_" && prev_digit then
        match s' with
        | String d _ => if is_digit d then int_digits s' acc false else None
        | EmptyString => None
        end
      else None
  end.

(** [int(s)] in base ten; [None] stands for [ValueError]. *)
Definition py_int (s : string) : option Z :=
  match strip s with
  | String "+" r => int_digits r 0 false
  | String "-" r => Z.opp <$> int_digits r 0 false
  | r => int_digits r 0 false
  end.


(** [sub in s] *)
Fixpoint contains (sub s : string) : bool :=
  startswith sub s ||
  match s with
  | EmptyString => false
  | String _ s' => contains sub s'
  end.


(** [s.endswith(suffix)] and [s[:-1]] *)
Definition endswith (suffix s : string) : bool :=
  startswith (rev_string suffix) (rev_string s).

Definition drop_last (s : string) : string :=
  match rev_string s with
  | String _ r => rev_string r
  | EmptyString => EmptyString
  end.

End PyStr.

(** ** Naive [datetime] values *)

Module DateTime.

Record datetime := mk_dt {
  year : Z; month : Z; day : Z;
  hour : Z; minute : Z; second : Z; microsecond : Z
}.

#[global] Instance datetime_eq_dec : EqDecision datetime.
Proof. solve_decision. Defined.

Definition is_leap (y : Z) : bool :=
  (y mod 4 =? 0) && (negb (y mod 100 =? 0) || (y mod 400 =? 0)).

Definition days_in_month (y m : Z) : Z :=
  if m =? 2 then (if is_leap y then 29 else 28)
  else if (m =? 4) || (m =? 6) || (m =? 9) || (m =? 11) then 30
  else 31.

(** Range checks of the [datetime] constructor ([MINYEAR = 1],
    [MAXYEAR = 9999]). *)
Definition valid_date (y m d : Z) : bool :=
  (1 <=? y) && (y <=? 9999) && (1 <=? m) && (m <=? 12) &&
  (1 <=? d) && (d <=? days_in_month y m).

Definition valid (t : datetime) : bool :=
  valid_date (year t) (month t) (day t) &&
  (0 <=? hour t) && (hour t <? 24) &&
  (0 <=? minute t) && (minute t <? 60) &&
  (0 <=? second t) && (second t <? 60) &&
  (0 <=? microsecond t) && (microsecond t <? 1000000).

(** [datetime(year, month, day)]; [None] stands for [ValueError].  An
    argument beyond the range of a C [int] raises [OverflowError]
    instead, which is not told apart here. *)
Definition make_date (y m d : Z) : option datetime :=
  if valid_date y m d then Some (mk_dt y m d 0 0 0 0) else None.

Definition days_before_year (y : Z) : Z :=
  let y1 := y - 1 in y1 * 365 + y1 / 4 - y1 / 100 + y1 / 400.

Definition month_lengths (y : Z) : list Z :=
  map (days_in_month y) [1; 2; 3; 4; 5; 6; 7; 8; 9; 10; 11; 12].

Definition days_before_month (y m : Z) : Z :=
  fold_right Z.add 0 (take (Z.to_nat (m - 1)) (month_lengths y)).

(** [date.toordinal()]: 1 for 0001-01-01. *)
Definition toordinal (t : datetime) : Z :=
  days_before_year (year t) + days_before_month (year t) (month t) + day t.

(** Month and day of the [n]-th day (from 0) of year [y]. *)
Fixpoint month_day_from (lens : list Z) (m n : Z) : Z * Z :=
  match lens with
  | [] => (m, n + 1)
  | len :: rest => if n <? len then (m, n + 1) else month_day_from rest (m + 1) (n - len)
  end.

(** [date.fromordinal(n)], following the 400/100/4/1-year cycle
    decomposition of the standard library. *)
Definition fromordinal (ord : Z) : Z * Z * Z :=
  let n := ord - 1 in
  let n400 := n / 146097 in let n := n mod 146097 in
  let n100 := n / 36524 in let n := n mod 36524 in
  let n4 := n / 1461 in let n := n mod 1461 in
  let n1 := n / 365 in let n := n mod 365 in
  let y := n400 * 400 + 1 + n100 * 100 + n4 * 4 + n1 in
  if (n1 =? 4) || (n100 =? 4) then (y - 1, 12, 31)
  else let '(m, d) := month_day_from (month_lengths y) 1 n in (y, m, d).

(** [t - timedelta(days=d)]; [None] stands for [OverflowError]. *)
Definition sub_days (t : datetime) (d : Z) : option datetime :=
  let ord := toordinal t - d in
  let '(y, m, dd) := fromordinal ord in
  if (1 <=? ord) && (y <=? 9999) then
    Some (mk_dt y m dd (hour t) (minute t) (second t) (microsecond t))
  else None.

(** Microseconds since 0001-01-01T00:00:00, the quantity that
    [t1 - t2] measures on naive values. *)
Definition to_seconds (t : datetime) : Z :=
  ((toordinal t * 24 + hour t) * 60 + minute t) * 60 + second t.

Definition to_micro (t : datetime) : Z :=
  to_seconds t * 1000000 + microsecond t.

(** [t1 < t2] on naive values: field-wise lexicographic order. *)
Definition fields (t : datetime) : list Z :=
  [year t; month t; day t; hour t; minute t; second t; microsecond t].

Fixpoint lex_ltb (a b : list Z) : bool :=
  match a, b with
  | x :: a', y :: b' => (x <? y) || ((x =? y) && lex_ltb a' b')
  | [], _ :: _ => true
  | _, [] => false
  end.

Definition ltb (t1 t2 : datetime) : bool := lex_ltb (fields t1) (fields t2).

(** [%Y] of [strftime]: the decimal numeral of the year as the C library
    prints it, without padding, so that a year below 1000 has fewer than
    four digits. *)
Definition strftime_Y (y : Z) : string :=
  if y <? 10 then String (PyStr.digit_char y) ""
  else if y <? 100 then PyStr.pad2 y
  else if y <? 1000 then String (PyStr.digit_char (y / 100)) (PyStr.pad2 (y mod 100))
  else PyStr.pad4 y.

(** [t.strftime("%Y%m%d_%H%M%S")] *)
Definition strftime_compact (t : datetime) : string :=
  strftime_Y (year t) +:+ PyStr.pad2 (month t) +:+ PyStr.pad2 (day t) +:+ "_" +:+
  PyStr.pad2 (hour t) +:+ PyStr.pad2 (minute t) +:+ PyStr.pad2 (second t).

Definition pad6 (n : Z) : string :=
  PyStr.pad2 (n / 10000) +:+ PyStr.pad2 ((n / 100) mod 100) +:+ PyStr.pad2 (n mod 100).

(** [t.isoformat()] *)
Definition isoformat (t : datetime) : string :=
  PyStr.pad4 (year t) +:+ "-" +:+ PyStr.pad2 (month t) +:+ "-" +:+
  PyStr.pad2 (day t) +:+ "T" +:+ PyStr.pad2 (hour t) +:+ ":" +:+
  PyStr.pad2 (minute t) +:+ ":" +:+ PyStr.pad2 (second t) +:+
  (if microsecond t =? 0 then "" else "." +:+ pad6 (microsecond t)).

(** Reading [n] decimal digits off the front of a string. *)
Fixpoint read_digits (n : nat) (acc : Z) (s : string) : option (Z * string) :=
  match n with
  | O => Some (acc, s)
  | S n' =>
      match s with
      | String c s' =>
          if PyStr.is_digit c
          then read_digits n' (10 * acc + (Z.of_nat (nat_of_ascii c) - 48)) s'
          else None
      | EmptyString => None
      end
  end.

(** The fields of a text of the form [\d{8}_\d{6}] at the front of [s]. *)
Definition match_stamp (s : string) : option datetime :=
  match read_digits 4 0 s with
  | Some (y, s1) =>
  match read_digits 2 0 s1 with
  | Some (m, s2) =>
  match read_digits 2 0 s2 with
  | Some (d, String "_" s3) =>
  match read_digits 2 0 s3 with
  | Some (h, s4) =>
  match read_digits 2 0 s4 with
  | Some (mi, s5) =>
  match read_digits 2 0 s5 with
  | Some (se, _) => Some (mk_dt y m d h mi se 0)
  | None => None end
  | None => None end
  | None => None end
  | _ => None end
  | None => None end
  | None => None end.

(** [re.search(r'(\d{8}_\d{6})', s)]: the leftmost match. *)
Fixpoint search_stamp (s : string) : option datetime :=
  match match_stamp s with
  | Some t => Some t
  | None =>
      match s with
      | String _ s' => search_stamp s'
      | EmptyString => None
      end
  end.

(** Two values that agree up to the second. *)
Definition same_second (t1 t2 : datetime) : Prop :=
  year t1 = year t2 /\ month t1 = month t2 /\ day t1 = day t2 /\
  hour t1 = hour t2 /\ minute t1 = minute t2 /\ second t1 = second t2.


(** [str(t)], which is also how an f-string formats [t]: the ISO format
    with a space between the date and the time. *)
Definition str (t : datetime) : string :=
  PyStr.pad4 (year t) +:+ "-" +:+ PyStr.pad2 (month t) +:+ "-" +:+
  PyStr.pad2 (day t) +:+ " " +:+ PyStr.pad2 (hour t) +:+ ":" +:+
  PyStr.pad2 (minute t) +:+ ":" +:+ PyStr.pad2 (second t) +:+
  (if microsecond t =? 0 then "" else "." +:+ pad6 (microsecond t)).

End DateTime.

(** ** [pathlib] paths *)

Module PurePath.

(** A POSIX path: whether it is anchored at the root, and its
    components. *)
Record Path := mk_path { absolute : bool; parts : list string }.

#[global] Instance Path_eq_dec : EqDecision Path.
Proof. solve_decision. Defined.

#[global] Instance Path_countable : Countable Path.
Proof.
  refine (inj_countable' (fun p => (absolute p, parts p))
                         (fun x => mk_path (fst x) (snd x)) _).
  by intros [].
Defined.

Definition keep_part (s : string) : bool :=
  negb (String.eqb s "") && negb (String.eqb s ".").

(** Components of a path string: empty and ["."] components vanish. *)
Definition parse_parts (s : string) : list string :=
  List.filter keep_part (PyStr.split_on "/" s).

(** [Path(s)] *)
Definition of_string (s : string) : Path :=
  mk_path (PyStr.startswith "/" s) (parse_parts s).

(** [p / s]: an absolute right operand replaces the left one. *)
Definition joinpath (p : Path) (s : string) : Path :=
  if PyStr.startswith "/" s then of_string s
  else mk_path (absolute p) (parts p ++ parse_parts s).

(** [p / q] for a path right operand. *)
Definition join_path (p q : Path) : Path :=
  if absolute q then q else mk_path (absolute p) (parts p ++ parts q).

(** [p.parent] *)
Definition parent (p : Path) : Path :=
  mk_path (absolute p) (removelast (parts p)).

(** [p.name] *)
Definition name (p : Path) : string := List.last (parts p) "".

(** [str(p)] *)
Definition to_string (p : Path) : string :=
  match absolute p, parts p with
  | false, [] => "."
  | false, ps => PyStr.join "/" ps
  | true, ps => "/" +:+ PyStr.join "/" ps
  end.

End PurePath.

Infix "//" := PurePath.joinpath (at level 40, left associativity).

Module PathSuffix.
Import PurePath.

(** [name.rfind('.')] *)
Fixpoint rfind_dot (s : string) : option nat :=
  match s with
  | EmptyString => None
  | String c s' =>
      match rfind_dot s' with
      | Some i => Some (S i)
      | None => if Ascii.eqb c "." then Some 0%nat else None
      end
  end.

(** [p.suffix] of a file name: the last dot and what follows, unless the
    dot is the first or the last character. *)
Definition suffix_of (nm : string) : string :=
  match rfind_dot nm with
  | Some i =>
      if ((0 <? i)%nat && (i <? String.length nm - 1)%nat)%bool
      then String.substring i (String.length nm - i) nm
      else ""
  | None => ""
  end.

(** [p.with_suffix(suffix)]; [None] stands for the [ValueError] raised on
    a path with an empty name. *)
Definition with_suffix (p : Path) (suffix : string) : option Path :=
  let nm := name p in
  if String.eqb nm "" then None
  else
    let old := suffix_of nm in
    let stem := String.substring 0 (String.length nm - String.length old) nm in
    Some (mk_path (absolute p) (removelast (parts p) ++ [stem +:+ suffix])).

End PathSuffix.

(** ** Exceptions and results *)

Module Py.

(** The exception classes that occur; all of them derive from
    [Exception]. *)
Inductive exn :=
| FileNotFoundError (msg : string)
| FileExistsError (msg : string)
| NotADirectoryError (msg : string)
| OSError (msg : string)
| ValueError (msg : string)
| KeyError (msg : string)
| AttributeError (msg : string)
| OverflowError (msg : string)
| RuntimeError (msg : string)
| TypeError (msg : string).

(** [str(e)] *)
Definition str_of (e : exn) : string :=
  match e with
  | FileNotFoundError m | FileExistsError m | NotADirectoryError m
  | OSError m | ValueError m | KeyError m | AttributeError m
  | OverflowError m | RuntimeError m | TypeError m => m
  end.

Inductive result (A : Type) :=
| Ok (a : A)
| Raise (e : exn).
Arguments Ok {A} a.
Arguments Raise {A} e.

Definition is_raise {A} (r : result A) : bool :=
  match r with Raise _ => true | Ok _ => false end.

(** Computations over a mutable state [S] that may raise; the state
    reached when the exception was raised is kept. *)
Definition M (S A : Type) : Type := S -> result A * S.

Definition ret {S A} (a : A) : M S A := fun s => (Ok a, s).
Definition raise {S A} (e : exn) : M S A := fun s => (Raise e, s).
Definition bind {S A B} (m : M S A) (k : A -> M S B) : M S B :=
  fun s => match m s with
           | (Ok a, s') => k a s'
           | (Raise e, s') => (Raise e, s')
           end.
(** [try: m except Exception as e: h e] *)
Definition try_except {S A} (m : M S A) (h : exn -> M S A) : M S A :=
  fun s => match m s with
           | (Ok a, s') => (Ok a, s')
           | (Raise e, s') => h e s'
           end.
Definition get {S} : M S S := fun s => (Ok s, s).
Definition put {S} (s : S) : M S unit := fun _ => (Ok tt, s).

End Py.

Notation "'let*' x ':=' m 'in' k" := (Py.bind m (fun x => k))
(at level 10, x pattern, m at level 100, k at level 200).
Notation "m ';;' k" := (Py.bind m (fun _ => k))
(at level 100, k at level 200, right associativity).

(** ** Data frames and JSON documents *)

Module Pandas.

Inductive cell :=
| CInt (z : Z)
| CStr (s : string)
| CTime (t : DateTime.datetime)
| CNaN.

#[global] Instance cell_eq_dec : EqDecision cell.
Proof. solve_decision. Defined.

(** A frame: column labels, and the rows in order, each with its index
    label. *)
Record DataFrame := mk_df {
  columns : list string;
  rows : list (Z * list cell)
}.

#[global] Instance DataFrame_eq_dec : EqDecision DataFrame.
Proof. solve_decision. Defined.

(** [len(df)] and [len(df.columns)] *)
Definition len (df : DataFrame) : Z := Z.of_nat (length (rows df)).
Definition n_columns (df : DataFrame) : Z := Z.of_nat (length (columns df)).

Fixpoint column_position (c : string) (cols : list string) : option nat :=
  match cols with
  | [] => None
  | c' :: rest =>
      if String.eqb c c' then Some 0%nat else S <$> column_position c rest
  end.

(** The value of column [c] in a row; a missing value reads as NaN. *)
Definition value_at (cols : list string) (c : string) (r : list cell) : cell :=
  match column_position c cols with
  | Some i => nth i r CNaN
  | None => CNaN
  end.

(** The duplicate key of a row under [subset]. *)
Definition row_key (cols subset : list string) (r : Z * list cell) : list cell :=
  map (fun c => value_at cols c (snd r)) subset.

(** [df.empty] *)
Definition empty (df : DataFrame) : bool :=
  match rows df, columns df with
  | [], _ | _, [] => true
  | _, _ => false
  end.

(** Writing position [i] of a row, extending it with NaN when short. *)
Fixpoint set_nth (i : nat) (v : cell) (r : list cell) : list cell :=
  match i, r with
  | O, [] => [v]
  | O, _ :: r' => v :: r'
  | S i', [] => CNaN :: set_nth i' v []
  | S i', x :: r' => x :: set_nth i' v r'
  end.

(** [df[c] = v] for a scalar [v]: an existing column is overwritten, a
    new one is appended. *)
Definition set_column (c : string) (v : cell) (df : DataFrame) : DataFrame :=
  match column_position c (columns df) with
  | Some i => mk_df (columns df) (map (fun r => (fst r, set_nth i v (snd r))) (rows df))
  | None =>
      mk_df (columns df ++ [c])
            (map (fun r => (fst r, set_nth (length (columns df)) v (snd r))) (rows df))
  end.

(** Index labels [0 .. n-1] over the rows. *)
Definition reindex (rs : list (list cell)) : list (Z * list cell) :=
  imap (fun i r => (Z.of_nat i, r)) rs.

(** [pd.concat(chunks, ignore_index=True)] for chunks of one file, which
    share their columns. *)
Definition concat (chunks : list DataFrame) : DataFrame :=
  mk_df (match chunks with c :: _ => columns c | [] => [] end)
        (reindex (map snd (concat (map rows chunks)))).

(** Rows that [duplicated(keep='first')] leaves unmarked: those with no
    earlier row of the same key. *)
Fixpoint keep_first {K} `{EqDecision K} (key : Z * list cell -> K)
    (seen : list K) (l : list (Z * list cell)) : list (Z * list cell) :=
  match l with
  | [] => []
  | r :: rest =>
      if bool_decide (key r ∈ seen) then keep_first key seen rest
      else r :: keep_first key (key r :: seen) rest
  end.

(** [df.drop_duplicates()]: all columns, first occurrence kept. *)
Definition drop_duplicates (df : DataFrame) : DataFrame :=
  mk_df (columns df) (keep_first (fun r => snd r) [] (rows df)).

(** Rows that [duplicated(keep='last')] leaves unmarked: those with no
    later row of the same key. *)
Fixpoint keep_last {K} `{EqDecision K} (key : Z * list cell -> K)
    (l : list (Z * list cell)) : list (Z * list cell) :=
  match l with
  | [] => []
  | r :: rest =>
      if bool_decide (key r ∈ map key rest) then keep_last key rest
      else r :: keep_last key rest
  end.

(** [df.drop_duplicates(subset=subset, keep='last')]: index labels are
    kept ([ignore_index] is left at its default); a subset label that is
    not a column raises [KeyError]. *)
Definition drop_duplicates_last (subset : list string) (df : DataFrame)
  : Py.result DataFrame :=
  if forallb (fun c => bool_decide (c ∈ columns df)) subset then
    Py.Ok (mk_df (columns df) (keep_last (row_key (columns df) subset) (rows df)))
  else Py.Raise (Py.KeyError "subset").

End Pandas.

Module Json.

#[local] Unset Elimination Schemes.
Inductive json :=
| JNull
| JBool (b : bool)
| JInt (z : Z)
| JStr (s : string)
| JList (l : list json)
| JObj (fields : list (string * json)).
#[local] Set Elimination Schemes.

(** [obj[k]] on a JSON object. *)
Fixpoint assoc (k : string) (l : list (string * json)) : option json :=
  match l with
  | [] => None
  | (k', v) :: rest => if String.eqb k k' then Some v else assoc k rest
  end.

Definition field (k : string) (j : json) : option json :=
  match j with
  | JObj l => assoc k l
  | _ => None
  end.

(** The keys of an object, in order. *)
Definition keys (j : json) : list string :=
  match j with
  | JObj l => map fst l
  | _ => []
  end.

End Json.

(** ** The file system *)

Module FS.
Import PurePath.

Inductive content :=
| Parquet (df : Pandas.DataFrame)
| JsonDoc (j : Json.json)
| Blob (s : string).

Inductive node :=
| Dir
| File (c : content).

(** Paths are keys as the program spells them, all relative to one
    working directory. *)
Abbreviation fs := (gmap Path node).

(** What the program cannot decide by itself: whether a write of a frame
    or of a text file succeeds, whether a tree can be removed, and the
    size on disk of a content. *)
Record Env := mk_env {
  parquet_ok : Path -> Pandas.DataFrame -> bool;
  open_ok : Path -> bool;
  rmtree_ok : Path -> bool;
  size_of : content -> Z
}.

Fixpoint is_prefix (a b : list string) : bool :=
  match a, b with
  | [], _ => true
  | x :: a', y :: b' => String.eqb x y && is_prefix a' b'
  | _ :: _, [] => false
  end.

(** [q] lies strictly below [p]. *)
Definition is_under (p q : Path) : bool :=
  Bool.eqb (absolute p) (absolute q) &&
  is_prefix (parts p) (parts q) &&
  (length (parts p) <? length (parts q))%nat.

(** [q] is an entry of directory [p]. *)
Definition is_child (p q : Path) : bool :=
  is_under p q && (length (parts q) =? S (length (parts p)))%nat.

(** [p.exists()]; the working directory and the root always exist. *)
Definition exists_ (p : Path) (s : fs) : bool :=
  match parts p with
  | [] => true
  | _ => bool_decide (is_Some (s !! p))
  end.

Definition is_dir (p : Path) (s : fs) : bool :=
  match parts p with
  | [] => true
  | _ => match s !! p with Some Dir => true | _ => false end
  end.

(** The proper ancestors of [p] and [p] itself, outermost first. *)
Definition chain (p : Path) : list Path :=
  map (fun n => mk_path (absolute p) (take n (parts p)))
      (seq 1 (length (parts p))).

Definition is_file (p : Path) (s : fs) : bool :=
  match s !! p with
  | Some (File _) => true
  | _ => false
  end.

(** [p.mkdir(parents=True, exist_ok=True)] *)
Definition mkdir_p (p : Path) : Py.M fs unit :=
  fun s =>
    if existsb (fun q => is_file q s) (chain p)
    then (Py.Raise (Py.FileExistsError (to_string p)), s)
    else (Py.Ok tt, foldr (fun q acc => <[q := Dir]> acc) s (chain p)).

(** Creating or truncating the regular file [p] with content [c].  A
    write that fails is one the disk refuses: the file is left as it was.
    The program's writes can also fail after the file has been truncated
    or written in part, so what is stated of a call that raises leaves
    out the file it was writing. *)
Definition write_file (ok : bool) (p : Path) (c : content) : Py.M fs unit :=
  fun s =>
    if ok && is_dir (parent p) s && negb (is_dir p s)
    then (Py.Ok tt, <[p := File c]> s)
    else (Py.Raise (Py.OSError (to_string p)), s).

(** [df.to_parquet(p)] *)
Definition to_parquet (env : Env) (df : Pandas.DataFrame) (p : Path) : Py.M fs unit :=
  write_file (parquet_ok env p df) p (Parquet df).

(** [with open(p, 'w') as f: json.dump(j, f)] *)
Definition dump_json (env : Env) (j : Json.json) (p : Path) : Py.M fs unit :=
  write_file (open_ok env p) p (JsonDoc j).

(** [shutil.copy2(src, dst)] for a file destination. *)
Definition copy2 (env : Env) (src dst : Path) : Py.M fs unit :=
  fun s =>
    match s !! src with
    | Some (File c) => write_file (open_ok env dst) dst c s
    | _ => (Py.Raise (Py.FileNotFoundError (to_string src)), s)
    end.

(** [p.stat().st_size] *)
Definition st_size (env : Env) (p : Path) : Py.M fs Z :=
  fun s =>
    match s !! p with
    | Some (File c) => (Py.Ok (size_of env c), s)
    | Some Dir => (Py.Ok 4096, s)
    | None => (Py.Raise (Py.FileNotFoundError (to_string p)), s)
    end.

(** Directory listings enumerate the map in its own order. *)
Definition entries (s : fs) : list (Path * node) := map_to_list s.

(** [p.rglob(prefix + "*")]: every entry below [p] whose name starts with
    [prefix]. *)
Definition rglob_prefix (p : Path) (prefix : string) (s : fs) : list Path :=
  map fst (List.filter
             (fun e => is_under p (fst e) && PyStr.startswith prefix (name (fst e)))
             (entries s)).

(** [p.glob(prefix + "*")]: the entries of directory [p] whose name starts
    with [prefix]; nothing when [p] is not a directory. *)
Definition glob_prefix (p : Path) (prefix : string) (s : fs) : list Path :=
  if is_dir p s then
    map fst (List.filter
               (fun e => is_child p (fst e) && PyStr.startswith prefix (name (fst e)))
               (entries s))
  else [].

(** Total size of the regular files below [p]. *)
Definition directory_size (env : Env) (p : Path) (s : fs) : Z :=
  foldr Z.add 0
    (map (fun e => match snd e with File c => size_of env c | Dir => 0 end)
         (List.filter (fun e => is_under p (fst e)) (entries s))).

(** [shutil.rmtree(p)] *)
Definition rmtree (env : Env) (p : Path) : Py.M fs unit :=
  fun s =>
    if rmtree_ok env p && match s !! p with Some Dir => true | _ => false end
    then (Py.Ok tt,
          filter (fun e => ¬ (is_under p (fst e) = true ∨ fst e = p)) s)
    else (Py.Raise (Py.OSError (to_string p)), s).


(** [p.mkdir(exist_ok=True)]: the parent must be there. *)
Definition mkdir_exist_ok (p : Path) : Py.M fs unit :=
  fun s =>
    if negb (is_dir (parent p) s)
    then (Py.Raise (Py.FileNotFoundError (to_string p)), s)
    else if is_file p s
    then (Py.Raise (Py.FileExistsError (to_string p)), s)
    else (Py.Ok tt, <[p := Dir]> s).

End FS.

(** ** [DataLakeStorageManager] *)

Module Storage.
Import PurePath DateTime.

(** The configuration entries the manager reads: [data.raw_path] and the
    [storage.retention_days] mapping, in its iteration order. *)
Record Config := mk_config {
  raw_path : string;
  retention_days : list (string * Z)
}.

(** [self.base_path = Path(self.config['data']['raw_path']).parent] *)
Definition base_path (cfg : Config) : Path := parent (of_string (raw_path cfg)).

(** [create_partitioned_path]; [now] is the value [datetime.now()] would
    return, read only when no timestamp is passed. *)
Definition create_partitioned_path (cfg : Config) (now : datetime)
    (base_dir data_type source : string) (timestamp : option datetime) : Path :=
  let timestamp := default now timestamp in
  let timestamp_str := strftime_compact timestamp in
  base_path cfg // base_dir // ("source=" +:+ source) // ("type=" +:+ data_type)
    // ("timestamp=" +:+ timestamp_str).

(** Truth value of the [metadata] argument: [None] and the empty dict are
    false. *)
Definition truthy (metadata : option (list (string * Json.json))) : bool :=
  match metadata with
  | Some (_ :: _) => true
  | _ => false
  end.

(** The document written next to the data file. *)
Definition sidecar (filename : string) (output_file : Path) (size : Z)
    (timestamp : datetime) (data : Pandas.DataFrame) (data_type source : string)
    (metadata : list (string * Json.json)) : Json.json :=
  Json.JObj [
    ("file_info", Json.JObj [
       ("filename", Json.JStr filename);
       ("path", Json.JStr (to_string output_file));
       ("size_bytes", Json.JInt size);
       ("created_at", Json.JStr (isoformat timestamp)) ]);
    ("data_info", Json.JObj [
       ("rows", Json.JInt (Pandas.len data));
       ("columns", Json.JInt (Pandas.n_columns data));
       ("data_type", Json.JStr data_type);
       ("source", Json.JStr source) ]);
    ("metadata", Json.JObj metadata) ].

(** The data file of a call of [organize_data]. *)
Definition data_file (cfg : Config) (data_type source : string) (timestamp : datetime)
  : Path :=
  create_partitioned_path cfg timestamp "raw" data_type source (Some timestamp)
    // (data_type +:+ "_" +:+ source +:+ "_" +:+ strftime_compact timestamp +:+ ".parquet").

(** [organize_data]; the [except] clause logs and re-raises, so an
    exception leaves the function as it was raised. *)
Definition organize_data (cfg : Config) (env : FS.Env) (now : datetime)
    (data : Pandas.DataFrame) (data_type source : string)
    (timestamp : option datetime) (metadata : option (list (string * Json.json)))
  : Py.M FS.fs string :=
  Py.try_except
    (let timestamp := default now timestamp in
     let partitioned_path :=
       create_partitioned_path cfg now "raw" data_type source (Some timestamp) in
     FS.mkdir_p partitioned_path ;;
     let filename :=
       data_type +:+ "_" +:+ source +:+ "_" +:+ strftime_compact timestamp +:+ ".parquet" in
     let output_file := partitioned_path // filename in
     FS.to_parquet env data output_file ;;
     (if truthy metadata then
        match PathSuffix.with_suffix output_file ".metadata.json" with
        | None => Py.raise (Py.ValueError "has an empty name")
        | Some metadata_file =>
            let* size := FS.st_size env output_file in
            FS.dump_json env
              (sidecar filename output_file size timestamp data data_type source
                 (default [] metadata))
              metadata_file
        end
      else Py.ret tt) ;;
     Py.ret (to_string output_file))
    (fun e => Py.raise e).

(** [_extract_timestamp_from_filename] *)
Definition _extract_timestamp_from_filename (filename : string) : option datetime :=
  match search_stamp filename with
  | Some t => if valid t then Some t else None
  | None => None
  end.

(** The latest file of a data type in [target_dir]. *)
Definition latest_file (cfg : Config) (target_dir data_type suffix : string) : Path :=
  base_path cfg // target_dir // (data_type +:+ "_latest" +:+ suffix).

(** [organize_file] *)
Definition organize_file (cfg : Config) (env : FS.Env) (now : datetime)
    (source_path : string) (data_type source_type target_dir : string)
  : Py.M FS.fs string :=
  let source_path := of_string source_path in
  let* s := Py.get in
  if negb (FS.exists_ source_path s)
  then Py.raise (Py.FileNotFoundError ("Source file not found: " +:+ to_string source_path))
  else
    let timestamp :=
      default now (_extract_timestamp_from_filename (name source_path)) in
    let target_path :=
      create_partitioned_path cfg now target_dir data_type source_type (Some timestamp) in
    FS.mkdir_p target_path ;;
    let target_file := target_path // name source_path in
    FS.copy2 env source_path target_file ;;
    let latest_dir := base_path cfg // target_dir in
    FS.mkdir_p latest_dir ;;
    FS.copy2 env source_path
      (latest_file cfg target_dir data_type (PathSuffix.suffix_of (name source_path))) ;;
    Py.ret (to_string target_file).

(** One entry of [cleanup_actions]. *)
Record action := mk_action {
  a_path : Path;
  a_date : datetime;
  a_type : string;
  a_size : Z
}.

(** [d.name.split("=")[1]] read as an integer; [None] stands for the
    [ValueError] or [IndexError] that the scan catches. *)
Definition partition_value (d : Path) : option Z :=
  match PyStr.split_on "=" (name d) with
  | _ :: v :: _ => PyStr.py_int v
  | _ => None
  end.

(** The loops over [day=*], [month=*] and [year=*] directories.  Each
    returns the actions collected so far and whether it ran to its end;
    [false] means an exception interrupted it. *)
Fixpoint scan_days (env : FS.Env) (s : FS.fs) (data_dir : string)
    (cutoff_date : datetime) (year month : Z) (day_dirs : list Path)
    (acc : list action) : list action * bool :=
  match day_dirs with
  | [] => (acc, true)
  | day_dir :: rest =>
      match partition_value day_dir with
      | None => (acc, false)
      | Some day =>
          match make_date year month day with
          | None => (acc, false)
          | Some dir_date =>
              let acc' :=
                if ltb dir_date cutoff_date
                then acc ++ [mk_action day_dir dir_date data_dir
                               (FS.directory_size env day_dir s)]
                else acc in
              scan_days env s data_dir cutoff_date year month rest acc'
          end
      end
  end.

Fixpoint scan_months (env : FS.Env) (s : FS.fs) (data_dir : string)
    (cutoff_date : datetime) (year : Z) (month_dirs : list Path)
    (acc : list action) : list action * bool :=
  match month_dirs with
  | [] => (acc, true)
  | month_dir :: rest =>
      match partition_value month_dir with
      | None => (acc, false)
      | Some month =>
          match scan_days env s data_dir cutoff_date year month
                  (FS.glob_prefix month_dir "day=" s) acc with
          | (acc', true) => scan_months env s data_dir cutoff_date year rest acc'
          | (acc', false) => (acc', false)
          end
      end
  end.

(** The body of the [for year_dir in ...] loop: the [try] block, whose
    handler moves on to the next [year=*] entry. *)
Fixpoint scan_years (env : FS.Env) (s : FS.fs) (data_dir : string)
    (cutoff_date : datetime) (year_dirs : list Path)
    (acc : list action) : list action :=
  match year_dirs with
  | [] => acc
  | year_dir :: rest =>
      let acc' :=
        match partition_value year_dir with
        | None => acc
        | Some year =>
            fst (scan_months env s data_dir cutoff_date year
                   (FS.glob_prefix year_dir "month=" s) acc)
        end in
      scan_years env s data_dir cutoff_date rest acc'
  end.

(** The loop over the retention mapping. *)
Fixpoint scan_tiers (cfg : Config) (env : FS.Env) (now : datetime) (s : FS.fs)
    (retention_config : list (string * Z)) (acc : list action)
  : Py.result (list action) :=
  match retention_config with
  | [] => Py.Ok acc
  | (data_dir, days) :: rest =>
      match sub_days now days with
      | None => Py.Raise (Py.OverflowError "date value out of range")
      | Some cutoff_date =>
          let data_path := base_path cfg // data_dir in
          if negb (FS.exists_ data_path s)
          then scan_tiers cfg env now s rest acc
          else
            scan_tiers cfg env now s rest
              (scan_years env s data_dir cutoff_date
                 (FS.rglob_prefix data_path "year=" s) acc)
      end
  end.

(** [cleanup_actions.sort(key=lambda x: x['date'])]: a stable sort. *)
Fixpoint insert_by_date (a : action) (l : list action) : list action :=
  match l with
  | [] => [a]
  | b :: rest =>
      if ltb (a_date b) (a_date a) then b :: insert_by_date a rest else a :: l
  end.

Definition sort_by_date (l : list action) : list action :=
  foldr insert_by_date [] l.

(** The deletion loop: a failed [rmtree] is logged and the loop goes on. *)
Fixpoint delete_all (env : FS.Env) (actions : list action) : Py.M FS.fs unit :=
  match actions with
  | [] => Py.ret tt
  | a :: rest =>
      Py.try_except (FS.rmtree env (a_path a)) (fun _ => Py.ret tt) ;;
      delete_all env rest
  end.

(** [cleanup_old_data].  The source logs the candidates and returns
    nothing; the model returns the sorted [cleanup_actions]. *)
Definition cleanup_old_data (cfg : Config) (env : FS.Env) (now : datetime)
    (dry_run : bool) : Py.M FS.fs (list action) :=
  let* s := Py.get in
  match scan_tiers cfg env now s (retention_days cfg) [] with
  | Py.Raise e => Py.raise e
  | Py.Ok collected =>
      let cleanup_actions := sort_by_date collected in
      match cleanup_actions with
      | [] => Py.ret []
      | _ =>
          (if negb dry_run then delete_all env cleanup_actions else Py.ret tt) ;;
          Py.ret cleanup_actions
      end
  end.


(** The order the candidates are sorted by: [a] is not later than [b]. *)
Definition not_later (a b : action) : Prop := ltb (a_date b) (a_date a) = false.

(** What the scan collects for a tier of the retention mapping: an entry
    named [day=...] dated strictly before the tier's cutoff. *)
Definition collected_for (cfg : Config) (now : datetime) (a : action) : Prop :=
  exists days cutoff_date,
    (a_type a, days) ∈ retention_days cfg /\
    sub_days now days = Some cutoff_date /\
    ltb (a_date a) cutoff_date = true /\
    PyStr.startswith "day=" (name (a_path a)) = true.


(** A positional argument as the callers of [create_partitioned_path]
    in this class pass it after [base_dir] and [data_type]: a string or
    a datetime. *)
Inductive pos_arg :=
| AStr (s : string)
| ATime (t : datetime).

(** [f"{a}"] *)
Definition format_arg (a : pos_arg) : string :=
  match a with
  | AStr s => s
  | ATime t => DateTime.str t
  end.

(** A call [self.create_partitioned_path(base_dir, data_type, *rest)]:
    Python binds the positional arguments in order to the parameters
    [source] and [timestamp=None].  A missing [source] is a [TypeError],
    whatever is bound to [source] is formatted into the path, and a
    timestamp must have [strftime]. *)
Definition create_partitioned_path_call (cfg : Config) (now : datetime)
    (base_dir data_type : string) (rest : list pos_arg) : Py.result Path :=
  match rest with
  | [] =>
      Py.Raise (Py.TypeError
        "create_partitioned_path() missing 1 required positional argument: 'source'")
  | [source] =>
      Py.Ok (create_partitioned_path cfg now base_dir data_type (format_arg source) None)
  | [source; ATime timestamp] =>
      Py.Ok (create_partitioned_path cfg now base_dir data_type (format_arg source)
               (Some timestamp))
  | [source; AStr _] =>
      Py.Raise (Py.AttributeError "'str' object has no attribute 'strftime'")
  | _ =>
      Py.Raise (Py.TypeError
        ("create_partitioned_path() takes from 4 to 5 positional arguments but " +:+
         pretty (Z.of_nat (length rest) + 3) +:+ " were given"))
  end.

(** The result of a call, in a computation. *)
Definition returned {A} (r : Py.result A) : Py.M FS.fs A := fun s => (r, s).

(** The values of [self.storage_structure]: a dict of lists, or a list. *)
Inductive subdirs :=
| Nested (d : list (string * list string))
| Flat (l : list string).

(** [self.storage_structure], in the order of the dict. *)
Definition storage_structure : list (string * subdirs) :=
  [("raw", Nested [("csv", ["events"; "item_properties"; "categories"]);
                   ("api", ["products"; "categories"; "users"])]);
   ("staging", Nested [("csv", ["events"; "item_properties"; "categories"]);
                       ("api", ["products"; "categories"; "users"])]);
   ("processed", Flat ["events"; "products"; "categories"; "item_properties"; "users"]);
   ("features", Flat ["user_features"; "item_features"; "interaction_features";
                      "content_features"]);
   ("archive", Flat ["csv_backups"; "api_responses"]);
   ("metadata", Flat ["ingestion_logs"; "data_lineage"; "schema_registry";
                      "quality_reports"]);
   ("models", Flat ["collaborative_filtering"; "content_based"; "hybrid"])].

(** The loops of [initialize_storage_structure], innermost first. *)
Fixpoint init_nested_types (cfg : Config) (now : datetime) (main_dir : string)
    (main_path : Path) (sub_dir : string) (types : list string) : Py.M FS.fs unit :=
  match types with
  | [] => Py.ret tt
  | data_type :: rest =>
      let type_path := main_path // sub_dir // data_type in
      FS.mkdir_p type_path ;;
      let* sample_path :=
        returned (create_partitioned_path_call cfg now
                    (main_dir +:+ "/" +:+ sub_dir) data_type []) in
      FS.mkdir_p sample_path ;;
      init_nested_types cfg now main_dir main_path sub_dir rest
  end.

Fixpoint init_nested (cfg : Config) (now : datetime) (main_dir : string)
    (main_path : Path) (d : list (string * list string)) : Py.M FS.fs unit :=
  match d with
  | [] => Py.ret tt
  | (sub_dir, types) :: rest =>
      init_nested_types cfg now main_dir main_path sub_dir types ;;
      init_nested cfg now main_dir main_path rest
  end.

Fixpoint init_flat (cfg : Config) (now : datetime) (main_dir : string)
    (main_path : Path) (l : list string) : Py.M FS.fs unit :=
  match l with
  | [] => Py.ret tt
  | data_type :: rest =>
      let type_path := main_path // data_type in
      FS.mkdir_p type_path ;;
      (if bool_decide (main_dir ∈ ["processed"; "features"]) then
         let* sample_path :=
           returned (create_partitioned_path_call cfg now main_dir data_type []) in
         FS.mkdir_p sample_path
       else Py.ret tt) ;;
      init_flat cfg now main_dir main_path rest
  end.

Fixpoint init_main (cfg : Config) (now : datetime)
    (structure : list (string * subdirs)) : Py.M FS.fs unit :=
  match structure with
  | [] => Py.ret tt
  | (main_dir, sub) :: rest =>
      let main_path := base_path cfg // main_dir in
      FS.mkdir_p main_path ;;
      match sub with
      | Nested d => init_nested cfg now main_dir main_path d
      | Flat l => init_flat cfg now main_dir main_path l
      end ;;
      init_main cfg now rest
  end.

(** [initialize_storage_structure]; its handler logs the exception and
    raises it again. *)
Definition initialize_storage_structure (cfg : Config) (now : datetime)
  : Py.M FS.fs unit :=
  Py.try_except
    (init_main cfg now storage_structure ;;
     FS.mkdir_exist_ok (of_string "logs"))
    (fun e => Py.raise e).

(** [_organize_archive_file]; [now] is the clock as the first line reads
    it, [now'] as [create_partitioned_path] reads it. *)
Definition _organize_archive_file (cfg : Config) (env : FS.Env) (now now' : datetime)
    (file_path : Path) (data_type : string) : Py.M FS.fs unit :=
  let timestamp := default now (_extract_timestamp_from_filename (name file_path)) in
  let* target_path :=
    returned (create_partitioned_path_call cfg now' "archive" data_type [ATime timestamp]) in
  FS.mkdir_p target_path ;;
  let target_file := target_path // name file_path in
  FS.copy2 env file_path target_file.

(** [_organize_metadata_file] *)
Definition _organize_metadata_file (cfg : Config) (env : FS.Env) (now now' : datetime)
    (file_path : Path) (data_type : string) : Py.M FS.fs unit :=
  let timestamp := default now (_extract_timestamp_from_filename (name file_path)) in
  let ingestion_type :=
    if PyStr.contains "csv_ingestion" (name file_path)
    then "csv_ingestion" else "api_ingestion" in
  let* target_path :=
    returned (create_partitioned_path_call cfg now' ("metadata/" +:+ data_type)
                ingestion_type [ATime timestamp]) in
  FS.mkdir_p target_path ;;
  let target_file := target_path // name file_path in
  FS.copy2 env file_path target_file.


(** [p.iterdir()]: the entries of a directory. *)
Definition iterdir (p : Path) (s : FS.fs) : Py.result (list Path) :=
  if FS.is_dir p s then
    Py.Ok (map fst (List.filter (fun e => FS.is_child p (fst e)) (FS.entries s)))
  else if FS.exists_ p s then Py.Raise (Py.NotADirectoryError (to_string p))
  else Py.Raise (Py.FileNotFoundError (to_string p)).

(** The dict [validate_storage_structure] builds and returns. *)
Record Validation := mk_validation {
  v_valid : bool;
  v_issues : list string;
  v_recommendations : list string
}.

Definition add_issue (msg : string) : Py.M Validation unit :=
  fun v => (Py.Ok tt, mk_validation (v_valid v) (v_issues v ++ [msg]) (v_recommendations v)).

Definition add_recommendation (msg : string) : Py.M Validation unit :=
  fun v => (Py.Ok tt, mk_validation (v_valid v) (v_issues v) (v_recommendations v ++ [msg])).

Definition invalidate : Py.M Validation unit :=
  fun v => (Py.Ok tt, mk_validation false (v_issues v) (v_recommendations v)).

(** A [for] loop whose body may raise. *)
Fixpoint for_each {S A} (l : list A) (body : A -> Py.M S unit) : Py.M S unit :=
  match l with
  | [] => Py.ret tt
  | x :: rest => body x ;; for_each rest body
  end.

(** The result of a call, in a computation over the validation dict. *)
Definition yielded {A} (r : Py.result A) : Py.M Validation A := fun v => (r, v).

(** [_validate_partitions]: a directory whose name contains [year=]
    needs a subdirectory whose name starts with [month=]. *)
Definition _validate_partitions (base : Path) (s : FS.fs) : Py.M Validation unit :=
  for_each (FS.rglob_prefix base "" s) (fun data_type_dir =>
    if FS.is_dir data_type_dir s && PyStr.contains "year=" (name data_type_dir) then
      let* children := yielded (iterdir data_type_dir s) in
      if existsb (fun month_dir => PyStr.startswith "month=" (name month_dir))
                 (List.filter (fun month_dir => FS.is_dir month_dir s) children)
      then Py.ret tt
      else add_issue ("Invalid partition structure: " +:+ to_string data_type_dir)
    else Py.ret tt).

(** The bodies of the three loops of [validate_storage_structure]. *)
Definition missing_step (cfg : Config) (s : FS.fs) (main_dir : string)
  : Py.M Validation unit :=
  let dir_path := base_path cfg // main_dir in
  if negb (FS.exists_ dir_path s) then
    add_issue ("Missing directory: " +:+ to_string dir_path) ;; invalidate
  else Py.ret tt.

Definition orphan_step (cfg : Config) (s : FS.fs) (main_dir : string)
  : Py.M Validation unit :=
  let dir_path := base_path cfg // main_dir in
  if FS.exists_ dir_path s then
    let* files := yielded (iterdir dir_path s) in
    for_each files (fun file =>
      if FS.is_file file s then
        add_issue ("Orphaned file in " +:+ main_dir +:+ ": " +:+ name file) ;;
        add_recommendation
          ("Move " +:+ name file +:+ " to proper partitioned structure")
      else Py.ret tt)
  else Py.ret tt.

Definition partition_step (cfg : Config) (s : FS.fs) (main_dir : string)
  : Py.M Validation unit :=
  let dir_path := base_path cfg // main_dir in
  if FS.exists_ dir_path s then _validate_partitions dir_path s else Py.ret tt.

(** The [try] block of [validate_storage_structure]. *)
Definition validation_block (cfg : Config) (s : FS.fs) : Py.M Validation unit :=
  for_each (map fst storage_structure) (missing_step cfg s) ;;
  for_each ["raw"; "processed"; "features"] (orphan_step cfg s) ;;
  for_each ["raw"; "processed"; "features"] (partition_step cfg s).

(** [validate_storage_structure] *)
Definition validate_storage_structure (cfg : Config) (s : FS.fs) : Validation :=
  match validation_block cfg s (mk_validation true [] []) with
  | (Py.Ok _, v) => v
  | (Py.Raise e, v) =>
      mk_validation false (v_issues v ++ ["Validation error: " +:+ Py.str_of e])
        (v_recommendations v)
  end.


(** A step that returns and leaves the [valid] flag as it was. *)
Definition quiet (m : Py.M Validation unit) : Prop :=
  forall v, exists v', m v = (Py.Ok tt, v') /\ v_valid v' = v_valid v.


(** A step after which every issue listed before is still listed, in
    its place. *)
Definition keeps_issues {A} (m : Py.M Validation A) : Prop :=
  forall v, exists more, v_issues (snd (m v)) = v_issues v ++ more.


(** The loop of [setup_directories] in both ingesters:
    [Path(directory).mkdir(parents=True, exist_ok=True)] for each entry. *)
Definition make_directories (directories : list string) : Py.M FS.fs unit :=
  for_each directories (fun directory => FS.mkdir_p (of_string directory)).

(** The lists of the CSV and of the API ingester; [archive_path] and
    [staging_path] are the configured values or their defaults. *)
Definition csv_directories (raw_path archive_path staging_path : string) : list string :=
  [raw_path; archive_path; staging_path; "logs"; "data/ingestion_metadata"].

Definition api_directories (raw_path archive_path staging_path : string) : list string :=
  [raw_path; archive_path; staging_path; "logs"; "data/ingestion_metadata";
   "data/api_responses"].

End Storage.

(** ** What a retried operation leaves behind *)

Module Trace.

(** [Attempt k]: the [k]-th try of the operation starts; [Sleep d]:
    [time.sleep(d)]. *)
Inductive event :=
| Attempt (k : Z)
| Sleep (secs : Z).

#[global] Instance event_eq_dec : EqDecision event.
Proof. solve_decision. Defined.

Definition is_attempt (e : event) : bool :=
  match e with Attempt _ => true | Sleep _ => false end.

(** Number of tries in a trace. *)
Definition attempts (t : list event) : Z :=
  Z.of_nat (length (List.filter is_attempt t)).


(** The pause that directly follows try [k], if any. *)
Fixpoint delay_after (k : Z) (t : list event) : option Z :=
  match t with
  | Attempt k' :: ((Sleep d :: _) as rest) =>
      if k' =? k then Some d else delay_after k rest
  | _ :: rest => delay_after k rest
  | [] => None
  end.

(** Tries [first .. first + n], each but the last followed by a pause of
    [delay k] after try [k]. *)
Fixpoint backoff_trace (delay : Z -> Z) (first : Z) (n : nat) : list event :=
  match n with
  | O => [Attempt first]
  | S n' => Attempt first :: Sleep (delay first) :: backoff_trace delay (first + 1) n'
  end.

(** The same, with an optional pause after the last try. *)
Definition paced (delay : Z -> Z) (first : Z) (n : nat) (trailing : bool) : list event :=
  backoff_trace delay first n ++
  (if trailing then [Sleep (delay (first + Z.of_nat n))] else []).

End Trace.

(** ** [CSVDataIngester] *)

Module Csv.
Import PurePath DateTime Trace.

(** The configuration entries read by the ingester. *)
Record Config := mk_config {
  raw_path : string;
  archive_path : string;
  retry_attempts : Z;
  retry_delay : Z;
  backup_files : bool;
  storage : Storage.Config
}.

(** The disk, and the logical time: the number of clock readings and
    pauses so far. *)
Record World := mk_world { files : FS.fs; ticks : nat }.

(** The ingester's surroundings.  The clock and [pd.read_csv] are indexed
    by the logical time; a raised reading result stands for the [pandas]
    error of that read. *)
Record Env := mk_env {
  fs_env : FS.Env;
  clock : nat -> datetime;
  read_csv_head : nat -> FS.fs -> string -> Py.result Pandas.DataFrame;
  read_csv_chunks : nat -> FS.fs -> string -> Py.result (list Pandas.DataFrame)
}.

(** The result dictionary, without its timing and size entries. *)
Record IngestResult := mk_result {
  source_file : string;
  status : string;
  records_count : Z;
  errors : list string;
  output_file : option string;
  duplicates_removed : option Z
}.

Definition on_files {A} (m : Py.M FS.fs A) : Py.M World A :=
  fun w => let '(r, s') := m (files w) in (r, mk_world s' (ticks w)).

(** [datetime.now()] *)
Definition now (env : Env) : Py.M World datetime :=
  fun w => (Py.Ok (clock env (ticks w)), mk_world (files w) (S (ticks w))).

(** [validate_csv_structure] *)
Definition validate_csv_structure (env : Env) (file_path : string)
    (expected_columns : list string) : Py.M World (bool * string) :=
  fun w =>
    match read_csv_head env (ticks w) (files w) file_path with
    | Py.Ok df_sample =>
        if Pandas.empty df_sample then (Py.Ok (false, "CSV file is empty"), w)
        else
          let missing_cols :=
            List.filter (fun c => negb (bool_decide (c ∈ Pandas.columns df_sample)))
                        expected_columns in
          match missing_cols with
          | _ :: _ =>
              (Py.Ok (false, "Missing required columns: " +:+ PyStr.join ", " missing_cols), w)
          | [] => (Py.Ok (true, "Valid CSV structure"), w)
          end
    | Py.Raise e => (Py.Ok (false, "Validation error: " +:+ Py.str_of e), w)
    end.

(** The latest file of the events data. *)
Definition events_latest (cfg : Config) : Path :=
  of_string (raw_path cfg +:+ "/events_latest.parquet").

(** The save step of [ingest_events_csv]: the frame is organized into
    its partition by the storage manager, then written as the latest
    version.  The metadata has a fourth entry, [file_size_mb], a float,
    which is left out with the size entries of the result. *)
Definition save_events (cfg : Config) (env : Env) (file_path : string)
    (df_dedupe : Pandas.DataFrame) (duplicates_removed : Z) (timestamp : string)
    (t : datetime) : Py.M World string :=
  let* output_path :=
    on_files (Storage.organize_data (storage cfg) (fs_env env) t
      df_dedupe "events" "csv_ingestion" (Some t)
      (Some [("original_file", Json.JStr file_path);
             ("ingestion_timestamp", Json.JStr timestamp);
             ("duplicates_removed", Json.JInt duplicates_removed)])) in
  let latest_path := events_latest cfg in
  on_files (FS.to_parquet (fs_env env) df_dedupe latest_path) ;;
  Py.ret output_path.

(** The [try] block of [ingest_events_csv] after its first log line. *)
Definition events_try_block (cfg : Config) (env : Env) (file_path : string)
  : Py.M World IngestResult :=
  let* w := Py.get in
  if negb (FS.exists_ (of_string file_path) (files w))
  then Py.raise (Py.FileNotFoundError ("Events file not found: " +:+ file_path))
  else
    let expected_columns :=
      ["timestamp"; "itemid"; "visitorid"; "event"; "transactionid"] in
    let* v := validate_csv_structure env file_path expected_columns in
    if negb (fst v)
    then Py.raise (Py.ValueError ("CSV validation failed: " +:+ snd v))
    else
      match read_csv_chunks env (ticks w) (files w) file_path with
      | Py.Raise e => Py.raise (Py.ValueError ("CSV parsing error: " +:+ Py.str_of e))
      | Py.Ok all_chunks =>
          let chunks := List.filter (fun c => negb (Pandas.empty c)) all_chunks in
          match chunks with
          | [] => Py.raise (Py.ValueError "No valid data chunks found in CSV file")
          | _ =>
              let df := Pandas.concat chunks in
              let* t1 := now env in
              let df := Pandas.set_column "ingestion_timestamp" (Pandas.CTime t1) df in
              let df := Pandas.set_column "ingestion_source" (Pandas.CStr "csv_events") df in
              let* t2 := now env in
              let df := Pandas.set_column "ingestion_batch_id"
                          (Pandas.CStr ("events_" +:+ strftime_compact t2)) df in
              let initial_records := Pandas.len df in
              let df_dedupe := Pandas.drop_duplicates df in
              let duplicates_removed := initial_records - Pandas.len df_dedupe in
              let* t3 := now env in
              let timestamp := strftime_compact t3 in
              let* t4 := now env in
              let* output_path :=
                save_events cfg env file_path df_dedupe duplicates_removed timestamp t4 in
              (if backup_files cfg then
                 on_files (FS.copy2 (fs_env env) (of_string file_path)
                   (of_string (archive_path cfg +:+ "/events_" +:+ timestamp +:+ ".csv")))
               else Py.ret tt) ;;
              Py.ret (mk_result file_path "success" (Pandas.len df_dedupe) []
                        (Some output_path) (Some duplicates_removed))
          end
      end.

(** What a call of the ingester acts on: the world, the log of tries and
    pauses, and [self.ingestion_stats['errors']]. *)
Record Run := mk_run {
  world : World;
  trace : list event;
  stats_errors : list string
}.

Definition log (e : event) (r : Run) : Run :=
  mk_run (world r) (trace r ++ [e]) (stats_errors r).

(** Time passes during a pause: the surroundings are consulted anew
    afterwards. *)
Definition after_pause (w : World) : World := mk_world (files w) (S (ticks w)).

(** [time.sleep(d)] *)
Definition sleep (d : Z) (r : Run) : Run :=
  mk_run (after_pause (world r)) (trace r ++ [Sleep d]) (stats_errors r).

(** Every retry of [ingest_events_csv] is a call made from the handler
    of the call before, one frame deeper; the interpreter raises
    [RecursionError] at its limit, 1000 frames unless it is changed, and
    the program does not change it.  The retries are followed up to this
    depth, which leaves the callers and the callees nine tenths of the
    limit. *)
Definition retry_depth : Z := 100.

(** [ingest_events_csv(file_path, retry_count)] around a given [try]
    block.  The first statement of the block logs the try number
    [retry_count + 1]; the handler pauses for [retry_delay] and calls the
    function again while [retry_count < max_retries].  [fuel] bounds the
    depth of the recursion.  The pause is a [time.sleep] call, which
    returns for a length that is not negative and raises [ValueError]
    otherwise: the function is followed for [0 <= retry_delay] and
    [retry_attempts <= retry_depth]. *)
Fixpoint ingest_events_csv_with (cfg : Config) (block : Py.M World IngestResult)
    (file_path : string) (fuel : nat) (retry_count : Z) (r : Run) : IngestResult * Run :=
  let max_retries := retry_attempts cfg in
  let result := mk_result file_path "failed" 0 [] None None in
  let r := log (Attempt (retry_count + 1)) r in
  match block (world r) with
  | (Py.Ok res, w') => (res, mk_run w' (trace r) (stats_errors r))
  | (Py.Raise e, w') =>
      let r := mk_run w' (trace r) (stats_errors r) in
      let error_msg := "Error ingesting events CSV: " +:+ Py.str_of e in
      let result :=
        mk_result file_path "failed" 0 (errors result ++ [error_msg]) None None in
      if retry_count <? max_retries then
        match fuel with
        | S fuel' =>
            ingest_events_csv_with cfg block file_path fuel' (retry_count + 1)
              (sleep (retry_delay cfg) r)
        | O => (result, sleep (retry_delay cfg) r)
        end
      else
        (result, mk_run (world r) (trace r) (stats_errors r ++ [error_msg]))
  end.

(** [ingest_events_csv(file_path)]: [retry_count] starts at 0, and the
    recursion is at most [max_retries] deep. *)
Definition ingest_events_csv (cfg : Config) (env : Env) (file_path : string)
    (r : Run) : IngestResult * Run :=
  ingest_events_csv_with cfg (events_try_block cfg env file_path) file_path
    (Z.to_nat (retry_attempts cfg)) 0 r.

(** The world in which try [k + 1] starts when the [k] tries before it
    have raised. *)
Fixpoint world_before (block : Py.M World IngestResult) (k : nat) (w : World) : World :=
  match k with
  | O => w
  | S k' => after_pause (snd (block (world_before block k' w)))
  end.

(** The deduplication step of [ingest_item_properties_csv]: the cleaned
    frame and [duplicates_removed]. *)
Definition dedupe_item_properties (combined_df : Pandas.DataFrame)
  : Py.result (Pandas.DataFrame * Z) :=
  let initial_records := Pandas.len combined_df in
  match Pandas.drop_duplicates_last ["itemid"; "property"] combined_df with
  | Py.Ok combined_df' =>
      let duplicates_removed := initial_records - Pandas.len combined_df' in
      Py.Ok (combined_df', duplicates_removed)
  | Py.Raise e => Py.Raise e
  end.


(** The chunks of the file that [ingest_events_csv] keeps. *)
Definition kept_chunks (all_chunks : list Pandas.DataFrame) : list Pandas.DataFrame :=
  List.filter (fun c => negb (Pandas.empty c)) all_chunks.

(** The result of a try that returned, for [total] rows read: a success
    record with a positive record count, an output file and no error. *)
Definition success_of (file_path : string) (total : Z) (res : IngestResult) : Prop :=
  exists out dups,
    res = mk_result file_path "success" (total - dups) [] (Some out) (Some dups) /\
    0 <= dups /\ 1 <= total - dups.

(** The result of a call whose last try raised [e]. *)
Definition failure_of (file_path : string) (e : Py.exn) : IngestResult :=
  mk_result file_path "failed" 0 ["Error ingesting events CSV: " +:+ Py.str_of e] None None.


(** The result dictionary of [ingest_item_properties_csv], without its
    timing and size entries. *)
Record ItemsResult := mk_items {
  i_source_files : list string;
  i_status : string;
  i_records_count : Z;
  i_files_processed : Z;
  i_errors : list string;
  i_output_file : option string;
  i_duplicates_removed : option Z
}.

(** One pass of the loop over the files: the frame read from the file,
    if any, and the message of the inner handler, if it was entered.  A
    file that is missing, fails the validation or has only empty chunks
    is passed over without a message. *)
Definition read_part (env : Env) (w : World) (file_path : string)
  : option Pandas.DataFrame * option string :=
  if negb (FS.exists_ (of_string file_path) (files w)) then (None, None)
  else
    match fst (validate_csv_structure env file_path ["itemid"; "property"; "value"] w) with
    | Py.Raise e =>
        (None, Some ("Error processing file " +:+ file_path +:+ ": " +:+ Py.str_of e))
    | Py.Ok (false, _) => (None, None)
    | Py.Ok (true, _) =>
        match read_csv_chunks env (ticks w) (files w) file_path with
        | Py.Raise e =>
            (None, Some ("Error processing file " +:+ file_path +:+ ": " +:+ Py.str_of e))
        | Py.Ok all_chunks =>
            match kept_chunks all_chunks with
            | [] => (None, None)
            | file_chunks => (Some (Pandas.concat file_chunks), None)
            end
        end
    end.

(** [os.path.basename(p)] *)
Definition basename (p : string) : string := List.last (PyStr.split_on "/" p) "".

(** The latest file of the item properties. *)
Definition items_latest (cfg : Config) : Path :=
  of_string (raw_path cfg +:+ "/item_properties_latest.parquet").

(** The archive loop: the [i]-th path, when it exists, is copied to
    [item_properties_part<i+1>_<timestamp>.csv]. *)
Fixpoint archive_parts (cfg : Config) (env : Env) (timestamp : string) (i : Z)
    (file_paths : list string) : Py.M FS.fs unit :=
  match file_paths with
  | [] => Py.ret tt
  | file_path :: rest =>
      (let* s := Py.get in
       if FS.exists_ (of_string file_path) s then
         FS.copy2 (fs_env env) (of_string file_path)
           (PurePath.joinpath (of_string (archive_path cfg))
              ("item_properties_part" +:+ pretty (i + 1) +:+ "_" +:+ timestamp +:+ ".csv"))
       else Py.ret tt) ;;
      archive_parts cfg env timestamp (i + 1) rest
  end.

(** The [try] block of [ingest_item_properties_csv] after its first log
    line.  The frames of the files are taken to share their columns. *)
Definition items_try_block (cfg : Config) (env : Env) (file_paths : list string)
  : Py.M World ItemsResult :=
  let* w := Py.get in
  let parts := map (read_part env w) file_paths in
  let combined_chunks := omap fst parts in
  let errors := omap snd parts in
  let files_processed := Z.of_nat (length combined_chunks) in
  match combined_chunks with
  | [] => Py.raise (Py.ValueError "No valid item properties files were processed")
  | _ =>
      let combined_df := Pandas.concat combined_chunks in
      let* t1 := now env in
      let combined_df :=
        Pandas.set_column "ingestion_timestamp" (Pandas.CTime t1) combined_df in
      let combined_df :=
        Pandas.set_column "ingestion_source" (Pandas.CStr "csv_item_properties") combined_df in
      let* t2 := now env in
      let combined_df :=
        Pandas.set_column "ingestion_batch_id"
          (Pandas.CStr ("items_" +:+ strftime_compact t2)) combined_df in
      match dedupe_item_properties combined_df with
      | Py.Raise e => Py.raise e
      | Py.Ok (combined_df, duplicates_removed) =>
          let* t3 := now env in
          let timestamp := strftime_compact t3 in
          let* t4 := now env in
          let* output_path :=
            on_files (Storage.organize_data (storage cfg) (fs_env env) t4
              combined_df "item_properties" "csv_ingestion" (Some t4)
              (Some [("source_files", Json.JList (map (fun p => Json.JStr (basename p))
                                                      file_paths));
                     ("ingestion_timestamp", Json.JStr timestamp);
                     ("duplicates_removed", Json.JInt duplicates_removed);
                     ("total_records", Json.JInt (Pandas.len combined_df))])) in
          on_files (FS.to_parquet (fs_env env) combined_df (items_latest cfg)) ;;
          (if backup_files cfg then on_files (archive_parts cfg env timestamp 0 file_paths)
           else Py.ret tt) ;;
          Py.ret (mk_items file_paths "success" (Pandas.len combined_df) files_processed
                    errors (Some output_path) (Some duplicates_removed))
      end
  end.

(** The files the loop reads a frame from. *)
Definition parts_read (env : Env) (w : World) (file_paths : list string)
  : list Pandas.DataFrame :=
  omap (fun p => fst (read_part env w p)) file_paths.

End Csv.

(** ** [APIDataIngester.make_api_request] *)

Module Api.
Import Trace.

Record Config := mk_config {
  retry_attempts : Z;
  retry_delay : Z
}.

(** What one [self.session.request(...)] call yields: a response with
    its status code, text and decoded body ([None] when the text is not
    JSON), or a [requests.exceptions.RequestException]. *)
Inductive outcome :=
| Response (status_code : Z) (text : string) (body : option Json.json)
| RequestException (msg : string).

(** The returned triple [(success, response_data, error_message)]. *)
Definition reply : Type := bool * option Json.json * string.

(** The handler of [requests.exceptions.RequestException] at try
    [attempt]; [None] means the loop goes on. *)
Definition on_exception (cfg : Config) (attempt : Z) (msg : string)
    (t : list event) : option reply * list event :=
  let error_msg := "Request exception: " +:+ msg in
  if attempt <? retry_attempts cfg
  then (None, t ++ [Sleep (retry_delay cfg * attempt)])
  else (Some (false, None, error_msg), t).

(** The [for attempt in range(1, retry_attempts + 1)] loop;
    [request attempt] is what the session yields at that try.  A 200
    response whose body does not decode raises from [response.json()],
    which the [RequestException] handler catches.  A pause is a
    [time.sleep] call, which returns for a length that is not negative
    and raises [ValueError] otherwise: the loop is followed for
    [0 <= retry_delay], and for an endpoint configuration that has the
    keys the function reads. *)
Fixpoint request_loop (cfg : Config) (request : Z -> outcome)
    (attempts : list Z) (t : list event) : reply * list event :=
  match attempts with
  | [] =>
      ((false, None, "All " +:+ pretty (retry_attempts cfg) +:+ " attempts failed"), t)
  | attempt :: rest =>
      let t := t ++ [Attempt attempt] in
      match request attempt with
      | Response status_code text body =>
          if status_code =? 200 then
            match body with
            | Some data => ((true, Some data, ""), t)
            | None =>
                match on_exception cfg attempt "Expecting value" t with
                | (Some r, t') => (r, t')
                | (None, t') => request_loop cfg request rest t'
                end
            end
          else if status_code =? 429 then
            request_loop cfg request rest (t ++ [Sleep (retry_delay cfg * attempt)])
          else
            ((false, None, "HTTP " +:+ pretty status_code +:+ ": " +:+ text), t)
      | RequestException msg =>
          match on_exception cfg attempt msg t with
          | (Some r, t') => (r, t')
          | (None, t') => request_loop cfg request rest t'
          end
      end
  end.

(** [range(1, n + 1)] *)
Definition range1 (n : Z) : list Z :=
  map Z.of_nat (seq 1 (Z.to_nat n)).

(** [make_api_request]: the reply, and the tries and pauses made. *)
Definition make_api_request (cfg : Config) (request : Z -> outcome)
  : reply * list event :=
  request_loop cfg request (range1 (retry_attempts cfg)) [].

(** The outcomes after which the loop tries again. *)
Definition retried (o : outcome) : bool :=
  match o with
  | Response status_code _ body =>
      (status_code =? 429) || ((status_code =? 200) && negb (bool_decide (is_Some body)))
  | RequestException _ => true
  end.

Definition succeeds (o : outcome) : bool :=
  match o with
  | Response status_code _ (Some _) => status_code =? 200
  | _ => false
  end.

(** The reply that ends the loop at once, for an outcome that is not
    retried: the decoded body of a 200 response, or the failure made of
    any status other than 200 and 429. *)
Definition immediate (o : outcome) : option reply :=
  match o with
  | Response status_code text body =>
      if status_code =? 200 then
        match body with
        | Some data => Some (true, Some data, "")
        | None => None
        end
      else if status_code =? 429 then None
      else Some (false, None, "HTTP " +:+ pretty status_code +:+ ": " +:+ text)
  | RequestException _ => None
  end.

(** The message of the failure returned when every try was retried, by
    the outcome of the last try. *)
Definition exhausted_message (cfg : Config) (last : outcome) : string :=
  match last with
  | RequestException msg => "Request exception: " +:+ msg
  | Response status_code _ _ =>
      if status_code =? 200 then "Request exception: Expecting value"
      else "All " +:+ pretty (retry_attempts cfg) +:+ " attempts failed"
  end.

(** The adapter that [setup_http_session] mounts on the session carries
    [Retry(total=retry_attempts, backoff_factor=1,
    status_forcelist=[429, 500, 502, 503, 504],
    allowed_methods=["HEAD", "GET", "OPTIONS", "POST"])]. *)
Definition status_forcelist : list Z := [429; 500; 502; 503; 504].

Definition allowed_methods : list string := ["HEAD"; "GET"; "OPTIONS"; "POST"].

(** The [RetryError] of the adapter, a [RequestException]; its message
    also names the connection pool and the URL, left out here. *)
Definition retry_error (status_code : Z) : outcome :=
  RequestException
    ("Max retries exceeded (Caused by ResponseError('too many " +:+
     pretty status_code +:+ " error responses'))").

(** One [self.session.request(method, ...)] call, by the answer that
    ends it: a response of the server, taken without a [Retry-After]
    header, or a failure of the connection.  For a method in
    [allowed_methods] the adapter does not hand back a response whose
    status is in [status_forcelist]: it sends the request again, and
    when its retries are used up it raises [RetryError].  Every other
    response is handed back as it is; [method] is the method in upper
    case, as the request is prepared. *)
Definition session_request (method : string) (answer : outcome) : outcome :=
  match answer with
  | Response status_code text body =>
      if bool_decide (method ∈ allowed_methods) &&
         bool_decide (status_code ∈ status_forcelist)
      then retry_error status_code
      else answer
  | RequestException msg => answer
  end.

(** What the session yields at each try, for a server whose answer
    [server k] ends the call of try [k]. *)
Definition session (method : string) (server : Z -> outcome) : Z -> outcome :=
  fun attempt => session_request method (server attempt).

End Api.

(** ** [IngestionScheduler] *)

Module Scheduler.
Import DateTime.

(** Values a job function may return. *)
#[local] Unset Elimination Schemes.
Inductive pyval :=
| PNone
| PBool (b : bool)
| PInt (z : Z)
| PStr (s : string)
| PList (l : list pyval)
| PDict (items : list (string * pyval)).
#[local] Set Elimination Schemes.

(** One entry of [self.jobs_status]; an absent key is [None]. *)
Record JobStatus := mk_status {
  status : string;
  start_time : datetime;
  last_run : datetime;
  success_count : Z;
  failure_count : Z;
  last_error : option string;
  end_time : option datetime;
  duration : option Z;
  last_result : option pyval
}.

(** The scheduler's state: the status table, the content of
    [scheduler_status.json], and the tables handed to
    [_save_job_status] so far. *)
Record State := mk_state {
  jobs_status : gmap string JobStatus;
  status_file : option (gmap string JobStatus);
  saves : list (gmap string JobStatus)
}.

(** [_save_job_status]: a failed write is logged and swallowed. *)
Definition _save_job_status (write_ok : bool) (st : State) : State :=
  mk_state (jobs_status st)
    (if write_ok then Some (jobs_status st) else status_file st)
    (saves st ++ [jobs_status st]).

Fixpoint dict_get (k : string) (items : list (string * pyval)) : option pyval :=
  match items with
  | [] => None
  | (k', v) :: rest => if String.eqb k k' then Some v else dict_get k rest
  end.

(** [r.get('status') != 'success'] for one value of the result dict;
    a value without a [get] method raises [AttributeError]. *)
Definition not_success (r : pyval) : Py.result bool :=
  match r with
  | PDict items =>
      match dict_get "status" items with
      | Some (PStr s) => Py.Ok (negb (String.eqb s "success"))
      | _ => Py.Ok true
      end
  | _ => Py.Raise (Py.AttributeError "object has no attribute 'get'")
  end.

(** [sum(1 for r in result.values() if r.get('status') != 'success')] *)
Fixpoint failed_count (values : list pyval) : Py.result Z :=
  match values with
  | [] => Py.Ok 0
  | r :: rest =>
      match not_success r with
      | Py.Raise e => Py.Raise e
      | Py.Ok b =>
          match failed_count rest with
          | Py.Raise e => Py.Raise e
          | Py.Ok n => Py.Ok (if b then n + 1 else n)
          end
      end
  end.

(** The success test on a returned value. *)
Definition is_success (result : pyval) : Py.result bool :=
  match result with
  | PDict items =>
      match failed_count (map snd items) with
      | Py.Ok n => Py.Ok (n =? 0)
      | Py.Raise e => Py.Raise e
      end
  | PBool false | PNone => Py.Ok false
  | _ => Py.Ok true
  end.

(** A job function: what calling it yields in a given scheduler state. *)
Definition job := State -> Py.result pyval.

(** [_run_job_safe(job_name, job_func)].  [start] and [finish] are the
    two clock readings; [write_ok] tells whether the status file can be
    written.  [except Exception] catches every exception of [Py.exn]. *)
Definition _run_job_safe (start finish : datetime) (write_ok : bool)
    (job_name : string) (job_func : job) (st : State) : State :=
  let previous := jobs_status st !! job_name in
  let entry :=
    mk_status "running" start start
      (default 0 (success_count <$> previous))
      (default 0 (failure_count <$> previous))
      None None None None in
  let st := mk_state (<[job_name := entry]> (jobs_status st)) (status_file st) (saves st) in
  let duration := to_micro finish - to_micro start in
  let outcome :=
    match job_func st with
    | Py.Ok result =>
        match is_success result with
        | Py.Ok success => Py.Ok (result, success)
        | Py.Raise e => Py.Raise e
        end
    | Py.Raise e => Py.Raise e
    end in
  let entry' :=
    match outcome with
    | Py.Ok (result, true) =>
        mk_status "success" start start (success_count entry + 1) (failure_count entry)
          None (Some finish) (Some duration) (Some result)
    | Py.Ok (result, false) =>
        mk_status "failed" start start (success_count entry) (failure_count entry + 1)
          (Some "Job function returned failure result") (Some finish) (Some duration) None
    | Py.Raise e =>
        mk_status "error" start start (success_count entry) (failure_count entry + 1)
          (Some (Py.str_of e)) (Some finish) (Some duration) None
    end in
  _save_job_status write_ok
    (mk_state (<[job_name := entry']> (jobs_status st)) (status_file st) (saves st)).

(** A class as far as attribute lookup goes: its name and the attributes
    an instance answers to. *)
Record PyClass := mk_class {
  class_name : string;
  attributes : list string
}.

(** [obj.name()]: the attribute is looked up first; [impl] is what the
    method yields when it exists. *)
Definition call_method (cls : PyClass) (impl : string -> Py.result pyval)
    (name : string) : Py.result pyval :=
  if bool_decide (name ∈ attributes cls) then impl name
  else Py.Raise (Py.AttributeError
         ("'" +:+ class_name cls +:+ "' object has no attribute '" +:+ name +:+ "'")).

(** The attributes of a [CSVDataIngester]: those set in [__init__] and
    the methods of the class. *)
Definition CSVDataIngester : PyClass :=
  mk_class "CSVDataIngester"
    ["config"; "logger"; "storage_manager"; "ingestion_stats";
     "__init__"; "_load_config"; "setup_directories"; "setup_logging";
     "calculate_file_hash"; "validate_csv_structure"; "ingest_events_csv";
     "ingest_item_properties_csv"; "save_ingestion_metadata";
     "run_full_csv_ingestion"].

(** The attributes of an [APIDataIngester]. *)
Definition APIDataIngester : PyClass :=
  mk_class "APIDataIngester"
    ["config"; "logger"; "session"; "storage_manager"; "ingestion_stats";
     "__init__"; "_load_config"; "setup_directories"; "setup_logging";
     "setup_http_session"; "make_api_request"; "process_api_data";
     "save_api_data"; "ingest_endpoint"; "run_ingestion";
     "_save_ingestion_metadata"; "_print_summary"].

(** [csv_ingestion_job]: [return self.csv_ingester.run_ingestion()];
    [impl] gives the behaviour of the ingester's methods. *)
Definition csv_ingestion_job (impl : string -> Py.result pyval) : job :=
  fun _ => call_method CSVDataIngester impl "run_ingestion".

(** [api_ingestion_job]: [return self.api_ingester.run_ingestion()] *)
Definition api_ingestion_job (impl : string -> Py.result pyval) : job :=
  fun _ => call_method APIDataIngester impl "run_ingestion".


(** [run_once(job_name)]; [health] and [cleanup] are the two monitoring
    jobs, which catch their exceptions and return a boolean.  Without a
    job name the two ingestion jobs run in turn. *)
Definition run_once (csv_impl api_impl : string -> Py.result pyval)
    (health cleanup : bool) (job_name : option string) : job :=
  fun st =>
    match job_name with
    | Some (String c name' as name) =>
        if String.eqb name "csv" then csv_ingestion_job csv_impl st
        else if String.eqb name "api" then api_ingestion_job api_impl st
        else if String.eqb name "health" then Py.Ok (PBool health)
        else if String.eqb name "cleanup" then Py.Ok (PBool cleanup)
        else Py.Ok (PBool false)
    | _ =>
        match csv_ingestion_job csv_impl st with
        | Py.Raise e => Py.Raise e
        | Py.Ok csv_result =>
            match api_ingestion_job api_impl st with
            | Py.Raise e => Py.Raise e
            | Py.Ok api_result => Py.Ok (PDict [("csv", csv_result); ("api", api_result)])
            end
        end
    end.

(** [int(s)] with its [ValueError]. *)
Definition int_of (s : string) : Py.result Z :=
  match PyStr.py_int s with
  | Some n => Py.Ok n
  | None => Py.Raise (Py.ValueError ("invalid literal for int() with base 10: '" +:+ s +:+ "'"))
  end.

(** [parse_interval]: the interval in minutes. *)
Definition parse_interval (interval_str : string) : Py.result Z :=
  if PyStr.endswith "m" interval_str then int_of (PyStr.drop_last interval_str)
  else if PyStr.endswith "h" interval_str then
    match int_of (PyStr.drop_last interval_str) with
    | Py.Ok n => Py.Ok (n * 60)
    | Py.Raise e => Py.Raise e
    end
  else if PyStr.endswith "d" interval_str then
    match int_of (PyStr.drop_last interval_str) with
    | Py.Ok n => Py.Ok (n * 1440)
    | Py.Raise e => Py.Raise e
    end
  else int_of interval_str.

(** The jobs registered with the [schedule] module. *)
Inductive time_unit := Minutes | Hours | Days.

Inductive entry :=
| Every (n : Z) (unit : time_unit) (job_name : string)
| DailyAt (time : string) (job_name : string).

(** The period of an entry, in minutes. *)
Definition period (e : entry) : Z :=
  match e with
  | Every n Minutes _ => n
  | Every n Hours _ => n * 60
  | Every n Days _ => n * 1440
  | DailyAt _ _ => 1440
  end.

Definition job_of (e : entry) : string :=
  match e with
  | Every _ _ job_name | DailyAt _ job_name => job_name
  end.

(** [schedule_job]; [at_ok] tells whether [schedule] accepts a time of
    day, and raises otherwise.  The two [if] statements are independent:
    a job with a start time is registered twice. *)
Definition schedule_job (at_ok : string -> bool) (job_name interval_str : string)
    (start_time : option string) (jobs : list entry) : Py.result (list entry) :=
  match parse_interval interval_str with
  | Py.Raise e => Py.Raise e
  | Py.Ok interval_minutes =>
      let daily :=
        match start_time with
        | Some (String _ _ as t) =>
            if at_ok t then Py.Ok (jobs ++ [DailyAt t job_name])
            else Py.Raise (Py.ValueError "Invalid time format")
        | _ => Py.Ok jobs
        end in
      match daily with
      | Py.Raise e => Py.Raise e
      | Py.Ok jobs =>
          if interval_minutes <? 60 then
            Py.Ok (jobs ++ [Every interval_minutes Minutes job_name])
          else if interval_minutes <? 1440 then
            let hours := interval_minutes / 60 in
            Py.Ok (jobs ++ [Every hours Hours job_name])
          else
            let days := interval_minutes / 1440 in
            Py.Ok (jobs ++ [Every days Days job_name])
      end
  end.

(** One job section of the [scheduling] configuration; an absent key is
    [None]. *)
Record JobConfig := mk_job_config {
  enabled : option bool;
  interval : option string;
  job_start_time : option string
}.

Record Scheduling := mk_scheduling {
  csv_section : option JobConfig;
  api_section : option JobConfig;
  health_check_interval : option string;
  cleanup_interval : option string
}.

(** One of the two ingestion blocks of [setup_schedules]: [enabled] is
    read with defaults, the section itself by subscript. *)
Definition setup_ingestion (at_ok : string -> bool) (job_name default_interval : string)
    (section : option JobConfig) (jobs : list entry) : Py.result (list entry) :=
  if default true (section ≫= enabled) then
    match section with
    | None => Py.Raise (Py.KeyError ("'" +:+ job_name +:+ "'"))
    | Some config =>
        schedule_job at_ok job_name (default default_interval (interval config))
          (job_start_time config) jobs
    end
  else Py.Ok jobs.

(** [setup_schedules] *)
Definition setup_schedules (at_ok : string -> bool) (cfg : Scheduling)
    (jobs : list entry) : Py.result (list entry) :=
  match setup_ingestion at_ok "csv_ingestion" "6h" (csv_section cfg) jobs with
  | Py.Raise e => Py.Raise e
  | Py.Ok jobs =>
      match setup_ingestion at_ok "api_ingestion" "2h" (api_section cfg) jobs with
      | Py.Raise e => Py.Raise e
      | Py.Ok jobs =>
          match schedule_job at_ok "health_check"
                  (default "30m" (health_check_interval cfg)) None jobs with
          | Py.Raise e => Py.Raise e
          | Py.Ok jobs =>
              schedule_job at_ok "cleanup" (default "24h" (cleanup_interval cfg)) None jobs
          end
      end
  end.

End Scheduler.

(** ** [APIDataIngester]: one endpoint, and the whole run *)

Module ApiPipeline.
Import PurePath DateTime Trace.

(** The configuration entries read: the retry settings, [data.raw_path],
    [api_ingestion.backup_responses] and [rate_limit_delay], the storage
    manager's configuration, and the keys of [api_endpoints] in order. *)
Record Config := mk_config {
  api : Api.Config;
  raw_path : string;
  backup_responses : bool;
  rate_limit_delay : Z;
  storage : Storage.Config;
  api_endpoints : list string
}.

(** The ingester's surroundings: the disk, the clock by logical time,
    what the session yields for an endpoint at a try, and the frame
    [pandas] builds from a decoded body, with the columns the ingester
    adds; a raised frame stands for any exception of that construction. *)
Record Env := mk_env {
  fs_env : FS.Env;
  clock : nat -> datetime;
  request : string -> Z -> Api.outcome;
  frame : string -> Json.json -> Py.result Pandas.DataFrame
}.

(** [datetime.now()] *)
Definition now (env : Env) : Py.M Csv.World datetime :=
  fun w => (Py.Ok (clock env (Csv.ticks w)),
            Csv.mk_world (Csv.files w) (S (Csv.ticks w))).

(** [process_api_data]: [None] when the body has not the expected shape
    or when building the frame raises. *)
Definition process_api_data (env : Env) (endpoint_name : string)
    (raw_data : Json.json) : option Pandas.DataFrame :=
  let build data :=
    match frame env endpoint_name data with
    | Py.Ok df => Some df
    | Py.Raise _ => None
    end in
  if String.eqb endpoint_name "products" then
    match raw_data with
    | Json.JObj fields =>
        match Json.assoc "products" fields with
        | Some products => build products
        | None => None
        end
    | _ => None
    end
  else if String.eqb endpoint_name "categories" then
    match raw_data with
    | Json.JList _ => build raw_data
    | _ => None
    end
  else
    match raw_data with
    | Json.JList _ | Json.JObj _ => build raw_data
    | _ => None
    end.

(** The dictionary [save_api_data] returns. *)
Record SaveResult := mk_save {
  s_status : string;
  s_records_count : Z;
  s_output_file : string;
  s_backup_file : string;
  s_error : string
}.

(** The latest file of an endpoint. *)
Definition latest (cfg : Config) (endpoint_name : string) : Path :=
  of_string (raw_path cfg +:+ "/" +:+ endpoint_name +:+ "_latest.parquet").

(** The [try] block of [save_api_data]. *)
Definition save_block (cfg : Config) (env : Env) (df : Pandas.DataFrame)
    (endpoint_name : string) : Py.M Csv.World SaveResult :=
  let* t1 := now env in
  let timestamp := strftime_compact t1 in
  let* t2 := now env in
  let* output_path :=
    Csv.on_files (Storage.organize_data (storage cfg) (fs_env env) t2
      df endpoint_name "api_ingestion" (Some t2)
      (Some [("endpoint", Json.JStr endpoint_name);
             ("ingestion_timestamp", Json.JStr timestamp);
             ("api_source", Json.JStr "dummyjson");
             ("total_records", Json.JInt (Pandas.len df))])) in
  Csv.on_files (FS.to_parquet (fs_env env) df (latest cfg endpoint_name)) ;;
  let backup_file :=
    if backup_responses cfg
    then "data/api_responses/" +:+ endpoint_name +:+ "_" +:+ timestamp +:+ ".json"
    else "" in
  Py.ret (mk_save "success" (Pandas.len df) output_path backup_file "").

(** [save_api_data]: every exception of the block becomes the [error]
    of a failed result. *)
Definition save_api_data (cfg : Config) (env : Env) (df : Pandas.DataFrame)
    (endpoint_name : string) (w : Csv.World) : SaveResult * Csv.World :=
  match save_block cfg env df endpoint_name w with
  | (Py.Ok result, w') => (result, w')
  | (Py.Raise e, w') =>
      (mk_save "failed" 0 "" ""
         ("Failed to save data for " +:+ endpoint_name +:+ ": " +:+ Py.str_of e), w')
  end.

(** [self.ingestion_stats], without its two times. *)
Record Stats := mk_stats {
  total_records : Z;
  errors : list string;
  apis_processed : Z;
  apis_failed : Z
}.

(** What a call acts on: the world, the tries and pauses so far, and
    the statistics. *)
Record Run := mk_run {
  world : Csv.World;
  trace : list event;
  stats : Stats
}.

(** The result of [ingest_endpoint], without [processing_time]. *)
Record EndpointResult := mk_result {
  endpoint : string;
  status : string;
  records_count : Z;
  output_file : string;
  error : string
}.

(** [self.ingestion_stats['errors'].append(msg)] *)
Definition add_error (msg : string) (r : Run) : Run :=
  mk_run (world r) (trace r)
    (mk_stats (total_records (stats r)) (errors (stats r) ++ [msg])
       (apis_processed (stats r)) (apis_failed (stats r))).

(** [self.ingestion_stats['total_records'] += n] *)
Definition add_records (n : Z) (r : Run) : Run :=
  mk_run (world r) (trace r)
    (mk_stats (total_records (stats r) + n) (errors (stats r))
       (apis_processed (stats r)) (apis_failed (stats r))).

Definition set_world (w : Csv.World) (r : Run) : Run :=
  mk_run w (trace r) (stats r).

(** [time.sleep(d)] *)
Definition sleep (d : Z) (r : Run) : Run :=
  mk_run (Csv.after_pause (world r)) (trace r ++ [Sleep d]) (stats r).

(** The backup of the raw response in [ingest_endpoint]. *)
Definition backup_response (cfg : Config) (env : Env) (endpoint_name : string)
    (raw_data : Json.json) : Py.M Csv.World unit :=
  if backup_responses cfg then
    let* t := now env in
    let timestamp := strftime_compact t in
    let backup_path :=
      "data/api_responses/" +:+ endpoint_name +:+ "_" +:+ timestamp +:+ ".json" in
    Csv.on_files (FS.dump_json (fs_env env) raw_data (of_string backup_path))
  else Py.ret tt.

(** [ingest_endpoint].  The two [return result] statements inside the
    [try] block leave the function at once; every other path ends with
    the rate-limit pause.  A decoded body [None] is the JSON [null].
    The pauses are [time.sleep] calls, which return for a length that is
    not negative and raise [ValueError] otherwise: the function is
    followed for [0 <= retry_delay], where [make_api_request] returns,
    and [0 <= rate_limit_delay], where the pause at the end, which is
    outside the [try] block, returns. *)
Definition ingest_endpoint (cfg : Config) (env : Env) (endpoint_name : string)
    (r : Run) : EndpointResult * Run :=
  let failed msg := mk_result endpoint_name "failed" 0 "" msg in
  let '((success, raw_data, error_msg), tries) :=
    Api.make_api_request (api cfg) (request env endpoint_name) in
  let r := mk_run (world r) (trace r ++ tries) (stats r) in
  if negb success then
    (failed error_msg, add_error (endpoint_name +:+ ": " +:+ error_msg) r)
  else
    let raw_data := default Json.JNull raw_data in
    match backup_response cfg env endpoint_name raw_data (world r) with
    | (Py.Raise e, w1) =>
        let error_msg :=
          "Unexpected error during " +:+ endpoint_name +:+ " ingestion: " +:+ Py.str_of e in
        (failed error_msg,
         sleep (rate_limit_delay cfg)
           (add_error (endpoint_name +:+ ": " +:+ error_msg) (set_world w1 r)))
    | (Py.Ok _, w1) =>
        match process_api_data env endpoint_name raw_data with
        | None =>
            (failed "Failed to process API response data",
             add_error (endpoint_name +:+ ": Data processing failed") (set_world w1 r))
        | Some df =>
            let '(save_result, w2) := save_api_data cfg env df endpoint_name w1 in
            if String.eqb (s_status save_result) "success" then
              (mk_result endpoint_name "success" (s_records_count save_result)
                 (s_output_file save_result) "",
               sleep (rate_limit_delay cfg)
                 (add_records (s_records_count save_result) (set_world w2 r)))
            else
              (failed (s_error save_result),
               sleep (rate_limit_delay cfg)
                 (add_error (endpoint_name +:+ ": " +:+ s_error save_result)
                    (set_world w2 r)))
        end
    end.

(** [results[k] = v] on a dict kept in insertion order. *)
Fixpoint dict_set {V} (k : string) (v : V) (d : list (string * V)) : list (string * V) :=
  match d with
  | [] => [(k, v)]
  | (k', v') :: rest =>
      if String.eqb k k' then (k, v) :: rest else (k', v') :: dict_set k v rest
  end.

(** [apis_processed += 1] or [apis_failed += 1] *)
Definition count_endpoint (ok : bool) (r : Run) : Run :=
  mk_run (world r) (trace r)
    (mk_stats (total_records (stats r)) (errors (stats r))
       (if ok then apis_processed (stats r) + 1 else apis_processed (stats r))
       (if ok then apis_failed (stats r) else apis_failed (stats r) + 1)).

(** The loop of [run_ingestion] over the endpoints.  Its handler
    catches what [ingest_endpoint] raises; [ingest_endpoint] catches
    every exception of its [try] block itself, and its one statement
    that can raise outside the block is the rate-limit pause, which
    returns for [0 <= rate_limit_delay].  The loop is followed for such
    delays, where the handler is not entered. *)
Fixpoint ingest_all (cfg : Config) (env : Env) (endpoints : list string)
    (results : list (string * EndpointResult)) (r : Run)
  : list (string * EndpointResult) * Run :=
  match endpoints with
  | [] => (results, r)
  | endpoint_name :: rest =>
      let '(result, r) := ingest_endpoint cfg env endpoint_name r in
      let results := dict_set endpoint_name result results in
      let r := count_endpoint (String.eqb (status result) "success") r in
      ingest_all cfg env rest results r
  end.

(** The document of [_save_ingestion_metadata], without its times. *)
Definition result_json (res : EndpointResult) : Json.json :=
  Json.JObj [("endpoint", Json.JStr (endpoint res));
             ("status", Json.JStr (status res));
             ("records_count", Json.JInt (records_count res));
             ("output_file", Json.JStr (output_file res));
             ("error", Json.JStr (error res))].

Definition metadata_json (timestamp : string) (st : Stats)
    (results : list (string * EndpointResult)) : Json.json :=
  Json.JObj [("ingestion_type", Json.JStr "api");
             ("timestamp", Json.JStr timestamp);
             ("endpoints_processed", Json.JInt (apis_processed st));
             ("endpoints_failed", Json.JInt (apis_failed st));
             ("total_records", Json.JInt (total_records st));
             ("errors", Json.JList (map Json.JStr (errors st)));
             ("detailed_results",
              Json.JObj (map (fun kv => (fst kv, result_json (snd kv))) results))].

(** [_save_ingestion_metadata]: a failed write is logged and swallowed. *)
Definition _save_ingestion_metadata (env : Env)
    (results : list (string * EndpointResult)) (r : Run) : Run :=
  let '(t, w) := (clock env (Csv.ticks (world r)),
                  Csv.mk_world (Csv.files (world r)) (S (Csv.ticks (world r)))) in
  let timestamp := strftime_compact t in
  let metadata_path :=
    of_string ("data/ingestion_metadata/api_ingestion_" +:+ timestamp +:+ ".json") in
  let '(_, w') :=
    Csv.on_files (FS.dump_json (fs_env env) (metadata_json timestamp (stats r) results)
                    metadata_path) w in
  set_world w' r.

(** What [run_ingestion] returns: the flat dict of the run without
    endpoints, or the results by endpoint. *)
Inductive Results :=
| NoEndpoints
| ByEndpoint (results : list (string * EndpointResult)).

(** A reading of the clock that is stored in the statistics. *)
Definition tick (r : Run) : Run :=
  set_world (Csv.mk_world (Csv.files (world r)) (S (Csv.ticks (world r)))) r.

(** [run_ingestion] *)
Definition run_ingestion (cfg : Config) (env : Env) (r : Run) : Results * Run :=
  let r := tick r in
  match api_endpoints cfg with
  | [] => (NoEndpoints, r)
  | endpoints =>
      let '(results, r) := ingest_all cfg env endpoints [] r in
      let r := tick r in
      let r := _save_ingestion_metadata env results r in
      (ByEndpoint results, r)
  end.

(** The returned value as the scheduler sees it. *)
Definition result_pyval (res : EndpointResult) : Scheduler.pyval :=
  Scheduler.PDict [("endpoint", Scheduler.PStr (endpoint res));
                   ("status", Scheduler.PStr (status res));
                   ("records_count", Scheduler.PInt (records_count res));
                   ("output_file", Scheduler.PStr (output_file res));
                   ("error", Scheduler.PStr (error res))].

Definition to_pyval (out : Results) : Scheduler.pyval :=
  match out with
  | NoEndpoints =>
      Scheduler.PDict [("status", Scheduler.PStr "failed");
                       ("error", Scheduler.PStr "No API endpoints configured")]
  | ByEndpoint results =>
      Scheduler.PDict (map (fun kv => (fst kv, result_pyval (snd kv))) results)
  end.


(** Whether a result reports success, and the counts and the records
    of a table of results. *)
Definition ok (res : EndpointResult) : bool := String.eqb (status res) "success".

Definition succeeded (results : list (string * EndpointResult)) : Z :=
  Z.of_nat (length (List.filter (fun kv => ok (snd kv)) results)).

Definition failed (results : list (string * EndpointResult)) : Z :=
  Z.of_nat (length (List.filter (fun kv => negb (ok (snd kv))) results)).

Definition records (results : list (string * EndpointResult)) : Z :=
  foldr Z.add 0 (map (fun kv => records_count (snd kv)) results).


(** [results.get(k)] on the table of results. *)
Fixpoint dict_get_result (k : string) (d : list (string * EndpointResult))
  : option EndpointResult :=
  match d with
  | [] => None
  | (k', v) :: rest => if String.eqb k k' then Some v else dict_get_result k rest
  end.

End ApiPipeline.

(** ** [IngestionOrchestrator] *)

Module Orchestrator.

(** What the orchestrator reads of one source's result in the dict
    [run_full_csv_ingestion] returns. *)
Record SourceResult := mk_source {
  status : string;
  records_count : Z
}.

(** What the call of an ingester inside a [try] block yields: an
    exception, or the returned dict.  The CSV pipeline returns the
    results of its two sources, [events] and [item_properties], in this
    order; the API pipeline returns what [run_ingestion] returns. *)
Inductive CsvOutcome :=
| CsvRaised (e : Py.exn)
| CsvReturned (events item_properties : SourceResult).

Inductive ApiOutcome :=
| ApiRaised (e : Py.exn)
| ApiReturned (out : ApiPipeline.Results).

(** The second component of what [run_csv_ingestion] and
    [run_api_ingestion] return: the ingester's results, or the dict
    [{'error': msg}] of the handler. *)
Inductive CsvReport :=
| CsvResults (events item_properties : SourceResult)
| CsvError (msg : string).

Inductive ApiReport :=
| ApiResults (results : list (string * ApiPipeline.EndpointResult))
| ApiError (msg : string).

Definition source_ok (r : SourceResult) : bool := String.eqb (status r) "success".

(** [run_csv_ingestion]: the loop over the results stops at the first
    one that is not a success. *)
Definition run_csv_ingestion (o : CsvOutcome) : bool * CsvReport :=
  match o with
  | CsvRaised e => (false, CsvError ("CSV ingestion failed: " +:+ Py.str_of e))
  | CsvReturned events item_properties =>
      (source_ok events && source_ok item_properties, CsvResults events item_properties)
  end.

(** [run_api_ingestion]: the values of the dict returned without
    endpoints are strings, and [result.get] on the first of them raises
    inside the [try] block. *)
Definition run_api_ingestion (o : ApiOutcome) : bool * ApiReport :=
  match o with
  | ApiRaised e => (false, ApiError ("API ingestion failed: " +:+ Py.str_of e))
  | ApiReturned ApiPipeline.NoEndpoints =>
      (false, ApiError ("API ingestion failed: " +:+
                        Py.str_of (Py.AttributeError "'str' object has no attribute 'get'")))
  | ApiReturned (ApiPipeline.ByEndpoint results) =>
      (forallb (fun kv => ApiPipeline.ok (snd kv)) results, ApiResults results)
  end.

(** The dict [_generate_pipeline_summary] returns. *)
Record Summary := mk_summary {
  total_sources : Z;
  successful_sources : Z;
  failed_sources : Z;
  total_records : Z;
  csv_records : Z;
  api_records : Z;
  errors : list string
}.

(** The CSV half of the summary: successes, failures, records, errors. *)
Definition csv_summary (csv : bool * CsvReport) : Z * Z * Z * list string :=
  match csv with
  | (true, CsvResults events item_properties) =>
      (1, 0, records_count events + records_count item_properties, [])
  | (true, CsvError _) => (1, 0, 0, [])
  | (false, CsvResults _ _) => (0, 1, 0, [])
  | (false, CsvError msg) => (0, 1, 0, ["CSV: " +:+ msg])
  end.

(** The records of the endpoints that report success. *)
Definition success_records (results : list (string * ApiPipeline.EndpointResult)) : Z :=
  foldr Z.add 0
    (map (fun kv => if ApiPipeline.ok (snd kv)
                    then ApiPipeline.records_count (snd kv) else 0) results).

(** The error lines of the endpoints that do not report success. *)
Definition endpoint_errors (results : list (string * ApiPipeline.EndpointResult))
  : list string :=
  map (fun kv => "API (" +:+ fst kv +:+ "): " +:+ ApiPipeline.error (snd kv))
      (List.filter (fun kv => negb (ApiPipeline.ok (snd kv))) results).

(** The API half.  [repr] prints a result dict, which is what the error
    line holds when an endpoint is itself called [error]; iterating the
    items of the handler's dict under a true success flag raises. *)
Definition api_summary (repr : ApiPipeline.EndpointResult -> string)
    (api : bool * ApiReport) : Py.result (Z * Z * Z * list string) :=
  match api with
  | (true, ApiResults results) => Py.Ok (1, 0, success_records results, [])
  | (true, ApiError _) =>
      Py.Raise (Py.AttributeError "'str' object has no attribute 'get'")
  | (false, ApiError msg) => Py.Ok (0, 1, 0, ["API: " +:+ msg])
  | (false, ApiResults results) =>
      match ApiPipeline.dict_get_result "error" results with
      | Some r => Py.Ok (0, 1, 0, ["API: " +:+ repr r])
      | None => Py.Ok (0, 1, 0, endpoint_errors results)
      end
  end.

(** [_generate_pipeline_summary] *)
Definition _generate_pipeline_summary (repr : ApiPipeline.EndpointResult -> string)
    (csv : bool * CsvReport) (api : bool * ApiReport) : Py.result Summary :=
  let '(csv_ok, csv_failed, csv_count, csv_errors) := csv_summary csv in
  match api_summary repr api with
  | Py.Raise e => Py.Raise e
  | Py.Ok (api_ok, api_failed, api_count, api_errors) =>
      Py.Ok (mk_summary (1 + 1) (csv_ok + api_ok) (csv_failed + api_failed)
               (csv_count + api_count) csv_count api_count (csv_errors ++ api_errors))
  end.

(** What [run_full_ingestion] does in order, and the dict it returns,
    without its times. *)
Inductive step :=
| RunCsv
| Wait (seconds : Z)
| RunApi.

Record PipelineResults := mk_pipeline {
  csv_ingestion : option (bool * CsvReport);
  api_ingestion : option (bool * ApiReport);
  overall_status : string;
  summary : option Summary;
  error : option string
}.

(** [run_full_ingestion]; [initialized] is what [initialize_ingesters]
    returns.  The metadata file and the printed summary are left out. *)
Definition run_full_ingestion (repr : ApiPipeline.EndpointResult -> string)
    (initialized : bool) (csv : CsvOutcome) (api : ApiOutcome)
  : Py.result PipelineResults * list step :=
  if negb initialized then
    (Py.Ok (mk_pipeline None None "failed" None
              (Some "Failed to initialize ingestion components")), [])
  else
    let csv_report := run_csv_ingestion csv in
    let api_report := run_api_ingestion api in
    let overall_success := fst csv_report && fst api_report in
    let steps := [RunCsv; Wait 10; RunApi] in
    match _generate_pipeline_summary repr csv_report api_report with
    | Py.Raise e => (Py.Raise e, steps)
    | Py.Ok s =>
        (Py.Ok (mk_pipeline (Some csv_report) (Some api_report)
                  (if overall_success then "success" else "failed") (Some s) None),
         steps)
    end.

End Orchestrator.

(** ** Concrete scenarios *)

Module Scenario.
Import PurePath DateTime.

(** A disk on which every write succeeds and every file takes 1024
    bytes. *)
Definition disk_ok : FS.Env :=
  FS.mk_env (fun _ _ => true) (fun _ => true) (fun _ => true) (fun _ => 1024).

Definition storage_cfg : Storage.Config :=
  Storage.mk_config "data/raw" [("raw", 90)].

(** The default ingestion settings except for the pause: three retries,
    five seconds. *)
Definition csv_cfg : Csv.Config :=
  Csv.mk_config "data/raw" "data/archive" 3 5 true storage_cfg.

Definition api_cfg : Api.Config := Api.mk_config 3 5.

Definition noon : datetime := mk_dt 2024 3 1 12 0 0 0.

Definition events_columns : list string :=
  ["timestamp"; "itemid"; "visitorid"; "event"; "transactionid"].

Definition events_chunk : Pandas.DataFrame :=
  Pandas.mk_df events_columns
    [(0, [Pandas.CInt 1433221332; Pandas.CInt 355908; Pandas.CInt 257597;
          Pandas.CStr "view"; Pandas.CNaN]);
     (1, [Pandas.CInt 1433224214; Pandas.CInt 248676; Pandas.CInt 992329;
          Pandas.CStr "view"; Pandas.CNaN]);
     (2, [Pandas.CInt 1433221332; Pandas.CInt 355908; Pandas.CInt 257597;
          Pandas.CStr "view"; Pandas.CNaN])].

(** Surroundings in which the events file cannot be read. *)
Definition csv_unreadable : Csv.Env :=
  Csv.mk_env disk_ok (fun _ => noon)
    (fun _ _ _ => Py.Raise (Py.OSError "unreadable"))
    (fun _ _ _ => Py.Raise (Py.OSError "unreadable")).

(** Surroundings in which the events file can be read from the first
    pause on. *)
Definition csv_flaky : Csv.Env :=
  Csv.mk_env disk_ok (fun _ => noon)
    (fun t _ _ => if (t =? 0)%nat then Py.Raise (Py.OSError "busy") else Py.Ok events_chunk)
    (fun _ _ _ => Py.Ok [events_chunk]).

(** The directories made by [setup_directories], and an events file. *)
Definition disk_with_events : FS.fs :=
  <[of_string "data/raw/events.csv" := FS.File (FS.Blob "timestamp,itemid,...")]>
    (<[of_string "data/archive" := FS.Dir]>
       (<[of_string "data/raw" := FS.Dir]>
          (<[of_string "data" := FS.Dir]> ∅))).

Definition start : Csv.Run :=
  Csv.mk_run (Csv.mk_world disk_with_events 0) [] [].

(** The second try of the flaky scenario: the [try] block run in the
    world reached after one failed try and its pause. *)
Definition flaky_second_try : Py.result Csv.IngestResult * Csv.World :=
  let block := Csv.events_try_block csv_cfg csv_flaky "data/raw/events.csv" in
  block (Csv.world_before block 1 (Csv.world start)).

Definition result_of (x : Py.result Csv.IngestResult * Csv.World) : Csv.IngestResult :=
  match fst x with
  | Py.Ok res => res
  | Py.Raise _ => Csv.mk_result "" "failed" 0 [] None None
  end.

(** A second batch of events. *)
Definition events_chunk2 : Pandas.DataFrame :=
  Pandas.mk_df events_columns
    [(0, [Pandas.CInt 1433223236; Pandas.CInt 318965; Pandas.CInt 483717;
          Pandas.CStr "addtocart"; Pandas.CNaN])].

(** A disk that refuses data files below the partition tree. *)
Definition disk_rejects_partitions : FS.Env :=
  FS.mk_env
    (fun p _ => negb (FS.is_under (of_string "data/raw/source=csv_ingestion") p))
    (fun _ => true) (fun _ => true) (fun _ => 1024).

Definition csv_on_rejecting_disk : Csv.Env :=
  Csv.mk_env disk_rejects_partitions (fun _ => noon)
    (fun _ _ _ => Py.Ok events_chunk) (fun _ _ _ => Py.Ok [events_chunk]).

(** A disk that refuses to write the latest file of the events. *)
Definition disk_locks_latest : FS.Env :=
  FS.mk_env
    (fun p _ => negb (String.eqb (name p) "events_latest.parquet"))
    (fun _ => true) (fun _ => true) (fun _ => 1024).

Definition csv_latest_locked : Csv.Env :=
  Csv.mk_env disk_locks_latest (fun _ => noon)
    (fun _ _ _ => Py.Ok events_chunk2) (fun _ _ _ => Py.Ok [events_chunk2]).

(** A disk on which no sidecar can be opened for writing. *)
Definition disk_refuses_sidecars : FS.Env :=
  FS.mk_env
    (fun _ _ => true)
    (fun p => negb (PyStr.endswith ".metadata.json" (name p)))
    (fun _ => true) (fun _ => 1024).

(** The disk after an earlier run: the latest file holds the first
    batch. *)
Definition disk_with_latest : FS.fs :=
  <[Csv.events_latest csv_cfg := FS.File (FS.Parquet events_chunk)]> disk_with_events.

Definition one_second_later : datetime := mk_dt 2024 3 1 12 0 1 0.

(** The instant [n] days before noon of 2024-03-01. *)
Definition days_ago (n : Z) : datetime := default noon (sub_days noon n).

(** The disk after [organize_data] has stored a batch stamped [t]. *)
Definition organized (t : datetime) (s : FS.fs) : FS.fs :=
  snd (Storage.organize_data storage_cfg disk_ok t events_chunk "events"
         "csv_ingestion" (Some t)
         (Some [("original_file", Json.JStr "data/raw/events.csv")]) s).

(** A tree with partitions dated 10, 40 and 100 days ago. *)
Definition three_partitions : FS.fs :=
  organized (days_ago 10) (organized (days_ago 40) (organized (days_ago 100) ∅)).

(** The partition directory of the batch stamped [t]. *)
Definition partition_of (t : datetime) : Path :=
  Storage.create_partitioned_path storage_cfg t "raw" "events" "csv_ingestion" (Some t).

(** A tree in the layout the cleanup scans, with one day directory dated
    100 days ago and one dated 10 days ago. *)
Definition year_month_day_tree : FS.fs :=
  <[of_string "data/raw/events/year=2024/month=02/day=20/part.parquet"
      := FS.File (FS.Parquet events_chunk)]>
  (<[of_string "data/raw/events/year=2024/month=02/day=20" := FS.Dir]>
  (<[of_string "data/raw/events/year=2024/month=02" := FS.Dir]>
  (<[of_string "data/raw/events/year=2024" := FS.Dir]>
  (<[of_string "data/raw/events/year=2023/month=11/day=22/part.parquet"
      := FS.File (FS.Parquet events_chunk)]>
  (<[of_string "data/raw/events/year=2023/month=11/day=22" := FS.Dir]>
  (<[of_string "data/raw/events/year=2023/month=11" := FS.Dir]>
  (<[of_string "data/raw/events/year=2023" := FS.Dir]>
  (<[of_string "data/raw/events" := FS.Dir]>
  (<[of_string "data/raw" := FS.Dir]>
  (<[of_string "data" := FS.Dir]> ∅)))))))))).

(** A server that answers every request with HTTP 503. *)
Definition always_503 : Z -> Api.outcome :=
  fun _ => Api.Response 503 "Service Unavailable" None.

(** A server that answers every request with HTTP 501. *)
Definition always_501 : Z -> Api.outcome :=
  fun _ => Api.Response 501 "Not Implemented" None.

(** A server that answers every request with HTTP 404. *)
Definition always_404 : Z -> Api.outcome :=
  fun _ => Api.Response 404 "Not Found" None.

(** What the session yields when it hands back the 429 responses, as it
    does for a method outside [Api.allowed_methods]: rate limited once,
    timed out once, then answered. *)
Definition third_time_lucky : Z -> Api.outcome :=
  fun k => if k =? 1 then Api.Response 429 "Too Many Requests" None
           else if k =? 2 then Api.RequestException "timed out"
           else Api.Response 200 "[]" (Some (Json.JList [])).

(** A server that answers HTTP 503 once, whose connection times out
    once, and that answers then. *)
Definition recovering : Z -> Api.outcome :=
  fun k => if k =? 1 then Api.Response 503 "Service Unavailable" None
           else if k =? 2 then Api.RequestException "timed out"
           else Api.Response 200 "[]" (Some (Json.JList [])).

(** Rate limited every time, for such a method. *)
Definition always_429 : Z -> Api.outcome :=
  fun _ => Api.Response 429 "Too Many Requests" None.


(** A disk with an archived events file and an ingestion log, both
    stamped 2024-02-29 10:15:00. *)
Definition disk_with_backups : FS.fs :=
  <[of_string "data/ingestion_metadata/csv_ingestion_events_20240229_101500.json" :=
      FS.File (FS.Blob "{}")]>
    (<[of_string "data/archive/events_20240229_101500.csv" :=
         FS.File (FS.Blob "timestamp,itemid,...")]>
       (<[of_string "data/ingestion_metadata" := FS.Dir]>
          (<[of_string "data/archive" := FS.Dir]>
             (<[of_string "data" := FS.Dir]> ∅)))).


(** Two endpoints: the products answer at once, the categories are not
    found. *)
Definition two_endpoints : ApiPipeline.Config :=
  ApiPipeline.mk_config api_cfg "data/raw" true 1 storage_cfg ["products"; "categories"].

Definition products_frame : Pandas.DataFrame :=
  Pandas.mk_df ["id"; "title"]
    [(0, [Pandas.CInt 1; Pandas.CStr "Essence Mascara"]);
     (1, [Pandas.CInt 2; Pandas.CStr "Eyeshadow Palette"])].

Definition api_surroundings : ApiPipeline.Env :=
  ApiPipeline.mk_env disk_ok (fun _ => noon)
    (fun endpoint_name _ =>
       if String.eqb endpoint_name "products"
       then Api.Response 200 "{...}"
              (Some (Json.JObj
                 [("products",
                   Json.JList
                     [Json.JObj [("id", Json.JInt 1); ("title", Json.JStr "Essence Mascara")];
                      Json.JObj [("id", Json.JInt 2);
                                 ("title", Json.JStr "Eyeshadow Palette")]])]))
       else Api.Response 404 "Not Found" None)
    (fun _ _ => Py.Ok products_frame).

(** The directories made by [setup_directories], and fresh statistics. *)
Definition api_start : ApiPipeline.Run :=
  ApiPipeline.mk_run
    (Csv.mk_world
       (<[of_string "data/api_responses" := FS.Dir]>
          (<[of_string "data/ingestion_metadata" := FS.Dir]>
             (<[of_string "data/raw" := FS.Dir]>
                (<[of_string "data" := FS.Dir]> ∅)))) 0)
    [] (ApiPipeline.mk_stats 0 [] 0 0).


(** A configuration without endpoints. *)
Definition no_endpoints : ApiPipeline.Config :=
  ApiPipeline.mk_config api_cfg "data/raw" true 1 storage_cfg [].


(** Item properties: the first part is on the disk, the second is
    missing; the pair (355908, categoryid) occurs twice. *)
Definition items_chunk : Pandas.DataFrame :=
  Pandas.mk_df ["timestamp"; "itemid"; "property"; "value"]
    [(0, [Pandas.CInt 1435460400; Pandas.CInt 355908; Pandas.CStr "categoryid";
          Pandas.CStr "1173"]);
     (1, [Pandas.CInt 1441508400; Pandas.CInt 206783; Pandas.CStr "888";
          Pandas.CStr "1116713"]);
     (2, [Pandas.CInt 1439089200; Pandas.CInt 355908; Pandas.CStr "categoryid";
          Pandas.CStr "1338"])].

Definition items_surroundings : Csv.Env :=
  Csv.mk_env disk_ok (fun _ => noon)
    (fun _ _ _ => Py.Ok items_chunk) (fun _ _ _ => Py.Ok [items_chunk]).

Definition disk_with_items : FS.fs :=
  <[of_string "data/raw/item_properties_part1.csv" := FS.File (FS.Blob "timestamp,itemid,...")]>
    (<[of_string "data/archive" := FS.Dir]>
       (<[of_string "data/raw" := FS.Dir]>
          (<[of_string "data" := FS.Dir]> ∅))).

Definition items_paths : list string :=
  ["data/raw/item_properties_part1.csv"; "data/raw/item_properties_part2.csv"].

Definition items_try : Py.result Csv.ItemsResult * Csv.World :=
  Csv.items_try_block csv_cfg items_surroundings items_paths (Csv.mk_world disk_with_items 0).

Definition items_result_of (x : Py.result Csv.ItemsResult * Csv.World) : Csv.ItemsResult :=
  match fst x with
  | Py.Ok res => res
  | Py.Raise _ => Csv.mk_items [] "failed" 0 0 [] None None
  end.

End Scenario.

(** * Properties *)

(** ** Strings, digits and path components *)

Ltac div_lia := Z.to_euclidean_division_equations; lia.

Section StringFacts.
Import PyStr.

Lemma digit_range_cases (d : Z) :
  0 <= d < 10 ->
  d = 0 \/ d = 1 \/ d = 2 \/ d = 3 \/ d = 4 \/ d = 5 \/ d = 6 \/ d = 7 \/ d = 8 \/ d = 9.
Proof. lia. Qed.

Lemma digit_char_inj (a b : Z) :
  0 <= a < 10 -> 0 <= b < 10 -> digit_char a = digit_char b -> a = b.
Proof.
  intros Ha Hb.
  destruct (digit_range_cases a Ha) as [->|[->|[->|[->|[->|[->|[->|[->|[->| ->]]]]]]]]];
    destruct (digit_range_cases b Hb) as [->|[->|[->|[->|[->|[->|[->|[->|[->| ->]]]]]]]]];
    vm_compute; congruence.
Qed.

Lemma digit_char_not_slash (d : Z) :
  0 <= d < 10 -> Ascii.eqb (digit_char d) "/" = false.
Proof.
  intros Hd.
  destruct (digit_range_cases d Hd) as [->|[->|[->|[->|[->|[->|[->|[->|[->| ->]]]]]]]]];
    reflexivity.
Qed.

Lemma pad2_inj (a b : Z) :
  0 <= a < 100 -> 0 <= b < 100 -> pad2 a = pad2 b -> a = b.
Proof.
  intros Ha Hb H. unfold pad2 in H. injection H as H1 H2.
  apply digit_char_inj in H1; [| div_lia | div_lia].
  apply digit_char_inj in H2; [| div_lia | div_lia].
  div_lia.
Qed.

Lemma split_on_no_sep (sep : ascii) (s : string) :
  contains_char sep s = false -> split_on sep s = [s].
Proof.
  induction s as [|c s IH]; simpl; [done|].
  intros H. apply orb_false_iff in H as [Hc Hs].
  rewrite Hc, (IH Hs). done.
Qed.

Lemma contains_char_app (c : ascii) (s1 s2 : string) :
  contains_char c (s1 +:+ s2) = contains_char c s1 || contains_char c s2.
Proof.
  induction s1 as [|a s1 IH]; simpl; [done|].
  rewrite IH. by rewrite orb_assoc.
Qed.

End StringFacts.

Section PartitionPath.
Import PyStr DateTime PurePath Storage.

Lemma valid_bounds (t : datetime) :
  valid t = true ->
  1 <= year t <= 9999 /\ 1 <= month t <= 12 /\ 1 <= day t <= 31 /\
  0 <= hour t < 24 /\ 0 <= minute t < 60 /\ 0 <= second t < 60 /\
  0 <= microsecond t < 1000000.
Proof.
  unfold valid, valid_date. intros H.
  repeat (apply andb_true_iff in H as [H ?]).
  assert (days_in_month (year t) (month t) <= 31).
  { unfold days_in_month. repeat case_match; lia. }
  lia.
Qed.

Lemma pad2_no_slash (n : Z) : 0 <= n < 100 -> contains_char "/" (pad2 n) = false.
Proof.
  intros Hn. unfold pad2. cbn [contains_char].
  rewrite !digit_char_not_slash by div_lia. reflexivity.
Qed.

(** From the year 1000 on [%Y] prints four digits. *)
Lemma strftime_Y_long (y : Z) : 1000 <= y -> strftime_Y y = pad4 y.
Proof.
  intros Hy. unfold strftime_Y.
  destruct (Z.ltb_spec y 10); [lia|].
  destruct (Z.ltb_spec y 100); [lia|].
  destruct (Z.ltb_spec y 1000); [lia|]. reflexivity.
Qed.

Lemma strftime_Y_no_slash (y : Z) :
  0 <= y < 10000 -> contains_char "/" (strftime_Y y) = false.
Proof.
  intros Hy. unfold strftime_Y.
  destruct (Z.ltb_spec y 10);
    [|destruct (Z.ltb_spec y 100); [|destruct (Z.ltb_spec y 1000)]];
    unfold pad4, pad2; cbn [contains_char];
    rewrite !digit_char_not_slash by div_lia; reflexivity.
Qed.

Lemma strftime_compact_no_slash (t : datetime) :
  valid t = true -> contains_char "/" (strftime_compact t) = false.
Proof.
  intros V. apply valid_bounds in V.
  unfold strftime_compact.
  rewrite !contains_char_app, strftime_Y_no_slash, !pad2_no_slash by lia.
  reflexivity.
Qed.
End PartitionPath.

Section PartitionPath2.
Import PyStr DateTime PurePath Storage.

(** The compact stamp determines the fields up to the second. *)
Lemma strftime_compact_inj (t1 t2 : datetime) :
  valid t1 = true -> valid t2 = true ->
  strftime_compact t1 = strftime_compact t2 -> same_second t1 t2.
Proof.
  intros V1 V2 H.
  apply valid_bounds in V1. apply valid_bounds in V2.
  unfold strftime_compact, strftime_Y in H.
  assert (year t1 = year t2 /\ pad2 (month t1) = pad2 (month t2) /\
          pad2 (day t1) = pad2 (day t2) /\ pad2 (hour t1) = pad2 (hour t2) /\
          pad2 (minute t1) = pad2 (minute t2) /\ pad2 (second t1) = pad2 (second t2))
    as (Hy & Hm & Hd & Hh & Hmi & Hs).
  { destruct (Z.ltb_spec (year t1) 10);
      [|destruct (Z.ltb_spec (year t1) 100); [|destruct (Z.ltb_spec (year t1) 1000)]];
    (destruct (Z.ltb_spec (year t2) 10);
      [|destruct (Z.ltb_spec (year t2) 100); [|destruct (Z.ltb_spec (year t2) 1000)]]);
    unfold pad4, pad2 in *; cbn [String.append] in H;
    try (apply (f_equal String.length) in H; cbn [String.length] in H; discriminate H).
    - injection H as Y1 M1 M2 D1 D2 Ho1 Ho2 Mi1 Mi2 S1 S2.
      apply digit_char_inj in Y1; [|lia|lia].
      repeat split; congruence.
    - injection H as Y1 Y2 M1 M2 D1 D2 Ho1 Ho2 Mi1 Mi2 S1 S2.
      apply digit_char_inj in Y1; [|div_lia|div_lia].
      apply digit_char_inj in Y2; [|div_lia|div_lia].
      split; [div_lia|]. repeat split; congruence.
    - injection H as Y1 Y2 Y3 M1 M2 D1 D2 Ho1 Ho2 Mi1 Mi2 S1 S2.
      apply digit_char_inj in Y1; [|div_lia|div_lia].
      apply digit_char_inj in Y2; [|div_lia|div_lia].
      apply digit_char_inj in Y3; [|div_lia|div_lia].
      split; [div_lia|]. repeat split; congruence.
    - injection H as Y1 Y2 Y3 Y4 M1 M2 D1 D2 Ho1 Ho2 Mi1 Mi2 S1 S2.
      apply digit_char_inj in Y1; [|div_lia|div_lia].
      apply digit_char_inj in Y2; [|div_lia|div_lia].
      apply digit_char_inj in Y3; [|div_lia|div_lia].
      apply digit_char_inj in Y4; [|div_lia|div_lia].
      split; [div_lia|]. repeat split; congruence. }
  unfold same_second.
  split; [done|].
  repeat split; apply pad2_inj; (lia || done).
Qed.

Lemma strftime_compact_same_second (t1 t2 : datetime) :
  same_second t1 t2 -> strftime_compact t1 = strftime_compact t2.
Proof.
  intros (Hy & Hm & Hd & Hh & Hmi & Hs).
  unfold strftime_compact. by rewrite Hy, Hm, Hd, Hh, Hmi, Hs.
Qed.

(** Values that agree up to the second are less than a second apart. *)
Lemma same_second_close (t1 t2 : datetime) :
  valid t1 = true -> valid t2 = true -> same_second t1 t2 ->
  Z.abs (to_micro t1 - to_micro t2) < 1000000.
Proof.
  intros V1 V2 (Hy & Hm & Hd & Hh & Hmi & Hs).
  apply valid_bounds in V1. apply valid_bounds in V2.
  unfold to_micro, to_seconds, toordinal.
  rewrite Hy, Hm, Hd, Hh, Hmi, Hs. lia.
Qed.

(** A string without a slash, other than [""] and ["."], is one path
    component. *)
Lemma parse_parts_segment (s : string) :
  contains_char "/" s = false -> keep_part s = true -> parse_parts s = [s].
Proof.
  intros Hs Hk. unfold parse_parts. rewrite split_on_no_sep by done.
  cbn [List.filter]. by rewrite Hk.
Qed.

Lemma joinpath_segment (p : Path) (s : string) :
  startswith "/" s = false -> contains_char "/" s = false -> keep_part s = true ->
  p // s = mk_path (absolute p) (parts p ++ [s]).
Proof.
  intros Ha Hs Hk. unfold joinpath. rewrite Ha. by rewrite parse_parts_segment.
Qed.

(** A component [label=value] with a slash-free value. *)
Lemma joinpath_source (p : Path) (s : string) :
  contains_char "/" s = false ->
  p // ("source=" +:+ s) = mk_path (absolute p) (parts p ++ ["source=" +:+ s]).
Proof. intros Hs. apply joinpath_segment; [done | by cbn | done]. Qed.

Lemma joinpath_type (p : Path) (s : string) :
  contains_char "/" s = false ->
  p // ("type=" +:+ s) = mk_path (absolute p) (parts p ++ ["type=" +:+ s]).
Proof. intros Hs. apply joinpath_segment; [done | by cbn | done]. Qed.

Lemma joinpath_timestamp (p : Path) (s : string) :
  contains_char "/" s = false ->
  p // ("timestamp=" +:+ s) = mk_path (absolute p) (parts p ++ ["timestamp=" +:+ s]).
Proof. intros Hs. apply joinpath_segment; [done | by cbn | done]. Qed.

End PartitionPath2.

Section PartitionPath3.
Import PyStr DateTime PurePath Storage.

Lemma append_inv_head (p s1 s2 : string) : p +:+ s1 = p +:+ s2 -> s1 = s2.
Proof. induction p as [|c p IH]; cbn; [done|]. intros [= H]. auto. Qed.

(** C8, as the code has it.  [create_partitioned_path] with a timestamp
    passed in does not read the clock and depends on the timestamp only up to the second;
    for a slash-free source and data type the path is the base path
    joined with the tier, followed by the components [source=<source>],
    [type=<dataType>] and [timestamp=<stamp>]; for a timestamp from the
    year 1000 on, where [%Y] prints four digits, the stamp is
    [YYYYMMDD_HHMMSS], 15 characters; and two timestamps at least one
    second apart give different paths. *)
Theorem create_partitioned_path_pure (cfg : Config)
    (base_dir data_type source : string) (t1 t2 now1 now2 : datetime) :
  valid t1 = true -> valid t2 = true ->
  (same_second t1 t2 ->
     create_partitioned_path cfg now1 base_dir data_type source (Some t1) =
     create_partitioned_path cfg now2 base_dir data_type source (Some t2)) /\
  (contains_char "/" source = false -> contains_char "/" data_type = false ->
     create_partitioned_path cfg now1 base_dir data_type source (Some t1) =
     mk_path (absolute (base_path cfg // base_dir))
             (parts (base_path cfg // base_dir) ++
              ["source=" +:+ source; "type=" +:+ data_type;
               "timestamp=" +:+ strftime_compact t1])) /\
  (1000 <= year t1 ->
     strftime_compact t1 =
       pad4 (year t1) +:+ pad2 (month t1) +:+ pad2 (day t1) +:+ "_" +:+
       pad2 (hour t1) +:+ pad2 (minute t1) +:+ pad2 (second t1) /\
     String.length (strftime_compact t1) = 15%nat) /\
  (1000000 <= Z.abs (to_micro t1 - to_micro t2) ->
     create_partitioned_path cfg now1 base_dir data_type source (Some t1) <>
     create_partitioned_path cfg now2 base_dir data_type source (Some t2)).
Proof.
  intros V1 V2. unfold create_partitioned_path. cbv [default from_option id].
  split; [|split; [|split]].
  - intros Hs. by rewrite (strftime_compact_same_second t1 t2).
  - intros Hsrc Hdt.
    rewrite joinpath_source by done.
    rewrite joinpath_type by done.
    rewrite joinpath_timestamp by (by apply strftime_compact_no_slash).
    cbn [absolute parts]. by rewrite <- !app_assoc.
  - intros Hy. unfold strftime_compact. rewrite (strftime_Y_long _ Hy).
    split; reflexivity.
  - intros Hfar Heq.
    rewrite !joinpath_timestamp in Heq by (by apply strftime_compact_no_slash).
    injection Heq as Heq. apply app_inj_tail in Heq as [_ Heq].
    apply append_inv_head in Heq.
    apply strftime_compact_inj in Heq; [|done|done].
    pose proof (same_second_close t1 t2 V1 V2 Heq). lia.
Qed.

Lemma create_partitioned_path_pure_witness :
  let cfg := mk_config "data/raw" [("raw", 90)] in
  let t1 := mk_dt 2024 3 1 10 5 59 250000 in
  let t2 := mk_dt 2024 3 1 10 6 0 250000 in
  valid t1 = true /\ valid t2 = true /\ 1000 <= year t1 /\
  to_string (create_partitioned_path cfg t2 "raw" "events" "csv_ingestion" (Some t1)) =
    "data/raw/source=csv_ingestion/type=events/timestamp=20240301_100559" /\
  String.length (strftime_compact t1) = 15%nat /\
  create_partitioned_path cfg t1 "raw" "events" "csv_ingestion" (Some t1) <>
  create_partitioned_path cfg t2 "raw" "events" "csv_ingestion" (Some t2).
Proof.
  intros cfg t1 t2.
  destruct (create_partitioned_path_pure cfg "raw" "events" "csv_ingestion"
              t1 t2 t2 t2 eq_refl eq_refl) as (_ & Hshape & Hstamp & _).
  destruct (create_partitioned_path_pure cfg "raw" "events" "csv_ingestion"
              t1 t2 t1 t2 eq_refl eq_refl) as (_ & _ & _ & Hfar).
  assert (1000 <= year t1) as Hy by (vm_compute; discriminate).
  split; [reflexivity|]. split; [reflexivity|]. split; [exact Hy|]. split; [|split].
  - rewrite (Hshape eq_refl eq_refl). reflexivity.
  - exact (proj2 (Hstamp Hy)).
  - apply Hfar. vm_compute. discriminate.
Defined.

(** For a timestamp in the year 999 the last component of the path is
    [timestamp=9990102_030405]: the stamp has 14 characters, not the 15
    of [YYYYMMDD_HHMMSS]. *)
Lemma partition_stamp_short_before_1000 :
  let cfg := mk_config "data/raw" [("raw", 90)] in
  let t := mk_dt 999 1 2 3 4 5 0 in
  valid t = true /\
  to_string (create_partitioned_path cfg t "raw" "events" "csv_ingestion" (Some t)) =
    "data/raw/source=csv_ingestion/type=events/timestamp=9990102_030405" /\
  String.length (strftime_compact t) = 14%nat /\
  String.length (strftime_compact t) <> 15%nat.
Proof. vm_compute. repeat split. discriminate. Qed.

End PartitionPath3.


(** ** Deduplication of item properties *)

Section KeepLast.
Import Pandas.
Context {K : Type} `{EqDecision K} (key : Z * list cell -> K).

Lemma keep_last_sublist (l : list (Z * list cell)) :
  keep_last key l `sublist_of` l.
Proof.
  induction l as [|r l IH]; cbn; [constructor|].
  case_bool_decide; by constructor.
Qed.

Lemma keep_last_keys (l : list (Z * list cell)) (k : K) :
  k ∈ map key (keep_last key l) <-> k ∈ map key l.
Proof.
  induction l as [|r l IH]; cbn; [done|].
  case_bool_decide as Hin; cbn; rewrite ?elem_of_cons, IH.
  - split; [auto|]. intros [->|?]; auto.
  - done.
Qed.

Lemma keep_last_NoDup (l : list (Z * list cell)) :
  NoDup (map key (keep_last key l)).
Proof.
  induction l as [|r l IH]; cbn; [constructor|].
  case_bool_decide as Hin; [done|]. cbn.
  constructor; [|done]. by rewrite keep_last_keys.
Qed.

(** The last row of a key survives. *)
Lemma keep_last_last (l1 l2 : list (Z * list cell)) (r : Z * list cell) :
  key r ∉ map key l2 -> r ∈ keep_last key (l1 ++ r :: l2).
Proof.
  intros Hlast. induction l1 as [|x l1 IH]; cbn.
  - rewrite bool_decide_eq_false_2 by done. constructor.
  - case_bool_decide; [done|]. by constructor.
Qed.

(** A row that has a later row of the same key leaves no mark on the
    result. *)
Lemma keep_last_earlier (l1 l2 : list (Z * list cell)) (r : Z * list cell) :
  key r ∈ map key l2 -> keep_last key (l1 ++ r :: l2) = keep_last key (l1 ++ l2).
Proof.
  intros Hlater. induction l1 as [|x l1 IH]; cbn.
  - by rewrite bool_decide_eq_true_2.
  - rewrite IH.
    assert (key x ∈ map key (l1 ++ r :: l2) <-> key x ∈ map key (l1 ++ l2)) as Hiff.
    { rewrite !map_app, !elem_of_app. cbn. rewrite elem_of_cons.
      split; [|tauto]. intros [?|[->|?]]; auto. }
    by rewrite (bool_decide_ext _ _ Hiff).
Qed.

Lemma keep_last_length (l : list (Z * list cell)) :
  (length (keep_last key l) <= length l)%nat.
Proof. apply sublist_length, keep_last_sublist. Qed.

End KeepLast.

Section ItemProperties.
Import Pandas Csv.

(** C7.  Whenever the deduplication step of [ingest_item_properties_csv]
    returns, the rows it keeps are a subsequence of the input rows, each
    with its own index label; every (itemid, property) key of the input
    is kept exactly once; the row kept for a key is its last occurrence,
    and an earlier occurrence has no influence on the result (so of two
    rows with one key only the later is kept); and [duplicates_removed]
    is the input row count minus the output row count. *)
Theorem dedupe_item_properties_keeps_last (df df' : DataFrame) (removed : Z) :
  dedupe_item_properties df = Py.Ok (df', removed) ->
  let key := row_key (columns df) ["itemid"; "property"] in
  columns df' = columns df /\
  rows df' `sublist_of` rows df /\
  NoDup (map key (rows df')) /\
  (forall k, k ∈ map key (rows df') <-> k ∈ map key (rows df)) /\
  (forall l1 r l2, rows df = l1 ++ r :: l2 -> key r ∉ map key l2 -> r ∈ rows df') /\
  (forall l1 r l2, rows df = l1 ++ r :: l2 -> key r ∈ map key l2 ->
     dedupe_item_properties (mk_df (columns df) (l1 ++ l2)) =
     Py.Ok (df', removed - 1)) /\
  (forall r1 r2, rows df = [r1; r2] -> key r1 = key r2 -> rows df' = [r2]) /\
  removed = len df - len df' /\ 0 <= removed.
Proof.
  intros Heq key. unfold dedupe_item_properties, drop_duplicates_last in *.
  destruct (forallb _ _) eqn:Hcols; [|done].
  injection Heq as <- <-. cbn [columns rows]. fold key.
  split; [done|]. split; [apply keep_last_sublist|].
  split; [apply keep_last_NoDup|]. split; [apply keep_last_keys|].
  split; [intros l1 r l2 ->; apply keep_last_last|].
  split.
  { intros l1 r l2 Hrows Hlater. cbn [columns rows]. rewrite Hcols.
    rewrite Hrows, keep_last_earlier by done. fold key.
    unfold len. cbn [rows]. rewrite !length_app. cbn [length].
    do 2 f_equal. rewrite Hrows, length_app. cbn [length]. lia. }
  split.
  { intros r1 r2 Hrows Hk. rewrite Hrows. cbn [keep_last map].
    rewrite bool_decide_eq_true_2 by (rewrite Hk; constructor).
    by rewrite bool_decide_eq_false_2 by (by intros ?%elem_of_nil). }
  split; [done|].
  unfold len. cbn [rows].
  pose proof (keep_last_length key (rows df)). lia.
Qed.

Lemma dedupe_item_properties_keeps_last_witness :
  let df := mk_df ["itemid"; "property"; "value"]
              [(0, [CInt 7; CStr "color"; CStr "red"]);
               (1, [CInt 8; CStr "color"; CStr "blue"]);
               (2, [CInt 7; CStr "color"; CStr "green"])] in
  let df' := mk_df ["itemid"; "property"; "value"]
              [(1, [CInt 8; CStr "color"; CStr "blue"]);
               (2, [CInt 7; CStr "color"; CStr "green"])] in
  dedupe_item_properties df = Py.Ok (df', 1) /\
  rows df' `sublist_of` rows df.
Proof.
  intros df df'.
  assert (dedupe_item_properties df = Py.Ok (df', 1)) as Hrun by reflexivity.
  split; [exact Hrun|].
  exact (proj1 (proj2 (dedupe_item_properties_keeps_last df df' 1 Hrun))).
Defined.

End ItemProperties.


(** ** Traces of tries and pauses *)

Ltac zbool :=
repeat match goal with
       | |- context [(?a <=? ?b)%Z] => destruct (Z.leb_spec a b)
       | |- context [(?a <? ?b)%Z] => destruct (Z.ltb_spec a b)
       | |- context [(?a =? ?b)%Z] => destruct (Z.eqb_spec a b)
       end;
cbn [andb orb negb]; subst; try (done || lia).

Section TraceFacts.
Import Trace.

Lemma attempts_app (t1 t2 : list event) :
  attempts (t1 ++ t2) = attempts t1 + attempts t2.
Proof.
  unfold attempts. rewrite List.filter_app, length_app. lia.
Qed.

Lemma attempts_nonneg (t : list event) : 0 <= attempts t.
Proof. unfold attempts. lia. Qed.

Lemma attempts_backoff_trace (delay : Z -> Z) (first : Z) (n : nat) :
  attempts (backoff_trace delay first n) = Z.of_nat n + 1.
Proof.
  revert first. induction n as [|n IH]; intros first; [done|].
  change (backoff_trace delay first (S n))
    with ([Attempt first; Sleep (delay first)] ++ backoff_trace delay (first + 1) n).
  rewrite attempts_app, IH. unfold attempts. cbn. lia.
Qed.

Lemma attempts_paced (delay : Z -> Z) (first : Z) (n : nat) (trailing : bool) :
  attempts (paced delay first n trailing) = Z.of_nat n + 1.
Proof.
  unfold paced. rewrite attempts_app, attempts_backoff_trace.
  destruct trailing; unfold attempts; cbn; lia.
Qed.

Lemma paced_cons (delay : Z -> Z) (first : Z) (n : nat) (trailing : bool) :
  Attempt first :: Sleep (delay first) :: paced delay (first + 1) n trailing =
  paced delay first (S n) trailing.
Proof.
  unfold paced. cbn [backoff_trace app].
  replace (first + 1 + Z.of_nat n) with (first + Z.of_nat (S n)) by lia. done.
Qed.

(** In a paced trace the pause after try [k] is [delay k], and it is
    there for every try but possibly the last. *)
Lemma delay_after_paced (delay : Z -> Z) (first : Z) (n : nat) (trailing : bool) (k : Z) :
  delay_after k (paced delay first n trailing) =
  if (first <=? k) && ((k <? first + Z.of_nat n) || (trailing && (k =? first + Z.of_nat n)))
  then Some (delay k) else None.
Proof.
  revert first. induction n as [|n IH]; intros first.
  - unfold paced. cbn [backoff_trace app Z.of_nat]. rewrite Z.add_0_r.
    destruct trailing; cbn [delay_after andb orb]; zbool.
  - rewrite <- paced_cons.
    change (delay_after k (Attempt first :: Sleep (delay first) :: ?r))
      with (if first =? k then Some (delay first) else delay_after k (Sleep (delay first) :: r)).
    change (delay_after k (Sleep (delay first) :: ?r)) with (delay_after k r).
    rewrite IH.
    replace (first + 1 + Z.of_nat n) with (first + Z.of_nat (S n)) by lia.
    destruct trailing; cbn [andb orb]; zbool.
Qed.

End TraceFacts.


(** ** The request loop of [make_api_request] *)

Section RequestLoop.
Import Trace Api.
Variable cfg : Config.
Variable request : Z -> outcome.

Let delay (k : Z) : Z := retry_delay cfg * k.

Lemma retried_immediate (o : outcome) : retried o = true <-> immediate o = None.
Proof.
  destruct o as [code text body|msg]; cbn; [|done].
  destruct (Z.eqb_spec code 200) as [->|Hne]; cbn.
  - destruct body; cbn; split; done.
  - rewrite orb_false_r. destruct (code =? 429); split; done.
Qed.

(** Whatever the session answers, tries are numbered consecutively and
    every pause follows a try [k] and lasts [retry_delay * k]. *)
Lemma request_loop_shape (m a : nat) (t0 : list event) :
  exists s, snd (request_loop cfg request (map Z.of_nat (seq a m)) t0) = t0 ++ s /\
    ((m = 0%nat /\ s = []) \/
     exists n trailing, (n < m)%nat /\ s = paced delay (Z.of_nat a) n trailing).
Proof.
  revert a t0. induction m as [|m IH]; intros a t0.
  { exists []. cbn. rewrite app_nil_r. auto. }
  assert (forall t1, t1 = (t0 ++ [Attempt (Z.of_nat a)]) ++ [Sleep (delay (Z.of_nat a))] ->
    exists s, snd (request_loop cfg request (map Z.of_nat (seq (S a) m)) t1) = t0 ++ s /\
      exists n trailing, (n < S m)%nat /\ s = paced delay (Z.of_nat a) n trailing) as Hgo.
  { intros t1 ->. destruct (IH (S a) ((t0 ++ [Attempt (Z.of_nat a)]) ++ [Sleep (delay (Z.of_nat a))]))
      as (s' & Hs' & Hshape).
    exists ([Attempt (Z.of_nat a); Sleep (delay (Z.of_nat a))] ++ s').
    split; [rewrite Hs', <- !app_assoc; done|].
    destruct Hshape as [[-> ->]|(n & trailing & Hn & ->)].
    - exists 0%nat, true. split; [lia|]. unfold paced. cbn. by rewrite Z.add_0_r.
    - exists (S n), trailing. split; [lia|].
      rewrite <- paced_cons. by rewrite Nat2Z.inj_succ. }
  assert (exists n trailing, (n < S m)%nat /\
            [Attempt (Z.of_nat a)] = paced delay (Z.of_nat a) n trailing) as Hstop.
  { exists 0%nat, false. split; [lia|done]. }
  cbn [seq map request_loop].
  destruct (request (Z.of_nat a)) as [code text body|msg].
  - destruct (code =? 200).
    + destruct body as [data|].
      * exists [Attempt (Z.of_nat a)]. cbn [snd]. auto.
      * unfold on_exception. destruct (Z.of_nat a <? retry_attempts cfg).
        -- destruct (Hgo _ eq_refl) as (s & Hs & Hsh). exists s. auto.
        -- exists [Attempt (Z.of_nat a)]. cbn [snd]. auto.
    + destruct (code =? 429).
      * destruct (Hgo _ eq_refl) as (s & Hs & Hsh). exists s. auto.
      * exists [Attempt (Z.of_nat a)]. cbn [snd]. auto.
  - unfold on_exception. destruct (Z.of_nat a <? retry_attempts cfg).
    + destruct (Hgo _ eq_refl) as (s & Hs & Hsh). exists s. auto.
    + exists [Attempt (Z.of_nat a)]. cbn [snd]. auto.
Qed.

(** When every try is retried, the loop makes all the tries it was given
    and fails. *)
Lemma request_loop_exhausted (m a : nat) (t0 : list event) :
  Z.of_nat a + Z.of_nat m = retry_attempts cfg + 1 ->
  (forall k, Z.of_nat a <= k <= retry_attempts cfg -> retried (request k) = true) ->
  let res := request_loop cfg request (map Z.of_nat (seq a m)) t0 in
  attempts (snd res) = attempts t0 + Z.of_nat m /\
  fst (fst (fst res)) = false /\ snd (fst (fst res)) = None /\
  ((0 < m)%nat -> snd (fst res) = exhausted_message cfg (request (retry_attempts cfg))).
Proof.
  revert a t0. induction m as [|m IH]; intros a t0 Hlen Hall.
  { cbn. repeat split; [lia|lia]. }
  cbn [seq map request_loop].
  pose proof (Hall (Z.of_nat a) ltac:(lia)) as Hr.
  assert (forall t1, attempts t1 = attempts t0 + 1 -> Z.of_nat a < retry_attempts cfg ->
    let res := request_loop cfg request (map Z.of_nat (seq (S a) m)) t1 in
    attempts (snd res) = attempts t0 + Z.of_nat (S m) /\
    fst (fst (fst res)) = false /\ snd (fst (fst res)) = None /\
    ((0 < S m)%nat -> snd (fst res) = exhausted_message cfg (request (retry_attempts cfg))))
    as Hgo.
  { intros t1 Ht1 Hlt. destruct (IH (S a) t1) as (Ha & Hf & Hn & Hm); [lia| |].
    { intros k Hk. apply Hall. lia. }
    cbn zeta. rewrite Ha, Ht1. repeat split; [lia|done|done|].
    intros _. apply Hm. lia. }
  assert (attempts ((t0 ++ [Attempt (Z.of_nat a)]) ++ [Sleep (retry_delay cfg * Z.of_nat a)])
          = attempts t0 + 1) as Hcount.
  { rewrite !attempts_app. unfold attempts. cbn. lia. }
  assert (attempts (t0 ++ [Attempt (Z.of_nat a)]) = attempts t0 + 1) as Hcount1.
  { rewrite !attempts_app. unfold attempts. cbn. lia. }
  destruct (request (Z.of_nat a)) as [code text body|msg] eqn:Hreq; cbn in Hr.
  - destruct (Z.eqb_spec code 200) as [->|Hne]; cbn in Hr.
    + destruct body as [data|]; [done|]. unfold on_exception.
      destruct (Z.ltb_spec (Z.of_nat a) (retry_attempts cfg)) as [Hlt|Hge].
      * by apply Hgo.
      * assert (m = 0%nat) as -> by lia.
        assert (retry_attempts cfg = Z.of_nat a) as -> by lia.
        cbn [fst snd]. rewrite Hreq, Hcount1. cbn. repeat split. all: try (done || lia).
    + rewrite orb_false_r in Hr. rewrite Hr.
      destruct (Z.ltb_spec (Z.of_nat a) (retry_attempts cfg)) as [Hlt|Hge].
      * by apply Hgo.
      * assert (m = 0%nat) as -> by lia.
        assert (retry_attempts cfg = Z.of_nat a) as Heq by lia.
        cbn [seq map request_loop fst snd]. rewrite Hcount, Heq, Hreq.
        cbn. apply Z.eqb_neq in Hne. rewrite Hne.
        split; [lia|]. split; [done|]. split; [done|]. intros _.
        by rewrite Heq.
  - unfold on_exception.
    destruct (Z.ltb_spec (Z.of_nat a) (retry_attempts cfg)) as [Hlt|Hge].
    + by apply Hgo.
    + assert (m = 0%nat) as -> by lia.
      assert (retry_attempts cfg = Z.of_nat a) as -> by lia.
      cbn [fst snd]. rewrite Hreq, Hcount1. cbn. repeat split. all: try (done || lia).
Qed.

(** When the tries before [K] are retried and try [K] is not, the loop
    stops at try [K] with the reply of that try. *)
Lemma request_loop_stops (m a : nat) (t0 : list event) (K : Z) (rep : reply) :
  Z.of_nat a + Z.of_nat m = retry_attempts cfg + 1 ->
  Z.of_nat a <= K <= retry_attempts cfg ->
  (forall k, Z.of_nat a <= k < K -> retried (request k) = true) ->
  immediate (request K) = Some rep ->
  let res := request_loop cfg request (map Z.of_nat (seq a m)) t0 in
  fst res = rep /\ attempts (snd res) = attempts t0 + (K - Z.of_nat a + 1).
Proof.
  revert a t0. induction m as [|m IH]; intros a t0 Hlen HK Hbefore Hstop; [lia|].
  cbn [seq map request_loop].
  assert (attempts (t0 ++ [Attempt (Z.of_nat a)]) = attempts t0 + 1) as Hcount1.
  { rewrite !attempts_app. unfold attempts. cbn. lia. }
  destruct (Z.eq_dec (Z.of_nat a) K) as [<-|Hne].
  - destruct (request (Z.of_nat a)) as [code text body|msg]; cbn in Hstop; [|done].
    destruct (code =? 200).
    + destruct body; [|done]. injection Hstop as <-. cbn [fst snd].
      split; [done|]. rewrite Hcount1. lia.
    + destruct (code =? 429); [done|]. injection Hstop as <-. cbn [fst snd].
      split; [done|]. rewrite Hcount1. lia.
  - assert (forall t1, attempts t1 = attempts t0 + 1 ->
      let res := request_loop cfg request (map Z.of_nat (seq (S a) m)) t1 in
      fst res = rep /\ attempts (snd res) = attempts t0 + (K - Z.of_nat a + 1)) as Hgo.
    { intros t1 Ht1. destruct (IH (S a) t1) as [Hrep Hatt]; [lia|lia| |done|].
      { intros k Hk. apply Hbefore. lia. }
      cbn zeta. rewrite Hrep, Hatt, Ht1. split; [done|lia]. }
    assert (attempts ((t0 ++ [Attempt (Z.of_nat a)]) ++ [Sleep (retry_delay cfg * Z.of_nat a)])
            = attempts t0 + 1) as Hcount.
    { rewrite !attempts_app. unfold attempts. cbn. lia. }
    pose proof (Hbefore (Z.of_nat a) ltac:(lia)) as Hr.
    assert ((Z.of_nat a <? retry_attempts cfg) = true) as Hlt by (apply Z.ltb_lt; lia).
    destruct (request (Z.of_nat a)) as [code text body|msg]; cbn in Hr.
    + destruct (Z.eqb_spec code 200) as [->|Hc]; cbn in Hr.
      * destruct body; [done|]. unfold on_exception. rewrite Hlt. by apply Hgo.
      * rewrite orb_false_r in Hr. rewrite Hr. by apply Hgo.
    + unfold on_exception. rewrite Hlt. by apply Hgo.
Qed.

End RequestLoop.


(** ** The retry recursion of [ingest_events_csv] *)

Section CsvRetry.
Import Trace Csv.
Variable cfg : Config.
Variable block : Py.M World IngestResult.
Variable file_path : string.

Let delay (k : Z) : Z := retry_delay cfg.

Lemma world_before_shift (k : nat) (w : World) :
  world_before block (S k) w = world_before block k (after_pause (snd (block w))).
Proof.
  induction k as [|k IH]; [done|].
  change (world_before block (S (S k)) w)
    with (after_pause (snd (block (world_before block (S k) w)))).
  by rewrite IH.
Qed.

(** When every try raises, the recursion makes one try and then one
    more per allowed retry, pausing [retry_delay] before each retry, and
    returns the failed result of the last try. *)
Lemma csv_retry_exhausted (fuel : nat) (rc : Z) (r : Run) :
  fuel = Z.to_nat (retry_attempts cfg - rc) ->
  (forall k, (k <= fuel)%nat ->
     Py.is_raise (fst (block (world_before block k (world r)))) = true) ->
  let res := ingest_events_csv_with cfg block file_path fuel rc r in
  trace (snd res) = trace r ++ backoff_trace delay (rc + 1) fuel /\
  status (fst res) = "failed" /\
  exists e, fst (block (world_before block fuel (world r))) = Py.Raise e /\
    errors (fst res) = ["Error ingesting events CSV: " +:+ Py.str_of e].
Proof.
  revert rc r. induction fuel as [|fuel IH]; intros rc r Hfuel Hall.
  - pose proof (Hall 0%nat ltac:(lia)) as H0. cbn in H0.
    cbn [ingest_events_csv_with world log trace stats_errors world_before].
    destruct (block (world r)) as [[res|e] w'] eqn:Hb; [done|].
    replace (rc <? retry_attempts cfg) with false by (symmetry; apply Z.ltb_ge; lia).
    cbn. eauto 10.
  - pose proof (Hall 0%nat ltac:(lia)) as H0. cbn in H0.
    cbn [ingest_events_csv_with world log trace stats_errors].
    destruct (block (world r)) as [[res|e] w'] eqn:Hb; [done|].
    replace (rc <? retry_attempts cfg) with true by (symmetry; apply Z.ltb_lt; lia).
    destruct (IH (rc + 1) (sleep (retry_delay cfg) (mk_run w' (trace r ++ [Attempt (rc + 1)]) (stats_errors r))))
      as (Htr & Hst & e' & Hlast & Herr).
    { lia. }
    { intros k Hk. cbn [sleep world].
      replace w' with (snd (block (world r))) by (by rewrite Hb).
      rewrite <- world_before_shift. apply Hall. lia. }
    cbn zeta. rewrite Htr, Hst. split; [|split; [done|]].
    + cbn [sleep trace backoff_trace]. by rewrite <- !app_assoc.
    + exists e'. split; [|done].
      rewrite world_before_shift, Hb. exact Hlast.
Qed.

(** When the first [K] tries raise and the next one returns, the
    recursion returns that result after [K + 1] tries. *)
Lemma csv_retry_succeeds (K fuel : nat) (rc : Z) (r : Run) (res0 : IngestResult) :
  fuel = Z.to_nat (retry_attempts cfg - rc) -> (K <= fuel)%nat ->
  (forall k, (k < K)%nat ->
     Py.is_raise (fst (block (world_before block k (world r)))) = true) ->
  fst (block (world_before block K (world r))) = Py.Ok res0 ->
  ingest_events_csv_with cfg block file_path fuel rc r =
  (res0, mk_run (snd (block (world_before block K (world r))))
           (trace r ++ backoff_trace delay (rc + 1) K) (stats_errors r)).
Proof.
  revert fuel rc r. induction K as [|K IH]; intros fuel rc r Hfuel HK Hbefore Hok.
  - cbn in Hok. cbn [world_before].
    destruct fuel; cbn [ingest_events_csv_with world log trace stats_errors];
      destruct (block (world r)) as [[res|e] w']; cbn in Hok; by simplify_eq.
  - destruct fuel as [|fuel]; [lia|].
    pose proof (Hbefore 0%nat ltac:(lia)) as H0. cbn in H0.
    cbn [ingest_events_csv_with world log trace stats_errors].
    destruct (block (world r)) as [[res|e] w'] eqn:Hb; [done|].
    replace (rc <? retry_attempts cfg) with true by (symmetry; apply Z.ltb_lt; lia).
    rewrite (IH fuel (rc + 1) _ ltac:(lia) ltac:(lia)).
    + cbn [sleep trace stats_errors world backoff_trace].
      rewrite world_before_shift, Hb. cbn [snd]. by rewrite <- !app_assoc.
    + intros k Hk. cbn [sleep world].
      replace w' with (snd (block (world r))) by (by rewrite Hb).
      rewrite <- world_before_shift. apply Hbefore. lia.
    + cbn [sleep world].
      replace w' with (snd (block (world r))) by (by rewrite Hb).
      by rewrite <- world_before_shift.
Qed.

(** Whatever the tries do, they are numbered consecutively and every
    pause lasts [retry_delay]. *)
Lemma csv_retry_shape (fuel : nat) (rc : Z) (r : Run) :
  exists n trailing,
    trace (snd (ingest_events_csv_with cfg block file_path fuel rc r)) =
    trace r ++ paced delay (rc + 1) n trailing.
Proof.
  revert rc r. induction fuel as [|fuel IH]; intros rc r;
    cbn [ingest_events_csv_with world log trace stats_errors];
    destruct (block (world r)) as [[res|e] w'].
  - exists 0%nat, false. cbn. done.
  - destruct (rc <? retry_attempts cfg).
    + exists 0%nat, true. unfold paced. cbn. by rewrite <- !app_assoc.
    + exists 0%nat, false. cbn. done.
  - exists 0%nat, false. cbn. done.
  - destruct (rc <? retry_attempts cfg).
    + destruct (IH (rc + 1) (sleep (retry_delay cfg)
                 (mk_run w' (trace r ++ [Attempt (rc + 1)]) (stats_errors r))))
        as (n & trailing & Hn).
      exists (S n), trailing. rewrite Hn. cbn [sleep trace].
      rewrite <- paced_cons, <- !app_assoc. done.
    + exists 0%nat, false. cbn. done.
Qed.

End CsvRetry.


(** ** Retries, classification of failures, and pauses *)

Section RetryClaims.
Import Trace.

(** C3, as the code has it.  For a retry ceiling [N] and a pause length
    that are not negative: [make_api_request] makes exactly [N] tries
    when every try is retried and then fails, with the message of the
    last exception or, after a rate-limited last try, the summary
    message; it returns the decoded body after exactly [K] tries when
    try [K <= N] is the first to succeed.  The retry of
    [ingest_events_csv], for [N] within the depth followed, makes one try
    and then up to [N] retries: exactly [N + 1] tries when every try
    raises, returning the failed result with the error of the last try,
    and exactly [K + 1] tries when the first [K <= N] tries raise and the
    next one returns. *)
Theorem retry_attempt_counts :
  (forall (cfg : Api.Config) (request : Z -> Api.outcome),
     0 <= Api.retry_attempts cfg -> 0 <= Api.retry_delay cfg ->
     let res := Api.make_api_request cfg request in
     ((forall k, 1 <= k <= Api.retry_attempts cfg -> Api.retried (request k) = true) ->
        attempts (snd res) = Api.retry_attempts cfg /\
        fst (fst (fst res)) = false /\
        (0 < Api.retry_attempts cfg ->
           snd (fst res) = Api.exhausted_message cfg (request (Api.retry_attempts cfg)))) /\
     (forall K text data,
        1 <= K <= Api.retry_attempts cfg ->
        (forall k, 1 <= k < K -> Api.retried (request k) = true) ->
        request K = Api.Response 200 text (Some data) ->
        fst res = (true, Some data, "") /\ attempts (snd res) = K)) /\
  (forall (cfg : Csv.Config) (block : Py.M Csv.World Csv.IngestResult)
          (file_path : string) (r : Csv.Run),
     0 <= Csv.retry_attempts cfg <= Csv.retry_depth -> 0 <= Csv.retry_delay cfg ->
     let N := Z.to_nat (Csv.retry_attempts cfg) in
     let res := Csv.ingest_events_csv_with cfg block file_path N 0 r in
     ((forall k, (k <= N)%nat ->
         Py.is_raise (fst (block (Csv.world_before block k (Csv.world r)))) = true) ->
        attempts (Csv.trace (snd res)) =
          attempts (Csv.trace r) + Csv.retry_attempts cfg + 1 /\
        Csv.status (fst res) = "failed" /\
        exists e, fst (block (Csv.world_before block N (Csv.world r))) = Py.Raise e /\
          Csv.errors (fst res) = ["Error ingesting events CSV: " +:+ Py.str_of e]) /\
     (forall (K : nat) res0,
        (K <= N)%nat ->
        (forall k, (k < K)%nat ->
           Py.is_raise (fst (block (Csv.world_before block k (Csv.world r)))) = true) ->
        fst (block (Csv.world_before block K (Csv.world r))) = Py.Ok res0 ->
        fst res = res0 /\
        attempts (Csv.trace (snd res)) = attempts (Csv.trace r) + Z.of_nat K + 1)).
Proof.
  split.
  - intros cfg request HN _ res. split.
    + intros Hall.
      destruct (request_loop_exhausted cfg request (Z.to_nat (Api.retry_attempts cfg))
                  1 []) as (Ha & Hf & _ & Hm); [lia|exact Hall|].
      split; [|split; [exact Hf|]].
      * unfold res, Api.make_api_request, Api.range1. rewrite Ha. unfold attempts. cbn. lia.
      * intros Hpos. apply Hm. lia.
    + intros K text data HK Hbefore Hok.
      destruct (request_loop_stops cfg request (Z.to_nat (Api.retry_attempts cfg))
                  1 [] K (true, Some data, "")) as [Hrep Ha];
        [lia|exact HK|exact Hbefore|by rewrite Hok|].
      split; [exact Hrep|].
      unfold res, Api.make_api_request, Api.range1. rewrite Ha. unfold attempts. cbn. lia.
  - intros cfg block file_path r [HN _] _ N res. split.
    + intros Hall.
      destruct (csv_retry_exhausted cfg block file_path N 0 r) as (Htr & Hst & Herr);
        [unfold N; f_equal; lia|exact Hall|].
      split; [|split; [exact Hst|exact Herr]].
      unfold res. rewrite Htr, attempts_app, attempts_backoff_trace. unfold N. lia.
    + intros K res0 HK Hbefore Hok.
      unfold res.
      rewrite (csv_retry_succeeds cfg block file_path K N 0 r res0);
        [|unfold N; f_equal; lia|exact HK|exact Hbefore|exact Hok].
      cbn [fst snd Csv.trace]. split; [done|].
      rewrite attempts_app, attempts_backoff_trace. lia.
Qed.

Lemma retry_attempt_counts_witness :
  (0 <= Api.retry_attempts Scenario.api_cfg /\ 0 <= Api.retry_delay Scenario.api_cfg) /\
  (0 <= Csv.retry_attempts Scenario.csv_cfg <= Csv.retry_depth /\
   0 <= Csv.retry_delay Scenario.csv_cfg) /\
  attempts (snd (Api.make_api_request Scenario.api_cfg
                   (Api.session "GET" Scenario.always_503))) = 3 /\
  snd (fst (Api.make_api_request Scenario.api_cfg
              (Api.session "GET" Scenario.always_503))) =
    "Request exception: Max retries exceeded (Caused by ResponseError('too many 503 error responses'))" /\
  fst (Api.make_api_request Scenario.api_cfg (Api.session "GET" Scenario.recovering)) =
    (true, Some (Json.JList []), "") /\
  attempts (snd (Api.make_api_request Scenario.api_cfg
                   (Api.session "GET" Scenario.recovering))) = 3 /\
  attempts (Csv.trace (snd (Csv.ingest_events_csv Scenario.csv_cfg Scenario.csv_unreadable
                              "data/raw/events.csv" Scenario.start))) = 4 /\
  Csv.status (fst (Csv.ingest_events_csv Scenario.csv_cfg Scenario.csv_flaky
                     "data/raw/events.csv" Scenario.start)) = "success" /\
  attempts (Csv.trace (snd (Csv.ingest_events_csv Scenario.csv_cfg Scenario.csv_flaky
                              "data/raw/events.csv" Scenario.start))) = 2.
Proof.
  assert (0 <= Api.retry_attempts Scenario.api_cfg) as HNa by (vm_compute; discriminate).
  assert (0 <= Api.retry_delay Scenario.api_cfg) as Hda by (vm_compute; discriminate).
  assert (0 <= Csv.retry_attempts Scenario.csv_cfg <= Csv.retry_depth) as HNc
    by (vm_compute; split; discriminate).
  assert (0 <= Csv.retry_delay Scenario.csv_cfg) as Hdc by (vm_compute; discriminate).
  destruct retry_attempt_counts as [Hapi Hcsv].
  destruct (Hapi Scenario.api_cfg (Api.session "GET" Scenario.always_503) HNa Hda)
    as [Hall _].
  destruct Hall as (Hn & _ & Hmsg).
  { intros k _. vm_compute. reflexivity. }
  destruct (Hapi Scenario.api_cfg (Api.session "GET" Scenario.recovering) HNa Hda)
    as [_ Hfirst].
  destruct (Hfirst 3 "[]" (Json.JList []) ltac:(vm_compute; split; discriminate))
    as [Hrep Hthree].
  { intros k Hk. assert (k = 1 \/ k = 2) as [-> | ->] by lia; vm_compute; reflexivity. }
  { vm_compute. reflexivity. }
  destruct (Hcsv Scenario.csv_cfg
              (Csv.events_try_block Scenario.csv_cfg Scenario.csv_unreadable "data/raw/events.csv")
              "data/raw/events.csv" Scenario.start HNc Hdc)
    as [Hfail _].
  destruct Hfail as (Hfour & _ & _).
  { intros k Hk. do 4 (destruct k as [|k]; [vm_compute; reflexivity|]).
    vm_compute in Hk. lia. }
  destruct (Hcsv Scenario.csv_cfg
              (Csv.events_try_block Scenario.csv_cfg Scenario.csv_flaky "data/raw/events.csv")
              "data/raw/events.csv" Scenario.start HNc Hdc)
    as [_ Hok].
  destruct (Hok 1%nat (Scenario.result_of Scenario.flaky_second_try)) as [Hres Htwo].
  { vm_compute. lia. }
  { intros k Hk. destruct k as [|k]; [vm_compute; reflexivity|lia]. }
  { vm_compute. reflexivity. }
  split; [split; [exact HNa|exact Hda]|]. split; [split; [exact HNc|exact Hdc]|].
  split; [exact Hn|].
  split; [rewrite Hmsg by (vm_compute; reflexivity); vm_compute; reflexivity|].
  split; [exact Hrep|]. split; [exact Hthree|].
  split; [exact Hfour|].
  split; [unfold Csv.ingest_events_csv; rewrite Hres; vm_compute; reflexivity|exact Htwo].
Defined.

(** With [retry_attempts = 3] and an events file that cannot be read,
    [ingest_events_csv] makes four tries, not three. *)
Lemma csv_retry_makes_one_more_try :
  attempts (Csv.trace (snd (Csv.ingest_events_csv Scenario.csv_cfg Scenario.csv_unreadable
                              "data/raw/events.csv" Scenario.start))) = 4 /\
  attempts (Csv.trace (snd (Csv.ingest_events_csv Scenario.csv_cfg Scenario.csv_unreadable
                              "data/raw/events.csv" Scenario.start)))
    <> Csv.retry_attempts Scenario.csv_cfg.
Proof. split; [reflexivity|]. vm_compute. discriminate. Qed.

(** C5, as the code has it.  For a retry ceiling and a pause length that
    are not negative.  In the loop of [make_api_request], when every try
    meets an HTTP 429 response or a request exception, the tries go on up
    to the ceiling and only then a failure is returned; a response with
    any status other than 200 and 429 ends the loop at once with a
    failure carrying that status and the response text.  Through the
    session of [setup_http_session], for a method the adapter retries: a
    server that answers every try with a status of the adapter's list
    (429, 500, 502, 503, 504) or whose connection fails is asked up to
    the ceiling, each try ending in a request exception, and only then a
    failure is returned; an answer with any other status than 200, a 5xx
    status outside the list included, ends the loop at once. *)
Theorem api_failure_classification (cfg : Api.Config) :
  0 <= Api.retry_attempts cfg -> 0 <= Api.retry_delay cfg ->
  (forall request : Z -> Api.outcome,
     let res := Api.make_api_request cfg request in
     ((forall k, 1 <= k <= Api.retry_attempts cfg ->
         (exists text body, request k = Api.Response 429 text body) \/
         (exists msg, request k = Api.RequestException msg)) ->
        attempts (snd res) = Api.retry_attempts cfg /\ fst (fst (fst res)) = false) /\
     (forall K code text body,
        1 <= K <= Api.retry_attempts cfg ->
        (forall k, 1 <= k < K -> Api.retried (request k) = true) ->
        request K = Api.Response code text body ->
        code <> 200 -> code <> 429 ->
        fst res = (false, None, "HTTP " +:+ pretty code +:+ ": " +:+ text) /\
        attempts (snd res) = K)) /\
  (forall (method : string) (server : Z -> Api.outcome),
     method ∈ Api.allowed_methods ->
     let res := Api.make_api_request cfg (Api.session method server) in
     ((forall k, 1 <= k <= Api.retry_attempts cfg ->
         (exists code text body,
            server k = Api.Response code text body /\ code ∈ Api.status_forcelist) \/
         (exists msg, server k = Api.RequestException msg)) ->
        attempts (snd res) = Api.retry_attempts cfg /\ fst (fst (fst res)) = false) /\
     (forall K code text body,
        1 <= K <= Api.retry_attempts cfg ->
        (forall k, 1 <= k < K -> Api.retried (Api.session method server k) = true) ->
        server K = Api.Response code text body ->
        code <> 200 -> code ∉ Api.status_forcelist ->
        fst res = (false, None, "HTTP " +:+ pretty code +:+ ": " +:+ text) /\
        attempts (snd res) = K)).
Proof.
  intros HN _.
  assert (forall request : Z -> Api.outcome,
     let res := Api.make_api_request cfg request in
     ((forall k, 1 <= k <= Api.retry_attempts cfg -> Api.retried (request k) = true) ->
        attempts (snd res) = Api.retry_attempts cfg /\ fst (fst (fst res)) = false) /\
     (forall K code text body,
        1 <= K <= Api.retry_attempts cfg ->
        (forall k, 1 <= k < K -> Api.retried (request k) = true) ->
        request K = Api.Response code text body ->
        code <> 200 -> code <> 429 ->
        fst res = (false, None, "HTTP " +:+ pretty code +:+ ": " +:+ text) /\
        attempts (snd res) = K)) as Hloop.
  { intros request res. split.
    - intros Hall.
      destruct (request_loop_exhausted cfg request (Z.to_nat (Api.retry_attempts cfg))
                  1 []) as (Ha & Hf & _ & _); [lia|exact Hall|].
      split; [|exact Hf].
      unfold res, Api.make_api_request, Api.range1. rewrite Ha. unfold attempts. cbn. lia.
    - intros K code text body HK Hbefore Hreq H200 H429.
      destruct (request_loop_stops cfg request (Z.to_nat (Api.retry_attempts cfg))
                  1 [] K (false, None, "HTTP " +:+ pretty code +:+ ": " +:+ text))
        as [Hrep Ha]; [lia|exact HK|exact Hbefore| |].
      { rewrite Hreq. cbn. apply Z.eqb_neq in H200, H429. by rewrite H200, H429. }
      split; [exact Hrep|].
      unfold res, Api.make_api_request, Api.range1. rewrite Ha. unfold attempts. cbn. lia. }
  split.
  - intros request res. destruct (Hloop request) as [Hall Hstop]. split; [|exact Hstop].
    intros Hk. apply Hall. intros k Hr.
    destruct (Hk k Hr) as [(text & body & ->)|(msg & ->)]; done.
  - intros method server Hmethod res.
    destruct (Hloop (Api.session method server)) as [Hall Hstop]. split.
    + intros Hk. apply Hall. intros k Hr. unfold Api.session, Api.session_request.
      destruct (Hk k Hr) as [(code & text & body & -> & Hcode)|(msg & ->)]; [|done].
      rewrite !bool_decide_eq_true_2 by done. reflexivity.
    + intros K code text body HK Hbefore Hanswer H200 Hcode.
      apply (Hstop K code text body HK Hbefore); [|exact H200|].
      * unfold Api.session, Api.session_request. rewrite Hanswer.
        rewrite (bool_decide_eq_false_2 (code ∈ Api.status_forcelist)) by done.
        by rewrite andb_false_r.
      * intros ->. apply Hcode. unfold Api.status_forcelist. apply elem_of_cons. by left.
Qed.

Lemma api_failure_classification_witness :
  (0 <= Api.retry_attempts Scenario.api_cfg /\ 0 <= Api.retry_delay Scenario.api_cfg) /\
  attempts (snd (Api.make_api_request Scenario.api_cfg Scenario.always_429)) = 3 /\
  attempts (snd (Api.make_api_request Scenario.api_cfg
                   (Api.session "GET" Scenario.always_503))) = 3 /\
  fst (Api.make_api_request Scenario.api_cfg (Api.session "GET" Scenario.always_404)) =
    (false, None, "HTTP 404: Not Found") /\
  attempts (snd (Api.make_api_request Scenario.api_cfg
                   (Api.session "GET" Scenario.always_404))) = 1.
Proof.
  assert (0 <= Api.retry_attempts Scenario.api_cfg) as HN by (vm_compute; discriminate).
  assert (0 <= Api.retry_delay Scenario.api_cfg) as Hd by (vm_compute; discriminate).
  destruct (api_failure_classification Scenario.api_cfg HN Hd) as [Hloop Hsession].
  destruct (Hloop Scenario.always_429) as [Hall _].
  destruct Hall as [Hn _].
  { intros k _. left. by exists "Too Many Requests", None. }
  assert ("GET" ∈ Api.allowed_methods) as Hget.
  { unfold Api.allowed_methods. apply elem_of_cons. right. apply elem_of_cons. by left. }
  destruct (Hsession "GET" Scenario.always_503 Hget) as [Hbusy _].
  destruct Hbusy as [Hn' _].
  { intros k _. left. exists 503, "Service Unavailable", None. split; [reflexivity|].
    unfold Api.status_forcelist. rewrite !elem_of_cons. tauto. }
  destruct (Hsession "GET" Scenario.always_404 Hget) as [_ Hstop].
  destruct (Hstop 1 404 "Not Found" None) as [Hrep Hone].
  { vm_compute. split; discriminate. }
  { intros k Hk. lia. }
  { reflexivity. }
  { discriminate. }
  { unfold Api.status_forcelist. rewrite !elem_of_cons, elem_of_nil.
    intros [H|[H|[H|[H|[H|H]]]]]; (discriminate H || exact H). }
  split; [split; [exact HN|exact Hd]|].
  split; [exact Hn|]. split; [exact Hn'|]. split; [exact Hrep|exact Hone].
Defined.

(** With [retry_attempts = 3], a GET request to a server that answers
    HTTP 501 is made once: the adapter hands the response back, and the
    loop returns the failure without a second try. *)
Lemma api_not_implemented_not_retried :
  fst (Api.make_api_request Scenario.api_cfg (Api.session "GET" Scenario.always_501)) =
    (false, None, "HTTP 501: Not Implemented") /\
  attempts (snd (Api.make_api_request Scenario.api_cfg
                   (Api.session "GET" Scenario.always_501))) = 1 /\
  attempts (snd (Api.make_api_request Scenario.api_cfg
                   (Api.session "GET" Scenario.always_501)))
    <> Api.retry_attempts Scenario.api_cfg.
Proof. split; [reflexivity|]. split; [reflexivity|]. vm_compute. discriminate. Qed.

Lemma paced_delays (delay : Z -> Z) (n : nat) (trailing : bool) (k : Z) :
  let t := paced delay 1 n trailing in
  (forall x, delay_after k t = Some x -> x = delay k) /\
  (1 <= k < attempts t -> delay_after k t = Some (delay k)).
Proof.
  intros t. unfold t. rewrite attempts_paced, delay_after_paced. split.
  - intros x. case_match; [congruence|done].
  - intros Hk. replace (1 <=? k) with true by (symmetry; apply Z.leb_le; lia).
    replace (k <? 1 + Z.of_nat n) with true by (symmetry; apply Z.ltb_lt; lia).
    done.
Qed.

(** C6, as the code has it.  In [make_api_request] the pause after try
    [k] lasts [retry_delay * k], and there is one between any two
    consecutive tries.  In [ingest_events_csv] there is one pause between
    any two consecutive tries as well, but it lasts [retry_delay] whatever
    the number of the try. *)
Theorem backoff_delays :
  (forall (cfg : Api.Config) (request : Z -> Api.outcome) (k : Z),
     let t := snd (Api.make_api_request cfg request) in
     (forall x, delay_after k t = Some x -> x = Api.retry_delay cfg * k) /\
     (1 <= k < attempts t -> delay_after k t = Some (Api.retry_delay cfg * k))) /\
  (forall (cfg : Csv.Config) (env : Csv.Env) (file_path : string)
          (w : Csv.World) (errs : list string) (k : Z),
     let t := Csv.trace (snd (Csv.ingest_events_csv cfg env file_path
                                (Csv.mk_run w [] errs))) in
     (forall x, delay_after k t = Some x -> x = Csv.retry_delay cfg) /\
     (1 <= k < attempts t -> delay_after k t = Some (Csv.retry_delay cfg))).
Proof.
  split.
  - intros cfg request k t.
    destruct (request_loop_shape cfg request (Z.to_nat (Api.retry_attempts cfg)) 1 [])
      as (s & Hs & Hshape).
    unfold t, Api.make_api_request, Api.range1. rewrite Hs. cbn [app].
    destruct Hshape as [[_ ->]|(n & trailing & _ & ->)].
    + split; [done|]. unfold attempts. cbn. lia.
    + apply (paced_delays (fun k => Api.retry_delay cfg * k)).
  - intros cfg env file_path w errs k t.
    destruct (csv_retry_shape cfg (Csv.events_try_block cfg env file_path) file_path
                (Z.to_nat (Csv.retry_attempts cfg)) 0 (Csv.mk_run w [] errs))
      as (n & trailing & Hshape).
    unfold t, Csv.ingest_events_csv. rewrite Hshape. cbn [Csv.trace app Z.add].
    apply (paced_delays (fun _ => Csv.retry_delay cfg)).
Qed.

(** With [retry_delay = 5], the pause after the second try of
    [ingest_events_csv] lasts 5 seconds, not 10. *)
Lemma csv_retry_pause_is_constant :
  delay_after 2 (Csv.trace (snd (Csv.ingest_events_csv Scenario.csv_cfg
                                   Scenario.csv_unreadable "data/raw/events.csv"
                                   Scenario.start))) = Some 5 /\
  delay_after 2 (Csv.trace (snd (Csv.ingest_events_csv Scenario.csv_cfg
                                   Scenario.csv_unreadable "data/raw/events.csv"
                                   Scenario.start)))
    <> Some (Csv.retry_delay Scenario.csv_cfg * 2).
Proof. split; [reflexivity|]. vm_compute. discriminate. Qed.

End RetryClaims.


(** ** The job runner of the scheduler *)

Section JobRunner.
Import Scheduler.

(** C9.  Whatever the job function does (return a value that passes the
    success test, return one that fails it, or raise), after
    [_run_job_safe] the job's entry holds one of the states [success],
    [failed] and [error]; exactly one of its two counters is one above
    its value before the run and the other is unchanged; the entries of
    the other jobs are untouched; and [_save_job_status] has run once, on
    the final table, which is the content of the status file when the
    write succeeds. *)
Theorem run_job_safe_records_outcome (start finish : DateTime.datetime)
    (write_ok : bool) (job_name : string) (job_func : job) (st : State) :
  let st' := _run_job_safe start finish write_ok job_name job_func st in
  let before_s := default 0 (success_count <$> jobs_status st !! job_name) in
  let before_f := default 0 (failure_count <$> jobs_status st !! job_name) in
  (exists entry, jobs_status st' !! job_name = Some entry /\
     (status entry = "success" \/ status entry = "failed" \/ status entry = "error") /\
     ((status entry = "success" /\
       success_count entry = before_s + 1 /\ failure_count entry = before_f) \/
      (status entry <> "success" /\
       success_count entry = before_s /\ failure_count entry = before_f + 1))) /\
  (forall other, other <> job_name ->
     jobs_status st' !! other = jobs_status st !! other) /\
  saves st' = saves st ++ [jobs_status st'] /\
  (write_ok = true -> status_file st' = Some (jobs_status st')).
Proof.
  intros st' before_s before_f. unfold st', _run_job_safe, _save_job_status.
  cbn [jobs_status status_file saves].
  split; [|split; [|split]].
  - eexists. rewrite lookup_insert_eq. split; [reflexivity|].
    destruct (job_func _) as [result|e]; [destruct (is_success result) as [[|]|e]|];
      cbn [status success_count failure_count]; split; auto;
      right; split; auto; discriminate.
  - intros other Hother. by rewrite !lookup_insert_ne.
  - done.
  - by intros ->.
Qed.

(** The lookup of [run_ingestion] on a [CSVDataIngester] fails. *)
Lemma csv_ingestion_job_raises (impl : string -> Py.result pyval) (st : State) :
  csv_ingestion_job impl st =
  Py.Raise (Py.AttributeError "'CSVDataIngester' object has no attribute 'run_ingestion'").
Proof. reflexivity. Qed.

(** C2.  [csv_ingestion_job] asks the CSV ingester for [run_ingestion],
    which [CSVDataIngester] does not have (its pipeline method is
    [run_full_csv_ingestion]); so every run of the job through
    [_run_job_safe] ends in the [error] state with the attribute error
    as [last_error], one more failure counted and no success counted,
    whatever the ingester's methods would do. *)
Theorem csv_ingestion_job_always_errors (impl : string -> Py.result pyval)
    (start finish : DateTime.datetime) (write_ok : bool) (st : State) :
  let st' := _run_job_safe start finish write_ok "csv_ingestion"
               (csv_ingestion_job impl) st in
  ("run_ingestion" ∉ attributes CSVDataIngester) /\
  ("run_full_csv_ingestion" ∈ attributes CSVDataIngester) /\
  exists entry, jobs_status st' !! "csv_ingestion" = Some entry /\
    status entry = "error" /\ status entry <> "success" /\
    last_error entry =
      Some "'CSVDataIngester' object has no attribute 'run_ingestion'" /\
    failure_count entry =
      default 0 (failure_count <$> jobs_status st !! "csv_ingestion") + 1 /\
    success_count entry =
      default 0 (success_count <$> jobs_status st !! "csv_ingestion").
Proof.
  intros st'. split; [|split].
  - apply (bool_decide_unpack _). vm_compute. exact I.
  - apply (bool_decide_unpack _). vm_compute. exact I.
  - unfold st', _run_job_safe, _save_job_status. cbn [jobs_status status_file saves].
    rewrite csv_ingestion_job_raises.
    eexists. rewrite lookup_insert_eq. split; [reflexivity|].
    cbn [status last_error failure_count success_count Py.str_of].
    repeat split; discriminate.
Qed.

End JobRunner.


(** ** Writes to the file system *)

Section FileSystemFacts.
Import PurePath FS.

Lemma lookup_mkdirs (l : list Path) (s : fs) (p : Path) :
  foldr (fun q acc => <[q := Dir]> acc) s l !! p =
  if bool_decide (p ∈ l) then Some Dir else s !! p.
Proof.
  induction l as [|q l IH]; cbn [foldr]; [done|].
  destruct (decide (q = p)) as [->|Hne].
  - rewrite lookup_insert_eq. rewrite bool_decide_eq_true_2; [done|left].
  - rewrite lookup_insert_ne by done. rewrite IH.
    apply (f_equal (fun b : bool => if b then Some Dir else s !! p)).
    apply bool_decide_ext. rewrite elem_of_cons. intuition congruence.
Qed.

Lemma mkdir_p_raise (p : Path) (s s' : fs) (e : Py.exn) :
  mkdir_p p s = (Py.Raise e, s') -> s' = s.
Proof. unfold mkdir_p. case_match; congruence. Qed.

Lemma mkdir_p_ok (p : Path) (s s' : fs) :
  mkdir_p p s = (Py.Ok tt, s') ->
  (forall q, s' !! q = if bool_decide (q ∈ chain p) then Some Dir else s !! q) /\
  (forall q, q ∈ chain p -> is_file q s = false).
Proof.
  unfold mkdir_p. destruct (existsb _ _) eqn:Hex; [done|].
  intros [= <-]. split; [intros q; apply lookup_mkdirs|].
  intros q Hq. destruct (is_file q s) eqn:Hf; [|done].
  assert (existsb (fun q => is_file q s) (chain p) = true) as Hex'; [|congruence].
  apply existsb_exists. exists q. split; [by apply list_elem_of_In|done].
Qed.

(** Creating directories neither adds, removes nor changes a regular
    file. *)
Lemma mkdir_p_files (p : Path) (s s' : fs) (r : Py.result unit) (q : Path) (c : content) :
  mkdir_p p s = (r, s') -> s' !! q = Some (File c) <-> s !! q = Some (File c).
Proof.
  destruct r as [[]|e]; intros H.
  - destruct (mkdir_p_ok p s s' H) as [Hl Hf]. rewrite Hl.
    case_bool_decide as Hq; [|done].
    specialize (Hf q Hq). unfold is_file in Hf.
    split; [done|]. intros Hs. by rewrite Hs in Hf.
  - by rewrite (mkdir_p_raise p s s' e H).
Qed.

Lemma write_file_ok (ok : bool) (p : Path) (c : content) (s s' : fs) :
  write_file ok p c s = (Py.Ok tt, s') -> s' = <[p := File c]> s.
Proof. unfold write_file. case_match; congruence. Qed.

Lemma write_file_raise (ok : bool) (p : Path) (c : content) (s s' : fs) (e : Py.exn) :
  write_file ok p c s = (Py.Raise e, s') -> s' = s.
Proof. unfold write_file. case_match; congruence. Qed.

Lemma write_file_cases (ok : bool) (p : Path) (c : content) (s : fs) :
  (write_file ok p c s = (Py.Ok tt, <[p := File c]> s)) \/
  (exists e, write_file ok p c s = (Py.Raise e, s)).
Proof. unfold write_file. case_match; eauto. Qed.

Lemma mkdir_p_cases (p : Path) (s : fs) :
  (exists s', mkdir_p p s = (Py.Ok tt, s')) \/ (exists e, mkdir_p p s = (Py.Raise e, s)).
Proof. unfold mkdir_p. case_match; eauto. Qed.

End FileSystemFacts.

(** ** [organize_data] *)

Section OrganizeData.
Import PurePath FS Storage.
Variable cfg : Config.
Variable env : Env.

(** What a call that returns has done: the partition directories exist,
    the data file holds the frame, and, when the metadata argument is
    true, the sidecar has been written last. *)
Lemma organize_data_ok (now : DateTime.datetime) (data : Pandas.DataFrame)
    (data_type source : string) (timestamp : option DateTime.datetime)
    (metadata : option (list (string * Json.json))) (s s' : fs) (path : string) :
  organize_data cfg env now data data_type source timestamp metadata s = (Py.Ok path, s') ->
  let t := default now timestamp in
  let output_file := data_file cfg data_type source t in
  let filename :=
    data_type +:+ "_" +:+ source +:+ "_" +:+ DateTime.strftime_compact t +:+ ".parquet" in
  path = to_string output_file /\
  exists s1,
    mkdir_p (create_partitioned_path cfg now "raw" data_type source (Some t)) s = (Py.Ok tt, s1) /\
    if truthy metadata then
      exists metadata_file,
        PathSuffix.with_suffix output_file ".metadata.json" = Some metadata_file /\
        s' = <[metadata_file :=
                 File (JsonDoc (sidecar filename output_file (size_of env (Parquet data))
                                  t data data_type source (default [] metadata)))]>
               (<[output_file := File (Parquet data)]> s1)
    else s' = <[output_file := File (Parquet data)]> s1.
Proof.
  intros H t output_file filename.
  unfold organize_data, Py.try_except, Py.bind in H. fold t in H.
  assert (create_partitioned_path cfg now "raw" data_type source (Some t) //
            (data_type +:+ "_" +:+ source +:+ "_" +:+
             DateTime.strftime_compact t +:+ ".parquet") = output_file) as Hof
    by reflexivity.
  rewrite !Hof in H. clear Hof.
  destruct (mkdir_p _ s) as [[[]|e] s1] eqn:Hmk; [|done].
  unfold to_parquet in H.
  destruct (write_file _ output_file _ s1) as [[[]|e] s2] eqn:Hw; [|done].
  apply write_file_ok in Hw as ->.
  destruct (truthy metadata) eqn:Hm.
  - destruct (PathSuffix.with_suffix output_file ".metadata.json") as [mf|] eqn:Hsuf;
      [|done].
    unfold st_size, dump_json in H. rewrite lookup_insert_eq in H.
    destruct (write_file _ mf _ _) as [[[]|e] s3] eqn:Hw2; [|done].
    apply write_file_ok in Hw2 as ->.
    unfold Py.ret in H. injection H as <- <-.
    split; [done|]. exists s1. split; [done|]. exists mf. done.
  - unfold Py.ret in H. injection H as <- <-.
    split; [done|]. exists s1. done.
Qed.

(** A call that raises has written at most the data file: every other
    regular file is as it was, and no other one has appeared. *)
Lemma organize_data_raise_files (now : DateTime.datetime) (data : Pandas.DataFrame)
    (data_type source : string) (timestamp : option DateTime.datetime)
    (metadata : option (list (string * Json.json))) (s s' : fs) (e : Py.exn)
    (p : Path) (c : content) :
  organize_data cfg env now data data_type source timestamp metadata s = (Py.Raise e, s') ->
  p <> data_file cfg data_type source (default now timestamp) ->
  s' !! p = Some (File c) <-> s !! p = Some (File c).
Proof.
  intros H Hp. set (t := default now timestamp) in *.
  set (output_file := data_file cfg data_type source t) in *.
  unfold organize_data, Py.try_except, Py.bind, Py.raise in H. fold t in H.
  assert (create_partitioned_path cfg now "raw" data_type source (Some t) //
            (data_type +:+ "_" +:+ source +:+ "_" +:+
             DateTime.strftime_compact t +:+ ".parquet") = output_file) as Hof
    by reflexivity.
  rewrite !Hof in H. clear Hof.
  destruct (mkdir_p _ s) as [[[]|e1] s1] eqn:Hmk.
  2:{ injection H as <- <-. by rewrite (mkdir_p_raise _ _ _ _ Hmk). }
  rewrite <- (mkdir_p_files _ s s1 _ p c Hmk).
  unfold to_parquet in H.
  destruct (write_file _ output_file _ s1) as [[[]|e2] s2] eqn:Hw.
  2:{ injection H as <- <-. by rewrite (write_file_raise _ _ _ _ _ _ Hw). }
  apply write_file_ok in Hw as ->.
  destruct (truthy metadata).
  - destruct (PathSuffix.with_suffix output_file ".metadata.json") as [mf|].
    + unfold st_size, dump_json in H. rewrite lookup_insert_eq in H.
      destruct (write_file _ mf _ _) as [[[]|e3] s3] eqn:Hw2; [done|].
      injection H as <- <-. rewrite (write_file_raise _ _ _ _ _ _ Hw2).
      by rewrite lookup_insert_ne.
    + injection H as <- <-. by rewrite lookup_insert_ne.
  - done.
Qed.

End OrganizeData.


(** ** The sidecar of [organize_data] *)

Section Sidecar.
Import PurePath FS Storage.

Lemma with_suffix_parent (p q : Path) (suffix : string) :
  PathSuffix.with_suffix p suffix = Some q -> parent q = parent p.
Proof.
  unfold PathSuffix.with_suffix. case_match; [done|]. intros [= <-].
  unfold parent. cbn [absolute parts]. by rewrite removelast_last.
Qed.

(** C10, as the code has it.  When [organize_data] returns and was given
    a non-empty metadata dictionary, the file next to the data file whose
    name has the suffix [.metadata.json] in place of [.parquet] holds
    the document [{file_info: {filename, path, size_bytes, created_at},
    data_info: {rows, columns, data_type, source}, metadata}], with the
    row and column counts of the frame, the size of the data file and
    the caller's dictionary.  When the metadata argument is absent or
    empty no sidecar is written: the data file is the only regular file
    the call creates or changes. *)
Theorem organize_data_sidecar (cfg : Config) (env : Env) (now : DateTime.datetime)
    (data : Pandas.DataFrame) (data_type source : string)
    (timestamp : option DateTime.datetime)
    (metadata : option (list (string * Json.json))) (s s' : fs) (path : string) :
  organize_data cfg env now data data_type source timestamp metadata s = (Py.Ok path, s') ->
  let t := default now timestamp in
  let output_file := data_file cfg data_type source t in
  let filename :=
    data_type +:+ "_" +:+ source +:+ "_" +:+ DateTime.strftime_compact t +:+ ".parquet" in
  path = to_string output_file /\
  (truthy metadata = true ->
     exists metadata_file doc,
       PathSuffix.with_suffix output_file ".metadata.json" = Some metadata_file /\
       parent metadata_file = parent output_file /\
       s' !! metadata_file = Some (File (JsonDoc doc)) /\
       Json.keys doc = ["file_info"; "data_info"; "metadata"] /\
       Json.field "file_info" doc =
         Some (Json.JObj [("filename", Json.JStr filename);
                          ("path", Json.JStr path);
                          ("size_bytes", Json.JInt (size_of env (Parquet data)));
                          ("created_at", Json.JStr (DateTime.isoformat t))]) /\
       Json.field "data_info" doc =
         Some (Json.JObj [("rows", Json.JInt (Pandas.len data));
                          ("columns", Json.JInt (Pandas.n_columns data));
                          ("data_type", Json.JStr data_type);
                          ("source", Json.JStr source)]) /\
       Json.field "metadata" doc = Some (Json.JObj (default [] metadata))) /\
  (truthy metadata = false ->
     forall p c, p <> output_file ->
       s' !! p = Some (File c) <-> s !! p = Some (File c)).
Proof.
  intros H t output_file filename.
  destruct (organize_data_ok cfg env now data data_type source timestamp metadata
              s s' path H) as (Hpath & s1 & Hmk & Hs').
  fold t output_file filename in Hs', Hpath, Hmk.
  split; [exact Hpath|]. split.
  - intros Hm. rewrite Hm in Hs'. destruct Hs' as (mf & Hsuf & ->).
    eexists mf, _. split; [exact Hsuf|].
    split; [by apply with_suffix_parent in Hsuf|].
    split; [apply lookup_insert_eq|].
    rewrite Hpath. repeat split.
  - intros Hm p c Hp. rewrite Hm in Hs'. subst s'.
    rewrite lookup_insert_ne by done.
    apply (mkdir_p_files _ _ _ _ _ _ Hmk).
Qed.

Lemma organize_data_sidecar_witness :
  let run := organize_data Scenario.storage_cfg Scenario.disk_ok Scenario.noon
               Scenario.events_chunk "events" "csv_ingestion" (Some Scenario.noon)
               (Some [("original_file", Json.JStr "data/raw/events.csv")]) ∅ in
  fst run =
    Py.Ok "data/raw/source=csv_ingestion/type=events/timestamp=20240301_120000/events_csv_ingestion_20240301_120000.parquet" /\
  exists doc,
    snd run !! of_string "data/raw/source=csv_ingestion/type=events/timestamp=20240301_120000/events_csv_ingestion_20240301_120000.metadata.json"
      = Some (File (JsonDoc doc)) /\
    Json.field "data_info" doc =
      Some (Json.JObj [("rows", Json.JInt 3); ("columns", Json.JInt 5);
                       ("data_type", Json.JStr "events");
                       ("source", Json.JStr "csv_ingestion")]).
Proof.
  intros run.
  assert (fst run = Py.Ok "data/raw/source=csv_ingestion/type=events/timestamp=20240301_120000/events_csv_ingestion_20240301_120000.parquet")
    as Hfst by (vm_compute; reflexivity).
  split; [exact Hfst|].
  subst run.
  destruct (organize_data _ _ _ _ _ _ _ _ _) as [r s'] eqn:Hrun.
  cbn [fst snd] in *. subst r.
  destruct (organize_data_sidecar _ _ _ _ _ _ _ _ _ _ _ Hrun) as (_ & Hside & _).
  destruct (Hside eq_refl) as (mf & doc & Hsuf & _ & Hdoc & _ & _ & Hinfo & _).
  exists doc. split; [|exact Hinfo].
  vm_compute in Hsuf. injection Hsuf as <-. exact Hdoc.
Defined.

(** Two calls of [organize_data] that write the data file and no
    sidecar.  Without a metadata argument the call returns the data
    file's path, and the data file is the only regular file on the
    disk.  With a metadata argument, on a disk on which the sidecar
    cannot be opened, the call raises after it has written the data
    file, and there is no sidecar. *)
Lemma organize_data_data_file_without_sidecar :
  let data_path := of_string "data/raw/source=csv_ingestion/type=events/timestamp=20240301_120000/events_csv_ingestion_20240301_120000.parquet" in
  let sidecar_path := of_string "data/raw/source=csv_ingestion/type=events/timestamp=20240301_120000/events_csv_ingestion_20240301_120000.metadata.json" in
  let run := organize_data Scenario.storage_cfg Scenario.disk_ok Scenario.noon
               Scenario.events_chunk "events" "csv_ingestion" (Some Scenario.noon)
               None ∅ in
  let refused := organize_data Scenario.storage_cfg Scenario.disk_refuses_sidecars
                   Scenario.noon Scenario.events_chunk "events" "csv_ingestion"
                   (Some Scenario.noon)
                   (Some [("original_file", Json.JStr "data/raw/events.csv")]) ∅ in
  (fst run = Py.Ok (to_string data_path) /\
   snd run !! data_path = Some (File (Parquet Scenario.events_chunk)) /\
   snd run !! sidecar_path = None /\
   List.filter (fun p => negb (String.eqb (PathSuffix.suffix_of (name p)) ".parquet"))
     (map fst (List.filter (fun e => match snd e with File _ => true | Dir => false end)
                 (entries (snd run)))) = []) /\
  (Py.is_raise (fst refused) = true /\
   snd refused !! data_path = Some (File (Parquet Scenario.events_chunk)) /\
   snd refused !! sidecar_path = None).
Proof. vm_compute. repeat split. Qed.

End Sidecar.


(** ** The latest file *)

Section LatestPointer.
Import PurePath FS Storage.

(** [organize_file] that returns has copied the source to the latest
    file of its data type. *)
Lemma organize_file_ok (cfg : Config) (env : Env) (now : DateTime.datetime)
    (source_path data_type source_type target_dir : string) (s s' : fs) (path : string) :
  organize_file cfg env now source_path data_type source_type target_dir s = (Py.Ok path, s') ->
  exists c, s !! of_string source_path = Some (File c) /\
    s' !! latest_file cfg target_dir data_type
            (PathSuffix.suffix_of (name (of_string source_path))) = Some (File c).
Proof.
  unfold organize_file, Py.bind, Py.get, Py.raise, Py.ret, copy2.
  destruct (negb _); [done|].
  destruct (mkdir_p _ s) as [[[]|e] s1] eqn:Hmk1; [|done].
  destruct (s1 !! of_string source_path) as [[|c]|] eqn:Hsrc; [done| |done].
  destruct (write_file _ _ c s1) as [[[]|e] s2] eqn:Hw1; [|done].
  apply write_file_ok in Hw1 as ->.
  destruct (mkdir_p _ (<[_ := _]> s1)) as [[[]|e] s3] eqn:Hmk2; [|done].
  assert (s3 !! of_string source_path = Some (File c)) as Hsrc3.
  { apply (mkdir_p_files _ _ _ _ _ _ Hmk2).
    destruct (decide (create_partitioned_path cfg now target_dir data_type source_type
                (Some (default now (_extract_timestamp_from_filename
                                      (name (of_string source_path)))))
              // name (of_string source_path) = of_string source_path)) as [Heq|Hne].
    - rewrite Heq. apply lookup_insert_eq.
    - by rewrite lookup_insert_ne. }
  rewrite Hsrc3.
  destruct (write_file _ _ c s3) as [[[]|e] s4] eqn:Hw2; [|done].
  apply write_file_ok in Hw2 as ->. intros [= _ <-].
  exists c. split; [by apply (mkdir_p_files _ _ _ _ _ _ Hmk1)|apply lookup_insert_eq].
Qed.

(** [organize_file] copies into the partition first: when the partition
    directory cannot be made or the copy into it raises, the call raises
    without having reached the copy to the latest file, and every
    regular file other than the copy in the partition is as it was. *)
Lemma organize_file_partition_first (cfg : Config) (env : Env) (now : DateTime.datetime)
    (source_path data_type source_type target_dir : string) (s : fs) :
  let target_path :=
    create_partitioned_path cfg now target_dir data_type source_type
      (Some (default now (_extract_timestamp_from_filename
                            (name (of_string source_path))))) in
  let target_file := target_path // name (of_string source_path) in
  Py.is_raise (fst (Py.bind (mkdir_p target_path)
                      (fun _ => copy2 env (of_string source_path) target_file) s)) = true ->
  exists e s',
    organize_file cfg env now source_path data_type source_type target_dir s
      = (Py.Raise e, s') /\
    forall p c, p <> target_file -> s' !! p = Some (File c) <-> s !! p = Some (File c).
Proof.
  cbv zeta.
  unfold organize_file, Py.bind, Py.get, Py.raise, Py.ret, copy2.
  destruct (negb _); [intros _; by eexists _, _|].
  destruct (mkdir_p _ s) as [[[]|e1] s1] eqn:Hmk1.
  2:{ intros _. eexists _, _. split; [done|]. intros p c _.
      by rewrite (mkdir_p_raise _ _ _ _ Hmk1). }
  destruct (s1 !! of_string source_path) as [[|c1]|] eqn:Hsrc.
  1,3: intros _; eexists _, _; split; [done|]; intros p c _;
       apply (mkdir_p_files _ _ _ _ _ _ Hmk1).
  destruct (write_file _ _ c1 s1) as [[[]|e2] s2] eqn:Hw1; [done|].
  intros _. eexists _, _. split; [done|]. intros p c _.
  rewrite (write_file_raise _ _ _ _ _ _ Hw1).
  apply (mkdir_p_files _ _ _ _ _ _ Hmk1).
Qed.

(** The save step that returns has organized the frame and then written
    it as the latest version. *)
Lemma save_events_ok (cfg : Csv.Config) (env : Csv.Env) (file_path : string)
    (df : Pandas.DataFrame) (n : Z) (stamp : string) (t : DateTime.datetime)
    (w w' : Csv.World) (path : string) :
  Csv.save_events cfg env file_path df n stamp t w = (Py.Ok path, w') ->
  (exists s1, organize_data (Csv.storage cfg) (Csv.fs_env env) t df "events" "csv_ingestion"
                (Some t) (Some [("original_file", Json.JStr file_path);
                                ("ingestion_timestamp", Json.JStr stamp);
                                ("duplicates_removed", Json.JInt n)]) (Csv.files w)
              = (Py.Ok path, s1)) /\
  Csv.files w' !! Csv.events_latest cfg = Some (File (Parquet df)).
Proof.
  unfold Csv.save_events, Csv.on_files, Py.bind, Py.ret, to_parquet.
  destruct (organize_data _ _ _ _ _ _ _ _ _) as [[out|e] s1] eqn:Horg; [|done].
  cbn [Csv.files Csv.ticks].
  destruct (write_file _ _ _ s1) as [[[]|e] s2] eqn:Hw; [|done].
  apply write_file_ok in Hw as ->. intros [= <- <-]. cbn [Csv.files].
  split; [by exists s1|apply lookup_insert_eq].
Qed.

(** C4, as the code has it.  In the save step of [ingest_events_csv],
    when the organize call raises, the step raises at once, in the state
    that call left, without reaching the write of the latest file: every
    regular file other than the partition's data file and its sidecar is
    as it was; when the step returns, the organize call has returned and
    the latest file holds the batch of this call.  So after two
    successive save steps that return, the latest file held the first
    batch after the first and holds the second batch after the second.
    In [organize_file], likewise, for destinations that are not
    directories ([shutil.copy2] copies into a directory), a call that
    returns has copied its source to the latest file of the data type,
    and a call whose copy into the partition is not made raises and has
    changed no regular file other than that copy. *)
Theorem latest_pointer_follows_success :
  (forall (cfg : Csv.Config) (env : Csv.Env) (file_path : string)
          (df : Pandas.DataFrame) (n : Z) (stamp : string) (t : DateTime.datetime)
          (w : Csv.World),
     let organize :=
       organize_data (Csv.storage cfg) (Csv.fs_env env) t df "events" "csv_ingestion"
         (Some t) (Some [("original_file", Json.JStr file_path);
                         ("ingestion_timestamp", Json.JStr stamp);
                         ("duplicates_removed", Json.JInt n)]) in
     let output_file := data_file (Csv.storage cfg) "events" "csv_ingestion" t in
     (forall e s1, organize (Csv.files w) = (Py.Raise e, s1) ->
        Csv.save_events cfg env file_path df n stamp t w =
          (Py.Raise e, Csv.mk_world s1 (Csv.ticks w)) /\
        forall p c, p <> output_file ->
          PathSuffix.with_suffix output_file ".metadata.json" <> Some p ->
          s1 !! p = Some (File c) <-> Csv.files w !! p = Some (File c)) /\
     (forall path w', Csv.save_events cfg env file_path df n stamp t w = (Py.Ok path, w') ->
        (exists s1, organize (Csv.files w) = (Py.Ok path, s1)) /\
        Csv.files w' !! Csv.events_latest cfg = Some (File (Parquet df)))) /\
  (forall (cfg : Csv.Config) (env : Csv.Env) fp1 fp2 (df1 df2 : Pandas.DataFrame)
          n1 n2 stamp1 stamp2 t1 t2 (w w1 w2 : Csv.World) path1 path2,
     Csv.save_events cfg env fp1 df1 n1 stamp1 t1 w = (Py.Ok path1, w1) ->
     Csv.save_events cfg env fp2 df2 n2 stamp2 t2 w1 = (Py.Ok path2, w2) ->
     Csv.files w1 !! Csv.events_latest cfg = Some (File (Parquet df1)) /\
     Csv.files w2 !! Csv.events_latest cfg = Some (File (Parquet df2))) /\
  (forall (cfg : Config) (env : Env) (now : DateTime.datetime)
          (source_path data_type source_type target_dir : string) (s : fs),
     let target_path :=
       create_partitioned_path cfg now target_dir data_type source_type
         (Some (default now (_extract_timestamp_from_filename
                               (name (of_string source_path))))) in
     let target_file := target_path // name (of_string source_path) in
     (forall path s',
        is_dir (latest_file cfg target_dir data_type
                  (PathSuffix.suffix_of (name (of_string source_path)))) s = false ->
        organize_file cfg env now source_path data_type source_type target_dir s
          = (Py.Ok path, s') ->
        exists c, s !! of_string source_path = Some (File c) /\
          s' !! latest_file cfg target_dir data_type
                  (PathSuffix.suffix_of (name (of_string source_path))) = Some (File c)) /\
     (is_dir target_file s = false ->
      Py.is_raise (fst (Py.bind (mkdir_p target_path)
                          (fun _ => copy2 env (of_string source_path) target_file) s))
        = true ->
      exists e s',
        organize_file cfg env now source_path data_type source_type target_dir s
          = (Py.Raise e, s') /\
        forall p c, p <> target_file ->
          s' !! p = Some (File c) <-> s !! p = Some (File c))).
Proof.
  split; [|split].
  - intros cfg env file_path df n stamp t w. cbv zeta. split.
    + intros e s1 Horg. split.
      * unfold Csv.save_events, Csv.on_files, Py.bind. rewrite Horg. reflexivity.
      * intros p c Hp _. eapply organize_data_raise_files; [exact Horg|exact Hp].
    + intros path w' Hsave. eapply save_events_ok. exact Hsave.
  - intros cfg env fp1 fp2 df1 df2 n1 n2 stamp1 stamp2 t1 t2 w w1 w2 path1 path2 H1 H2.
    split; [eapply save_events_ok; exact H1|eapply save_events_ok; exact H2].
  - intros cfg env now source_path data_type source_type target_dir s. cbv zeta. split.
    + intros path s' _ H. eapply organize_file_ok. exact H.
    + intros _. apply organize_file_partition_first.
Qed.

End LatestPointer.


Section LatestPointerWitness.
Import PurePath FS Storage Scenario.

Lemma latest_pointer_follows_success_witness :
  let w := Csv.mk_world disk_with_events 0 in
  let first := Csv.save_events csv_cfg csv_flaky "data/raw/events.csv"
                 events_chunk 1 "20240301_120000" noon w in
  let second := Csv.save_events csv_cfg csv_flaky "data/raw/events.csv"
                  events_chunk2 0 "20240301_120001" one_second_later (snd first) in
  let refused := Csv.save_events csv_cfg csv_on_rejecting_disk "data/raw/events.csv"
                   events_chunk2 0 "20240301_120001" one_second_later
                   (Csv.mk_world disk_with_latest 0) in
  let moved := organize_file storage_cfg disk_ok noon "data/raw/events.csv"
                 "events" "csv" "raw" disk_with_events in
  let lost := organize_file storage_cfg disk_ok noon "data/raw/lost.csv"
                "events" "csv" "raw" disk_with_latest in
  Py.is_raise (fst first) = false /\ Py.is_raise (fst second) = false /\
  Csv.files (snd first) !! Csv.events_latest csv_cfg = Some (File (Parquet events_chunk)) /\
  Csv.files (snd second) !! Csv.events_latest csv_cfg = Some (File (Parquet events_chunk2)) /\
  Py.is_raise (fst refused) = true /\
  Csv.files (snd refused) !! Csv.events_latest csv_cfg = Some (File (Parquet events_chunk)) /\
  Py.is_raise (fst moved) = false /\
  snd moved !! of_string "data/raw/events_latest.csv"
    = Some (File (Blob "timestamp,itemid,...")) /\
  Py.is_raise (fst lost) = true /\
  snd lost !! Csv.events_latest csv_cfg = Some (File (Parquet events_chunk)).
Proof.
  intros w first second refused moved lost.
  destruct latest_pointer_follows_success as (Hstep & Htwice & Hfile).
  assert (Py.is_raise (fst first) = false) as H1 by (vm_compute; reflexivity).
  assert (Py.is_raise (fst second) = false) as H2 by (vm_compute; reflexivity).
  assert (Py.is_raise (fst refused) = true) as H3 by (vm_compute; reflexivity).
  assert (Py.is_raise (fst moved) = false) as H4 by (vm_compute; reflexivity).
  split; [exact H1|]. split; [exact H2|].
  assert (Csv.files (snd first) !! Csv.events_latest csv_cfg
            = Some (File (Parquet events_chunk)) /\
          Csv.files (snd second) !! Csv.events_latest csv_cfg
            = Some (File (Parquet events_chunk2))) as [Hone Htwo].
  { subst second first.
    destruct (Csv.save_events _ _ _ events_chunk _ _ _ w) as [[p1|e1] w1] eqn:E1;
      [|discriminate H1].
    cbn [snd] in *.
    destruct (Csv.save_events _ _ _ events_chunk2 _ _ _ w1) as [[p2|e2] w2] eqn:E2;
      [|discriminate H2].
    cbn [snd]. exact (Htwice _ _ _ _ _ _ _ _ _ _ _ _ _ _ _ _ _ E1 E2). }
  split; [exact Hone|]. split; [exact Htwo|]. split; [exact H3|].
  split; [|split; [exact H4|split]].
  - subst refused.
    destruct (Hstep csv_cfg csv_on_rejecting_disk "data/raw/events.csv" events_chunk2 0
                "20240301_120001" one_second_later (Csv.mk_world disk_with_latest 0))
      as [Hfail _].
    cbn [Csv.files Csv.ticks] in Hfail.
    destruct (organize_data (Csv.storage csv_cfg) (Csv.fs_env csv_on_rejecting_disk)
                one_second_later events_chunk2 "events" "csv_ingestion"
                (Some one_second_later)
                (Some [("original_file", Json.JStr "data/raw/events.csv");
                       ("ingestion_timestamp", Json.JStr "20240301_120001");
                       ("duplicates_removed", Json.JInt 0)]) disk_with_latest)
      as [[p|e] s1] eqn:Eorg.
    { exfalso. revert H3. unfold Csv.save_events, Csv.on_files, Py.bind.
      cbn [Csv.files Csv.ticks]. rewrite Eorg. cbv beta iota. cbn [Csv.files Csv.ticks].
      destruct (to_parquet _ _ _ s1) as [[[]|e] s2]; discriminate. }
    destruct (Hfail e s1 eq_refl) as [Hsave Hkeep]. rewrite Hsave. cbn [snd Csv.files].
    apply Hkeep.
    + intros Heq. vm_compute in Heq. discriminate Heq.
    + intros Heq. vm_compute in Heq. discriminate Heq.
    + vm_compute. reflexivity.
  - subst moved.
    destruct (Hfile storage_cfg disk_ok noon "data/raw/events.csv" "events" "csv" "raw"
                disk_with_events) as [Hok _].
    destruct (organize_file storage_cfg disk_ok noon "data/raw/events.csv" "events" "csv"
                "raw" disk_with_events) as [[p|e] s1] eqn:Emv; [|discriminate H4].
    destruct (Hok p s1 ltac:(vm_compute; reflexivity) eq_refl) as (c & Hsrc & Hlatest).
    cbn [snd].
    assert (c = Blob "timestamp,itemid,...") as ->.
    { vm_compute in Hsrc. by injection Hsrc. }
    exact Hlatest.
  - subst lost.
    destruct (Hfile storage_cfg disk_ok noon "data/raw/lost.csv" "events" "csv" "raw"
                disk_with_latest) as [_ Hraise].
    destruct Hraise as (e & s' & -> & Hkeep);
      [vm_compute; reflexivity|vm_compute; reflexivity|].
    cbn [fst snd Py.is_raise]. split; [reflexivity|].
    apply Hkeep.
    + intros Heq. vm_compute in Heq. discriminate Heq.
    + vm_compute. reflexivity.
Defined.

(** Two organize calls that return do not make the latest file hold the
    second batch: after a first save step that returned, the organize
    call of the second step returns, the write of the latest file is
    refused, and the latest file still holds the first batch. *)
Lemma latest_pointer_keeps_first_batch :
  let w := Csv.mk_world disk_with_events 0 in
  let first := Csv.save_events csv_cfg csv_flaky "data/raw/events.csv"
                 events_chunk 1 "20240301_120000" noon w in
  let organized_again :=
    organize_data (Csv.storage csv_cfg) (Csv.fs_env csv_latest_locked)
      one_second_later events_chunk2 "events" "csv_ingestion" (Some one_second_later)
      (Some [("original_file", Json.JStr "data/raw/events.csv");
             ("ingestion_timestamp", Json.JStr "20240301_120001");
             ("duplicates_removed", Json.JInt 0)]) (Csv.files (snd first)) in
  let second := Csv.save_events csv_cfg csv_latest_locked "data/raw/events.csv"
                  events_chunk2 0 "20240301_120001" one_second_later (snd first) in
  Py.is_raise (fst first) = false /\
  Py.is_raise (fst organized_again) = false /\
  Py.is_raise (fst second) = true /\
  Csv.files (snd second) !! Csv.events_latest csv_cfg = Some (File (Parquet events_chunk)) /\
  Csv.files (snd second) !! Csv.events_latest csv_cfg <> Some (File (Parquet events_chunk2)).
Proof.
  intros w first organized_again second.
  assert (Csv.files (snd second) !! Csv.events_latest csv_cfg
            = Some (File (Parquet events_chunk))) as Hkept by (vm_compute; reflexivity).
  split; [vm_compute; reflexivity|]. split; [vm_compute; reflexivity|].
  split; [vm_compute; reflexivity|]. split; [exact Hkept|].
  rewrite Hkept. intros Heq. vm_compute in Heq. discriminate Heq.
Qed.

End LatestPointerWitness.


(** ** Retention cleanup *)

Section Cleanup.
Import PurePath FS Storage.

Lemma filter_none {A} (f : A -> bool) (l : list A) :
  (forall x, x ∈ l -> f x = false) -> List.filter f l = [].
Proof.
  induction l as [|x l IH]; intros H; [done|]. cbn.
  rewrite (H x) by left. apply IH. intros y Hy. apply H. by right.
Qed.

(** In a tree without any entry named [year=...], the recursive search
    for year directories finds nothing. *)
Lemma rglob_year_none (p : Path) (s : fs) :
  (forall q n, s !! q = Some n -> PyStr.startswith "year=" (name q) = false) ->
  rglob_prefix p "year=" s = [].
Proof.
  intros H. unfold rglob_prefix, entries. rewrite filter_none; [done|].
  intros [q n] Hq. apply elem_of_map_to_list in Hq. cbn [fst].
  rewrite (H q n Hq). apply andb_false_r.
Qed.

Lemma scan_tiers_no_year (cfg : Config) (env : Env) (now : DateTime.datetime) (s : fs)
    (retention_config : list (string * Z)) (acc : list action) :
  (forall q n, s !! q = Some n -> PyStr.startswith "year=" (name q) = false) ->
  scan_tiers cfg env now s retention_config acc = Py.Ok acc \/
  exists e, scan_tiers cfg env now s retention_config acc = Py.Raise e.
Proof.
  intros H. induction retention_config as [|[data_dir days] rest IH]; cbn [scan_tiers].
  - by left.
  - destruct (DateTime.sub_days now days); [|eauto].
    destruct (negb _); [done|].
    rewrite rglob_year_none by done. done.
Qed.

(** Whatever the retention mapping and the clock, on a tree without any
    entry named [year=...] the cleanup collects no candidate and deletes
    nothing. *)
Lemma cleanup_old_data_no_year (cfg : Config) (env : Env) (now : DateTime.datetime)
    (dry_run : bool) (s : fs) :
  (forall q n, s !! q = Some n -> PyStr.startswith "year=" (name q) = false) ->
  cleanup_old_data cfg env now dry_run s = (Py.Ok [], s) \/
  exists e, cleanup_old_data cfg env now dry_run s = (Py.Raise e, s).
Proof.
  intros H. unfold cleanup_old_data, Py.bind, Py.get, Py.raise, Py.ret.
  destruct (scan_tiers_no_year cfg env now s (retention_days cfg) [] H) as [->|[e ->]].
  - by left.
  - right. by exists e.
Qed.

(** C1, at the input where the code departs from it.  On the tree that
    [organize_data] builds for batches stamped 10, 40 and 100 days ago,
    with 90 days of retention for the tier, the partition of 100 days ago
    is strictly older than the cutoff, yet [cleanup_old_data] collects no
    candidate, in a dry run or not, and the partition is still there
    after the run that deletes: the scan looks for [year=*] directories,
    which this layout does not have. *)
Theorem cleanup_old_data_misses_timestamp_partitions :
  let tree := Scenario.three_partitions in
  let cutoff := default Scenario.noon (DateTime.sub_days Scenario.noon 90) in
  retention_days Scenario.storage_cfg = [("raw", 90)] /\
  is_dir (Scenario.partition_of (Scenario.days_ago 10)) tree = true /\
  is_dir (Scenario.partition_of (Scenario.days_ago 40)) tree = true /\
  is_dir (Scenario.partition_of (Scenario.days_ago 100)) tree = true /\
  DateTime.ltb (Scenario.days_ago 100) cutoff = true /\
  DateTime.ltb (Scenario.days_ago 40) cutoff = false /\
  fst (cleanup_old_data Scenario.storage_cfg Scenario.disk_ok Scenario.noon true tree)
    = Py.Ok [] /\
  fst (cleanup_old_data Scenario.storage_cfg Scenario.disk_ok Scenario.noon false tree)
    = Py.Ok [] /\
  is_dir (Scenario.partition_of (Scenario.days_ago 100))
    (snd (cleanup_old_data Scenario.storage_cfg Scenario.disk_ok Scenario.noon false tree))
    = true.
Proof. vm_compute. repeat split. Qed.

End Cleanup.


Section MoreWitnesses.
Import Trace Scenario.

Lemma backoff_delays_witness :
  delay_after 2 (snd (Api.make_api_request api_cfg always_429)) = Some 10 /\
  delay_after 2 (Csv.trace (snd (Csv.ingest_events_csv csv_cfg csv_unreadable
                                   "data/raw/events.csv" start))) = Some 5.
Proof.
  destruct backoff_delays as [Hapi Hcsv]. split.
  - apply (proj2 (Hapi api_cfg always_429 2)). vm_compute. split; [discriminate|reflexivity].
  - apply (proj2 (Hcsv csv_cfg csv_unreadable "data/raw/events.csv"
                    (Csv.mk_world disk_with_events 0) [] 2)).
    vm_compute. split; [discriminate|reflexivity].
Defined.

Lemma run_job_safe_records_outcome_witness :
  let st := Scheduler.mk_state ∅ None [] in
  let st' := Scheduler._run_job_safe noon one_second_later true "health_check"
               (fun _ => Py.Ok (Scheduler.PBool true)) st in
  Scheduler.status_file st' = Some (Scheduler.jobs_status st') /\
  Scheduler.jobs_status st' !! "cleanup" = None.
Proof.
  intros st st'.
  destruct (run_job_safe_records_outcome noon one_second_later true "health_check"
              (fun _ => Py.Ok (Scheduler.PBool true)) st) as (_ & Hother & _ & Hfile).
  split; [exact (Hfile eq_refl)|].
  unfold st'. rewrite (Hother "cleanup"); [reflexivity|discriminate].
Defined.

End MoreWitnesses.


(** ** Bounds and soundness of the request loop *)

Section RequestLoopBounds.
Import Trace Api.






Lemma request_loop_success (cfg : Config) (request : Z -> outcome)
    (m a : nat) (t0 : list event) :
  Z.of_nat a + Z.of_nat m = retry_attempts cfg + 1 ->
  let res := request_loop cfg request (map Z.of_nat (seq a m)) t0 in
  (fst (fst (fst res)) = true ->
     exists K text data,
       Z.of_nat a <= K <= retry_attempts cfg /\
       request K = Response 200 text (Some data) /\
       snd (fst (fst res)) = Some data /\
       attempts (snd res) = attempts t0 + (K - Z.of_nat a + 1) /\
       forall k, Z.of_nat a <= k < K -> retried (request k) = true) /\
  (fst (fst (fst res)) = false -> snd (fst (fst res)) = None).
Proof.
  revert a t0. induction m as [|m IH]; intros a t0 Hlen; [cbn; split; done|].
  cbn [seq map request_loop].
  assert (attempts (t0 ++ [Attempt (Z.of_nat a)]) = attempts t0 + 1) as Hcount1.
  { rewrite !attempts_app. unfold attempts. cbn. lia. }
  assert (forall t1, attempts t1 = attempts t0 + 1 ->
            retried (request (Z.of_nat a)) = true ->
    let res := request_loop cfg request (map Z.of_nat (seq (S a) m)) t1 in
    (fst (fst (fst res)) = true ->
       exists K text data,
         Z.of_nat a <= K <= retry_attempts cfg /\
         request K = Response 200 text (Some data) /\
         snd (fst (fst res)) = Some data /\
         attempts (snd res) = attempts t0 + (K - Z.of_nat a + 1) /\
         forall k, Z.of_nat a <= k < K -> retried (request k) = true) /\
    (fst (fst (fst res)) = false -> snd (fst (fst res)) = None)) as Hgo.
  { intros t1 Ht1 Hr. destruct (IH (S a) t1 ltac:(lia)) as [Hyes Hno].
    cbn zeta. split; [|exact Hno].
    intros Hs. destruct (Hyes Hs) as (K & text & data & HK & Hreq & Hdata & Hatt & Hbefore).
    exists K, text, data. split; [lia|]. split; [done|]. split; [done|].
    split; [rewrite Hatt, Ht1; lia|].
    intros k Hk. destruct (Z.eq_dec k (Z.of_nat a)) as [->|Hne]; [done|].
    apply Hbefore. lia. }
  assert (attempts ((t0 ++ [Attempt (Z.of_nat a)]) ++ [Sleep (retry_delay cfg * Z.of_nat a)])
          = attempts t0 + 1) as Hcount.
  { rewrite !attempts_app. unfold attempts. cbn. lia. }
  destruct (request (Z.of_nat a)) as [code text body|msg] eqn:Hreq.
  - destruct (Z.eqb_spec code 200) as [->|Hne].
    + destruct body as [data|].
      * cbn [fst snd]. split; [|done]. intros _.
        exists (Z.of_nat a), text, data. rewrite Hcount1.
        repeat split; (done || lia).
      * unfold on_exception. destruct (Z.of_nat a <? retry_attempts cfg).
        -- apply Hgo; done.
        -- cbn [fst snd]. split; done.
    + destruct (Z.eqb_spec code 429) as [->|Hne2].
      * apply Hgo; done.
      * cbn [fst snd]. split; done.
  - unfold on_exception. destruct (Z.of_nat a <? retry_attempts cfg).
    + apply Hgo; done.
    + cbn [fst snd]. split; done.
Qed.

(** X2.  [make_api_request] reports success only for a 200 response with
    a JSON body: when the reply says success, some try [K] within the
    ceiling met such a response, every try before it was retried, the
    reply carries exactly that body and exactly [K] requests were made;
    and a reply that says failure carries no data. *)
Theorem make_api_request_success_sound (cfg : Config) (request : Z -> outcome) :
  let res := make_api_request cfg request in
  (fst (fst (fst res)) = true ->
     exists K text data,
       1 <= K <= retry_attempts cfg /\
       request K = Response 200 text (Some data) /\
       snd (fst (fst res)) = Some data /\
       attempts (snd res) = K /\
       forall k, 1 <= k < K -> retried (request k) = true) /\
  (fst (fst (fst res)) = false -> snd (fst (fst res)) = None).
Proof.
  intros res. unfold res, make_api_request, range1.
  destruct (Z_le_gt_dec (retry_attempts cfg) 0) as [Hle|Hgt].
  - replace (Z.to_nat (retry_attempts cfg)) with 0%nat by lia. cbn. split; done.
  - destruct (request_loop_success cfg request (Z.to_nat (retry_attempts cfg)) 1 []
                ltac:(lia)) as [Hyes Hno].
    split; [|exact Hno]. intros Hs.
    destruct (Hyes Hs) as (K & text & data & HK & Hreq & Hdata & Hatt & Hbefore).
    exists K, text, data. repeat split; try done; try lia.
    rewrite Hatt. unfold attempts. cbn. lia.
Qed.

Lemma make_api_request_success_sound_witness :
  exists K text data,
    Scenario.third_time_lucky K = Response 200 text (Some data) /\
    attempts (snd (make_api_request Scenario.api_cfg Scenario.third_time_lucky)) = K.
Proof.
  destruct (make_api_request_success_sound Scenario.api_cfg Scenario.third_time_lucky)
    as [Hyes _].
  destruct (Hyes ltac:(vm_compute; reflexivity))
    as (K & text & data & _ & Hreq & _ & Hatt & _).
  exists K, text, data. split; [exact Hreq|exact Hatt].
Defined.

End RequestLoopBounds.


(** ** Candidates and deletions of the retention cleanup *)

Section CleanupRuns.
Import PurePath FS Storage.

Lemma rmtree_lookup (env : Env) (p q : Path) (s : fs) :
  let s' := snd (rmtree env p s) in
  (s' !! q = None \/ s' !! q = s !! q) /\
  (q <> p -> is_under p q = false -> s' !! q = s !! q) /\
  (rmtree_ok env p = true -> s !! p = Some Dir -> s' !! p = None) /\
  (s !! q = None -> s' !! q = None).
Proof.
  unfold rmtree. destruct (rmtree_ok env p); cbn [andb].
  2:{ cbn [snd]. repeat split; auto; discriminate. }
  destruct (s !! p) as [[|c]|] eqn:Hp; cbn [snd].
  2,3: repeat split; auto; discriminate.
  repeat split.
  - destruct (filter _ s !! q) eqn:Hq; [|by left].
    right. apply map_lookup_filter_Some in Hq as [Hq _]. done.
  - intros Hne Hunder. destruct (s !! q) as [n|] eqn:Hq.
    + apply map_lookup_filter_Some. split; [done|]. cbn. intros [H|H]; congruence.
    + apply map_lookup_filter_None. left. done.
  - intros _ _. apply map_lookup_filter_None. right. intros n _. cbn. tauto.
  - intros Hq. apply map_lookup_filter_None. by left.
Qed.

Lemma delete_all_cons (env : Env) (a : action) (l : list action) (s : fs) :
  delete_all env (a :: l) s = delete_all env l (snd (rmtree env (a_path a) s)).
Proof.
  cbn [delete_all]. unfold Py.bind, Py.try_except, Py.ret.
  by destruct (rmtree env (a_path a) s) as [[[]|e] s1].
Qed.

(** The deletion loop never raises, only removes entries, leaves alone
    what lies outside the candidates, and removes every candidate
    directory whose removal the disk allows. *)
Lemma delete_all_spec (env : Env) (l : list action) (s : fs) :
  fst (delete_all env l s) = Py.Ok tt /\
  (forall q, snd (delete_all env l s) !! q = None \/
             snd (delete_all env l s) !! q = s !! q) /\
  (forall q, (forall a, a ∈ l -> q <> a_path a /\ is_under (a_path a) q = false) ->
             snd (delete_all env l s) !! q = s !! q) /\
  (forall a, a ∈ l -> rmtree_ok env (a_path a) = true -> s !! a_path a = Some Dir ->
             snd (delete_all env l s) !! a_path a = None).
Proof.
  revert s. induction l as [|a l IH]; intros s.
  { cbn. repeat split; auto. intros a Ha. by apply elem_of_nil in Ha. }
  rewrite delete_all_cons.
  pose proof (fun q => rmtree_lookup env (a_path a) q s) as Hrm. cbn zeta in Hrm.
  set (s1 := snd (rmtree env (a_path a) s)) in *. clearbody s1.
  destruct (IH s1) as (Hok & Honly & Hout & Hgone).
  split; [exact Hok|]. split; [|split].
  - intros q. destruct (Honly q) as [Hq|Hq]; [by left|].
    rewrite Hq. by destruct (Hrm q) as (Hc & _).
  - intros q Hq. rewrite Hout.
    + destruct (Hq a ltac:(left)) as [Hne Hunder].
      destruct (Hrm q) as (_ & Hx & _). by apply Hx.
    + intros b Hb. apply Hq. by right.
  - intros b Hb Hokb Hdir. apply elem_of_cons in Hb as [->|Hb].
    + destruct (Honly (a_path a)) as [Hn|Hn]; [done|]. rewrite Hn.
      destruct (Hrm (a_path a)) as (_ & _ & Hx & _). by apply Hx.
    + destruct (Hrm (a_path b)) as ([Hn|Hn] & _ & _ & Hnone).
      * destruct (Honly (a_path b)) as [Hn'|Hn']; [done|by rewrite Hn'].
      * apply Hgone; [done|done|by rewrite Hn].
Qed.

(** X3.  A dry run of [cleanup_old_data] leaves the file system exactly
    as it was and reports the same candidates, in the same order, that
    the run which deletes acts on. *)
Theorem cleanup_old_data_dry_run (cfg : Config) (env : Env) (now : DateTime.datetime)
    (s : fs) :
  snd (cleanup_old_data cfg env now true s) = s /\
  fst (cleanup_old_data cfg env now true s) = fst (cleanup_old_data cfg env now false s).
Proof.
  unfold cleanup_old_data, Py.bind, Py.get, Py.raise, Py.ret.
  destruct (scan_tiers cfg env now s (retention_days cfg) []) as [collected|e]; [|done].
  destruct (sort_by_date collected) as [|a l] eqn:Hsort; [done|].
  cbn [negb].
  pose proof (delete_all_spec env (a :: l) s) as (Hok & _).
  destruct (delete_all env (a :: l) s) as [r s']. cbn [fst] in Hok. subst r. done.
Qed.

(** X4.  The run of [cleanup_old_data] that deletes removes every
    candidate directory whose removal the disk allows, whether or not
    the removal of another candidate failed, and changes nothing that is
    neither a candidate nor below one. *)
Theorem cleanup_old_data_deletes (cfg : Config) (env : Env) (now : DateTime.datetime)
    (s : fs) (candidates : list action) :
  fst (cleanup_old_data cfg env now false s) = Py.Ok candidates ->
  let s' := snd (cleanup_old_data cfg env now false s) in
  (forall a, a ∈ candidates -> rmtree_ok env (a_path a) = true ->
     s !! a_path a = Some Dir -> s' !! a_path a = None) /\
  (forall q, (forall a, a ∈ candidates -> q <> a_path a /\ is_under (a_path a) q = false) ->
     s' !! q = s !! q).
Proof.
  unfold cleanup_old_data, Py.bind, Py.get, Py.raise, Py.ret.
  destruct (scan_tiers cfg env now s (retention_days cfg) []) as [collected|e]; [|done].
  destruct (sort_by_date collected) as [|a l] eqn:Hsort.
  { cbn. intros [= <-]. split; [|done]. intros a Ha. by apply elem_of_nil in Ha. }
  cbn [negb].
  pose proof (delete_all_spec env (a :: l) s) as (Hok & _ & Hout & Hgone).
  destruct (delete_all env (a :: l) s) as [r s']. cbn [fst snd] in *. subst r.
  intros [= <-]. cbn [snd]. split; [exact Hgone|exact Hout].
Qed.

Lemma cleanup_old_data_deletes_witness :
  let run := cleanup_old_data Scenario.storage_cfg Scenario.disk_ok Scenario.noon false
               Scenario.year_month_day_tree in
  map a_path (match fst run with Py.Ok l => l | _ => [] end)
    = [of_string "data/raw/events/year=2023/month=11/day=22"] /\
  snd run !! of_string "data/raw/events/year=2023/month=11/day=22" = None /\
  snd run !! of_string "data/raw/events/year=2024/month=02/day=20"
    = Scenario.year_month_day_tree !! of_string "data/raw/events/year=2024/month=02/day=20".
Proof.
  intros run.
  assert (map a_path (match fst run with Py.Ok l => l | _ => [] end)
            = [of_string "data/raw/events/year=2023/month=11/day=22"]) as Hl
    by (vm_compute; reflexivity).
  split; [exact Hl|]. subst run.
  destruct (cleanup_old_data _ _ _ false _) as [[l|e] s'] eqn:Hrun;
    cbn [fst snd] in *; [|discriminate Hl].
  pose proof (cleanup_old_data_deletes Scenario.storage_cfg Scenario.disk_ok Scenario.noon
                Scenario.year_month_day_tree l) as H.
  rewrite Hrun in H. cbn [fst snd] in H. destruct (H eq_refl) as [Hgone Hout].
  destruct l as [|a [|b l]]; try discriminate Hl.
  injection Hl as Hpath.
  split.
  - rewrite <- Hpath. apply Hgone; [left|reflexivity|rewrite Hpath; vm_compute; reflexivity].
  - apply Hout. intros a' Ha'. apply list_elem_of_singleton in Ha' as ->. rewrite Hpath.
    split; [intros Heq; vm_compute in Heq; discriminate Heq|vm_compute; reflexivity].
Defined.

End CleanupRuns.


(** ** The candidates of the retention cleanup *)

Section CleanupCandidates.
Import PurePath FS Storage DateTime.

Lemma lex_ltb_asym (a b : list Z) : lex_ltb a b = true -> lex_ltb b a = false.
Proof.
  revert b. induction a as [|x a IH]; intros [|y b]; cbn; try done.
  intros H. apply orb_true_iff in H as [H|H].
  - replace (y <? x) with false by lia. replace (y =? x) with false by lia. done.
  - apply andb_true_iff in H as [Hxy H]. apply Z.eqb_eq in Hxy as ->.
    rewrite Z.ltb_irrefl, Z.eqb_refl. cbn. by apply IH.
Qed.

Lemma lex_ltb_le_trans (a b c : list Z) :
  length a = length b -> length b = length c ->
  lex_ltb b a = false -> lex_ltb c b = false -> lex_ltb c a = false.
Proof.
  revert b c. induction a as [|x a IH]; intros [|y b] [|z c]; cbn; try done.
  intros [= Hab] [= Hbc] H1 H2.
  apply orb_false_iff in H1 as [Hyx H1]. apply orb_false_iff in H2 as [Hzy H2].
  apply orb_false_iff. split; [lia|].
  destruct (Z.eqb_spec z x) as [->|Hne]; [|done]. cbn.
  assert (y = x) as -> by lia.
  rewrite Z.eqb_refl in H1, H2. cbn in H1, H2. by apply (IH b c).
Qed.

Lemma not_later_trans (a b c : action) : not_later a b -> not_later b c -> not_later a c.
Proof. unfold not_later, ltb. by apply lex_ltb_le_trans. Qed.

Lemma insert_by_date_perm (a : action) (l : list action) : insert_by_date a l ≡ₚ a :: l.
Proof.
  induction l as [|b l IH]; cbn [insert_by_date]; [done|].
  destruct (ltb (a_date b) (a_date a)); [|reflexivity].
  rewrite IH. apply Permutation_swap.
Qed.

Lemma sort_by_date_perm (l : list action) : sort_by_date l ≡ₚ l.
Proof.
  induction l as [|a l IH]; [done|].
  change (sort_by_date (a :: l)) with (insert_by_date a (sort_by_date l)).
  by rewrite insert_by_date_perm, IH.
Qed.

Lemma insert_by_date_sorted (a : action) (l : list action) :
  StronglySorted not_later l -> StronglySorted not_later (insert_by_date a l).
Proof.
  induction l as [|b l IH]; intros Hs; cbn [insert_by_date].
  { repeat constructor. }
  apply StronglySorted_inv in Hs as [Hs Hb].
  destruct (ltb (a_date b) (a_date a)) eqn:Hba.
  - constructor; [by apply IH|].
    rewrite insert_by_date_perm. constructor; [|done].
    unfold not_later. by apply lex_ltb_asym.
  - constructor; [by constructor|]. constructor; [done|].
    eapply Forall_impl; [exact Hb|]. intros c Hc. by apply (not_later_trans a b c).
Qed.

Lemma sort_by_date_sorted (l : list action) : StronglySorted not_later (sort_by_date l).
Proof.
  induction l as [|a l IH]; [constructor|].
  change (sort_by_date (a :: l)) with (insert_by_date a (sort_by_date l)).
  by apply insert_by_date_sorted.
Qed.

Lemma glob_prefix_names (p : Path) (prefix : string) (s : fs) :
  Forall (fun q => PyStr.startswith prefix (name q) = true) (glob_prefix p prefix s).
Proof.
  unfold glob_prefix. destruct (is_dir p s); [|constructor].
  apply Forall_forall. intros q Hq. apply list_elem_of_fmap in Hq as ([q' n] & -> & Hq).
  apply list_elem_of_In, filter_In in Hq as [_ Hq]. cbn [fst] in *.
  by apply andb_true_iff in Hq as [_ Hq].
Qed.

Section OneTier.
Variable (P : action -> Prop) (env : Env) (s : fs) (data_dir : string)
         (cutoff_date : datetime).
Hypothesis HP : forall p d sz,
  PyStr.startswith "day=" (name p) = true -> ltb d cutoff_date = true ->
  P (mk_action p d data_dir sz).

Lemma scan_days_inv (year month : Z) (day_dirs : list Path) (acc : list action) :
  Forall (fun q => PyStr.startswith "day=" (name q) = true) day_dirs ->
  Forall P acc ->
  Forall P (fst (scan_days env s data_dir cutoff_date year month day_dirs acc)).
Proof.
  revert acc. induction day_dirs as [|d ds IH]; intros acc Hd Hacc; [done|].
  apply Forall_cons in Hd as [Hd Hds]. cbn [scan_days].
  destruct (partition_value d); [|done].
  destruct (make_date year month _) as [dir_date|]; [|done].
  apply IH; [done|].
  destruct (ltb dir_date cutoff_date) eqn:Hlt; [|done].
  apply Forall_app. split; [done|]. constructor; [|constructor]. by apply HP.
Qed.

Lemma scan_months_inv (year : Z) (month_dirs : list Path) (acc : list action) :
  Forall P acc ->
  Forall P (fst (scan_months env s data_dir cutoff_date year month_dirs acc)).
Proof.
  revert acc. induction month_dirs as [|m ms IH]; intros acc Hacc; [done|].
  cbn [scan_months]. destruct (partition_value m) as [month|]; [|done].
  pose proof (scan_days_inv year month (glob_prefix m "day=" s) acc
                (glob_prefix_names _ _ _) Hacc) as Hdays.
  destruct (scan_days _ _ _ _ _ _ _ _) as [acc' [|]]; cbn [fst] in *; [|done].
  by apply IH.
Qed.

Lemma scan_years_inv (year_dirs : list Path) (acc : list action) :
  Forall P acc -> Forall P (scan_years env s data_dir cutoff_date year_dirs acc).
Proof.
  revert acc. induction year_dirs as [|y ys IH]; intros acc Hacc; [done|].
  cbn [scan_years]. apply IH. destruct (partition_value y); [|done].
  by apply scan_months_inv.
Qed.
End OneTier.

Lemma scan_tiers_inv (cfg : Config) (env : Env) (now : datetime) (s : fs)
    (retention_config : list (string * Z)) (acc collected : list action) :
  retention_config ⊆ retention_days cfg ->
  Forall (collected_for cfg now) acc ->
  scan_tiers cfg env now s retention_config acc = Py.Ok collected ->
  Forall (collected_for cfg now) collected.
Proof.
  revert acc. induction retention_config as [|[data_dir days] rest IH];
    intros acc Hsub Hacc; cbn [scan_tiers].
  { by intros [= <-]. }
  destruct (sub_days now days) as [cutoff_date|] eqn:Hcut; [|done].
  assert (rest ⊆ retention_days cfg) as Hrest.
  { intros x Hx. apply Hsub. by right. }
  destruct (negb _); [by apply IH|].
  apply IH; [done|].
  apply scan_years_inv; [|done].
  intros p d sz Hname Hlt. exists days, cutoff_date. cbn [a_type a_date a_path].
  split; [apply Hsub; left|]. done.
Qed.

(** X5.  The candidates [cleanup_old_data] reports are in order of date,
    oldest first; each of them is an entry named [day=...] below a tier
    of the retention mapping, dated strictly before that tier's cutoff
    [now - retention days]. *)
Theorem cleanup_old_data_candidates (cfg : Config) (env : Env) (now : datetime)
    (dry_run : bool) (s : fs) (candidates : list action) :
  fst (cleanup_old_data cfg env now dry_run s) = Py.Ok candidates ->
  StronglySorted not_later candidates /\
  Forall (collected_for cfg now) candidates.
Proof.
  unfold cleanup_old_data, Py.bind, Py.get, Py.raise, Py.ret.
  destruct (scan_tiers cfg env now s (retention_days cfg) []) as [collected|e] eqn:Hscan;
    [|done].
  pose proof (scan_tiers_inv cfg env now s _ [] collected (reflexivity _)
                (Forall_nil_2 _) Hscan) as Hall.
  pose proof (sort_by_date_sorted collected) as Hsorted.
  rewrite <- (sort_by_date_perm collected) in Hall.
  destruct (sort_by_date collected) as [|a l] eqn:Hsort.
  { intros [= <-]. split; constructor. }
  destruct dry_run; cbn [negb].
  - intros [= <-]. done.
  - pose proof (delete_all_spec env (a :: l) s) as (Hok & _).
    destruct (delete_all env (a :: l) s) as [r s']. cbn [fst] in Hok. subst r.
    intros [= <-]. done.
Qed.

Lemma cleanup_old_data_candidates_witness :
  exists a,
    fst (cleanup_old_data Scenario.storage_cfg Scenario.disk_ok Scenario.noon true
           Scenario.year_month_day_tree) = Py.Ok [a] /\
    collected_for Scenario.storage_cfg Scenario.noon a.
Proof.
  destruct (fst (cleanup_old_data Scenario.storage_cfg Scenario.disk_ok Scenario.noon true
                   Scenario.year_month_day_tree)) as [l|e] eqn:Hrun.
  2:{ exfalso. vm_compute in Hrun. discriminate Hrun. }
  destruct (cleanup_old_data_candidates _ _ _ _ _ l Hrun) as [_ Hall].
  destruct l as [|a [|b l]].
  - exfalso. vm_compute in Hrun. discriminate Hrun.
  - exists a. split; [reflexivity|]. by apply Forall_cons in Hall as [Ha _].
  - exfalso. vm_compute in Hrun. discriminate Hrun.
Defined.

End CleanupCandidates.


(** ** The events ingester: validation, results and accounting *)

Section EventsIngester.
Import PurePath FS Trace Csv.

(** [validate_csv_structure] returns, in the world it was called in. *)
Lemma validate_csv_structure_returns (env : Env) (file_path : string)
    (expected_columns : list string) (w : World) :
  exists ok msg,
    validate_csv_structure env file_path expected_columns w = (Py.Ok (ok, msg), w).
Proof. unfold validate_csv_structure. repeat case_match; eauto. Qed.

(** Rows that survive [keep_first] are rows of the frame. *)
Lemma keep_first_length {K} `{EqDecision K} (key : Z * list Pandas.cell -> K)
    (seen : list K) (l : list (Z * list Pandas.cell)) :
  (length (Pandas.keep_first key seen l) <= length l)%nat.
Proof.
  revert seen. induction l as [|r l IH]; intros seen; cbn; [done|].
  destruct (bool_decide _); cbn; [specialize (IH seen)|specialize (IH (key r :: seen))]; lia.
Qed.

Lemma keep_first_nonempty {K} `{EqDecision K} (key : Z * list Pandas.cell -> K)
    (r : Z * list Pandas.cell) (l : list (Z * list Pandas.cell)) :
  (1 <= length (Pandas.keep_first key [] (r :: l)))%nat.
Proof.
  cbn. rewrite bool_decide_eq_false_2 by apply not_elem_of_nil. cbn. lia.
Qed.

Lemma set_column_len (c : string) (v : Pandas.cell) (df : Pandas.DataFrame) :
  Pandas.len (Pandas.set_column c v df) = Pandas.len df.
Proof.
  unfold Pandas.set_column, Pandas.len.
  destruct (Pandas.column_position _ _); cbn; by rewrite length_map.
Qed.

Lemma concat_len (chunks : list Pandas.DataFrame) :
  Pandas.len (Pandas.concat chunks) = foldr Z.add 0 (map Pandas.len chunks).
Proof.
  unfold Pandas.concat, Pandas.len, Pandas.reindex. cbn [Pandas.rows].
  rewrite length_imap, length_map.
  induction chunks as [|c chunks IH]; [done|].
  cbn. rewrite length_app, Nat2Z.inj_add. cbn in IH. by rewrite IH.
Qed.

Lemma nonempty_chunk_len (c : Pandas.DataFrame) :
  Pandas.empty c = false -> 1 <= Pandas.len c.
Proof.
  unfold Pandas.empty, Pandas.len. destruct (Pandas.rows c); [done|]. cbn. lia.
Qed.

Lemma len_nonneg (c : Pandas.DataFrame) : 0 <= Pandas.len c.
Proof. unfold Pandas.len. lia. Qed.

Lemma kept_chunks_len (all_chunks : list Pandas.DataFrame) :
  kept_chunks all_chunks <> [] ->
  1 <= foldr Z.add 0 (map Pandas.len (kept_chunks all_chunks)).
Proof.
  unfold kept_chunks. induction all_chunks as [|c l IH]; [done|]. cbn.
  destruct (Pandas.empty c) eqn:Hc; cbn; [done|]. intros _.
  pose proof (nonempty_chunk_len c Hc).
  assert (0 <= foldr Z.add 0 (map Pandas.len
            (List.filter (fun c => negb (Pandas.empty c)) l))).
  { clear. induction l as [|d l IH]; cbn; [done|].
    destruct (negb _); cbn; [pose proof (len_nonneg d)|]; lia. }
  lia.
Qed.

Lemma events_try_block_ok (cfg : Config) (env : Env) (file_path : string)
    (w w' : World) (res : IngestResult) :
  events_try_block cfg env file_path w = (Py.Ok res, w') ->
  exists all_chunks,
    read_csv_chunks env (ticks w) (files w) file_path = Py.Ok all_chunks /\
    success_of file_path (foldr Z.add 0 (map Pandas.len (kept_chunks all_chunks))) res.
Proof.
  unfold events_try_block, Py.bind, Py.get, Py.raise, Py.ret.
  destruct (negb (exists_ _ _)); [done|].
  destruct (validate_csv_structure_returns env file_path
              ["timestamp"; "itemid"; "visitorid"; "event"; "transactionid"] w)
    as (ok & msg & ->).
  cbn [fst snd]. destruct (negb ok); [done|].
  destruct (read_csv_chunks env (ticks w) (files w) file_path) as [all_chunks|e];
    [|done].
  fold (kept_chunks all_chunks).
  pose proof (kept_chunks_len all_chunks) as Htotal.
  destruct (kept_chunks all_chunks) as [|c chunks] eqn:Hkept; [done|].
  specialize (Htotal ltac:(done)). rewrite <- concat_len in Htotal.
  unfold now. cbn [files ticks].
  set (df := Pandas.set_column _ _ (Pandas.set_column _ _ (Pandas.set_column _ _ _))) in *.
  assert (Pandas.len df = Pandas.len (Pandas.concat (c :: chunks))) as Hlen.
  { unfold df. by rewrite !set_column_len. }
  destruct (save_events _ _ _ _ _ _ _ _) as [[out|e] w5]; [|done].
  assert (0 <= Pandas.len df - Pandas.len (Pandas.drop_duplicates df) /\
          1 <= Pandas.len (Pandas.drop_duplicates df)) as [Hd Hr].
  { unfold Pandas.drop_duplicates, Pandas.len in *. cbn [Pandas.rows].
    pose proof (keep_first_length (fun r => snd r) [] (Pandas.rows df)).
    destruct (Pandas.rows df) as [|r rs] eqn:Hrows; [cbn in *; lia|].
    pose proof (keep_first_nonempty (fun r => snd r) r rs). lia. }
  assert (success_of file_path (foldr Z.add 0 (map Pandas.len (c :: chunks)))
            (mk_result file_path "success" (Pandas.len (Pandas.drop_duplicates df)) []
               (Some out) (Some (Pandas.len df - Pandas.len (Pandas.drop_duplicates df)))))
    as Hres.
  { exists out, (Pandas.len df - Pandas.len (Pandas.drop_duplicates df)).
    rewrite <- concat_len, <- Hlen. split; [f_equal; lia|]. split; [done|]. lia. }
  destruct (backup_files cfg).
  - destruct (on_files _ w5) as [[[]|e] w6]; [|done].
    intros [= <- <-]. exists all_chunks. split; [done|]. rewrite Hkept. exact Hres.
  - intros [= <- <-]. exists all_chunks. split; [done|]. rewrite Hkept. exact Hres.
Qed.

Lemma events_try_block_missing (cfg : Config) (env : Env) (file_path : string) (w : World) :
  exists_ (of_string file_path) (files w) = false ->
  events_try_block cfg env file_path w =
  (Py.Raise (Py.FileNotFoundError ("Events file not found: " +:+ file_path)), w).
Proof.
  intros H. unfold events_try_block, Py.bind, Py.get, Py.raise. by rewrite H.
Qed.

Lemma csv_retry_missing (cfg : Config) (env : Env) (file_path : string)
    (fuel : nat) (rc : Z) (r : Run) :
  fuel = Z.to_nat (retry_attempts cfg - rc) ->
  exists_ (of_string file_path) (files (world r)) = false ->
  let out := ingest_events_csv_with cfg (events_try_block cfg env file_path)
               file_path fuel rc r in
  fst out = failure_of file_path
              (Py.FileNotFoundError ("Events file not found: " +:+ file_path)) /\
  files (world (snd out)) = files (world r) /\
  stats_errors (snd out) =
    stats_errors r ++ ["Error ingesting events CSV: Events file not found: " +:+ file_path] /\
  trace (snd out) = trace r ++ backoff_trace (fun _ => retry_delay cfg) (rc + 1) fuel.
Proof.
  revert rc r. induction fuel as [|fuel IH]; intros rc r Hfuel Hmissing;
    cbn [ingest_events_csv_with world log trace stats_errors];
    rewrite (events_try_block_missing cfg env file_path (world r) Hmissing).
  - replace (rc <? retry_attempts cfg) with false by (symmetry; apply Z.ltb_ge; lia).
    cbn. done.
  - replace (rc <? retry_attempts cfg) with true by (symmetry; apply Z.ltb_lt; lia).
    destruct (IH (rc + 1) (sleep (retry_delay cfg)
                (mk_run (world r) (trace r ++ [Attempt (rc + 1)]) (stats_errors r))))
      as (Hres & Hfiles & Hstats & Htrace); [lia|done|].
    cbv zeta. rewrite Hres, Hfiles, Hstats, Htrace.
    cbn [sleep trace stats_errors world after_pause files backoff_trace].
    by rewrite <- !app_assoc.
Qed.

Lemma csv_retry_result (cfg : Config) (block : Py.M World IngestResult)
    (file_path : string) (P : IngestResult -> Prop) (fuel : nat) (rc : Z) (r : Run) :
  fuel = Z.to_nat (retry_attempts cfg - rc) ->
  (forall w res w', block w = (Py.Ok res, w') -> P res) ->
  let out := ingest_events_csv_with cfg block file_path fuel rc r in
  (P (fst out) /\ stats_errors (snd out) = stats_errors r) \/
  (exists e, fst out = failure_of file_path e /\
     stats_errors (snd out) =
       stats_errors r ++ ["Error ingesting events CSV: " +:+ Py.str_of e]).
Proof.
  intros Hfuel HP. revert rc r Hfuel.
  induction fuel as [|fuel IH]; intros rc r Hfuel;
    cbn [ingest_events_csv_with world log trace stats_errors];
    destruct (block (world r)) as [[res|e] w'] eqn:Hb.
  - left. split; [by eapply HP|done].
  - replace (rc <? retry_attempts cfg) with false by (symmetry; apply Z.ltb_ge; lia).
    right. exists e. done.
  - left. split; [by eapply HP|done].
  - replace (rc <? retry_attempts cfg) with true by (symmetry; apply Z.ltb_lt; lia).
    destruct (IH (rc + 1) (sleep (retry_delay cfg)
                (mk_run w' (trace r ++ [Attempt (rc + 1)]) (stats_errors r)))
                ltac:(lia)) as [H|H]; [left|right]; exact H.
Qed.

(** X6.  [validate_csv_structure] never raises and changes nothing; it
    reports a valid structure exactly when the sample could be read, is
    not empty, and has every expected column. *)
Theorem validate_csv_structure_sound (env : Env) (file_path : string)
    (expected_columns : list string) (w : World) :
  exists ok msg,
    validate_csv_structure env file_path expected_columns w = (Py.Ok (ok, msg), w) /\
    (ok = true <->
     exists df_sample,
       read_csv_head env (ticks w) (files w) file_path = Py.Ok df_sample /\
       Pandas.empty df_sample = false /\
       forall c, c ∈ expected_columns -> c ∈ Pandas.columns df_sample).
Proof.
  unfold validate_csv_structure.
  destruct (read_csv_head env (ticks w) (files w) file_path) as [df|e] eqn:Hread.
  2:{ eexists _, _. split; [done|]. split; [done|]. by intros (? & ? & _). }
  destruct (Pandas.empty df) eqn:Hempty.
  { eexists _, _. split; [done|]. split; [done|]. intros (? & [= <-] & ? & _). congruence. }
  destruct (List.filter _ expected_columns) as [|c0 missing] eqn:Hmissing.
  - eexists _, _. split; [done|]. split; [|done]. intros _. exists df.
    split; [done|]. split; [done|]. intros c Hc.
    destruct (decide (c ∈ Pandas.columns df)) as [|Hn]; [done|]. exfalso.
    assert (In c (List.filter (fun c => negb (bool_decide (c ∈ Pandas.columns df)))
                    expected_columns)) as Hin.
    { apply filter_In. split; [by apply list_elem_of_In|].
      by rewrite bool_decide_eq_false_2. }
    rewrite Hmissing in Hin. done.
  - eexists _, _. split; [done|]. split; [done|]. intros (df' & [= <-] & _ & Hall).
    assert (In c0 (List.filter (fun c => negb (bool_decide (c ∈ Pandas.columns df)))
                     expected_columns)) as Hin by (rewrite Hmissing; by left).
    apply filter_In in Hin as [Hin Hc0]. apply list_elem_of_In, Hall in Hin.
    by rewrite bool_decide_eq_true_2 in Hc0.
Qed.

(** X7.  [ingest_events_csv] on a file that does not exist, for a pause
    length that is not negative and a retry ceiling within the depth
    followed: every try fails at the existence check, so the call makes
    one try and one more per allowed retry, pausing [retry_delay]
    between them; it returns the failed record, with the one message of
    the last try, appends that message to the error statistics and
    leaves the disk as it was. *)
Theorem ingest_events_csv_missing_file (cfg : Config) (env : Env)
    (file_path : string) (r : Run) :
  0 <= retry_delay cfg -> retry_attempts cfg <= retry_depth ->
  exists_ (of_string file_path) (files (world r)) = false ->
  let msg := "Error ingesting events CSV: Events file not found: " +:+ file_path in
  let out := ingest_events_csv cfg env file_path r in
  fst out = mk_result file_path "failed" 0 [msg] None None /\
  files (world (snd out)) = files (world r) /\
  stats_errors (snd out) = stats_errors r ++ [msg] /\
  trace (snd out) =
    trace r ++ backoff_trace (fun _ => retry_delay cfg) 1 (Z.to_nat (retry_attempts cfg)).
Proof.
  intros _ _ Hmissing. cbv zeta. unfold ingest_events_csv.
  apply (csv_retry_missing cfg env file_path _ 0 r); [f_equal; lia|done].
Qed.

Lemma ingest_events_csv_missing_file_witness :
  0 <= retry_delay Scenario.csv_cfg /\
  retry_attempts Scenario.csv_cfg <= retry_depth /\
  exists_ (of_string "data/raw/missing.csv") (files (world Scenario.start)) = false /\
  attempts (trace (snd (ingest_events_csv Scenario.csv_cfg Scenario.csv_unreadable
                          "data/raw/missing.csv" Scenario.start))) = 4.
Proof.
  assert (0 <= retry_delay Scenario.csv_cfg) as Hd by (vm_compute; discriminate).
  assert (retry_attempts Scenario.csv_cfg <= retry_depth) as HN by (vm_compute; discriminate).
  assert (exists_ (of_string "data/raw/missing.csv") (files (world Scenario.start)) = false)
    as Hmissing by (vm_compute; reflexivity).
  split; [exact Hd|]. split; [exact HN|]. split; [exact Hmissing|].
  destruct (ingest_events_csv_missing_file Scenario.csv_cfg Scenario.csv_unreadable
              "data/raw/missing.csv" Scenario.start Hd HN Hmissing) as (_ & _ & _ & Htrace).
  rewrite Htrace. reflexivity.
Defined.

(** X8.  What [ingest_events_csv] returns is one of two records: a
    success record, with no error, an output file, at least one record
    and a count of removed duplicates, and then the error statistics
    are as before; or the failed record, with no records, no output
    file and exactly the message of the last try, and then that message
    is appended to the error statistics. *)
Theorem ingest_events_csv_result (cfg : Config) (env : Env) (file_path : string)
    (r : Run) :
  let out := ingest_events_csv cfg env file_path r in
  ((exists total, success_of file_path total (fst out)) /\
   stats_errors (snd out) = stats_errors r) \/
  (exists e, fst out = failure_of file_path e /\
     stats_errors (snd out) =
       stats_errors r ++ ["Error ingesting events CSV: " +:+ Py.str_of e]).
Proof.
  cbv zeta. unfold ingest_events_csv.
  apply (csv_retry_result cfg (events_try_block cfg env file_path) file_path
           (fun res => exists total, success_of file_path total res)); [f_equal; lia|].
  intros w res w' Hblock.
  destruct (events_try_block_ok cfg env file_path w w' res Hblock) as (chunks & _ & Hres).
  by eexists.
Qed.

(** X9.  A try of [ingest_events_csv] that returns has read the chunks
    of the file; the records it reports and the duplicates it removed
    add up to the rows of the chunks that are not empty, at least one
    record is reported, and the count of duplicates is not negative. *)
Theorem events_try_block_accounting (cfg : Config) (env : Env) (file_path : string)
    (w : World) (res : IngestResult) :
  fst (events_try_block cfg env file_path w) = Py.Ok res ->
  exists all_chunks dups,
    read_csv_chunks env (ticks w) (files w) file_path = Py.Ok all_chunks /\
    status res = "success" /\
    duplicates_removed res = Some dups /\
    records_count res + dups = foldr Z.add 0 (map Pandas.len (kept_chunks all_chunks)) /\
    1 <= records_count res /\ 0 <= dups.
Proof.
  destruct (events_try_block cfg env file_path w) as [r0 w'] eqn:Hblock.
  cbn [fst]. intros ->.
  destruct (events_try_block_ok cfg env file_path w w' res Hblock)
    as (all_chunks & Hread & out & dups & -> & Hdups & Hrec).
  exists all_chunks, dups. cbn [status duplicates_removed records_count].
  repeat split; try done. lia.
Qed.

Lemma events_try_block_accounting_witness :
  let block := events_try_block Scenario.csv_cfg Scenario.csv_flaky "data/raw/events.csv" in
  let w := world_before block 1 (world Scenario.start) in
  fst (block w) = Py.Ok (Scenario.result_of Scenario.flaky_second_try) /\
  records_count (Scenario.result_of Scenario.flaky_second_try) = 2 /\
  duplicates_removed (Scenario.result_of Scenario.flaky_second_try) = Some 1.
Proof.
  cbv zeta.
  assert (fst (events_try_block Scenario.csv_cfg Scenario.csv_flaky "data/raw/events.csv"
                 (world_before (events_try_block Scenario.csv_cfg Scenario.csv_flaky
                                  "data/raw/events.csv") 1 (world Scenario.start)))
          = Py.Ok (Scenario.result_of Scenario.flaky_second_try)) as Hok
    by (vm_compute; reflexivity).
  split; [exact Hok|].
  destruct (events_try_block_accounting _ _ _ _ _ Hok)
    as (all_chunks & dups & Hread & _ & Hdups & Hsum & _ & _).
  assert (all_chunks = [Scenario.events_chunk]) as ->.
  { cbn in Hread. by injection Hread as <-. }
  assert (foldr Z.add 0 (map Pandas.len (kept_chunks [Scenario.events_chunk])) = 3) as Htotal
    by (vm_compute; reflexivity).
  rewrite Htotal in Hsum.
  assert (duplicates_removed (Scenario.result_of Scenario.flaky_second_try) = Some 1) as Hone
    by (vm_compute; reflexivity).
  rewrite Hone in Hdups. injection Hdups as <-.
  split; [lia|exact Hone].
Defined.
End EventsIngester.


(** ** Initialisation of the storage structure, and the archive and
  metadata organisers *)

Section StorageStructure.
Import PurePath FS Storage.

Lemma chain_elem_of (p q : Path) :
  q ∈ chain p <->
  exists n, (1 <= n <= length (parts p))%nat /\ q = mk_path (absolute p) (take n (parts p)).
Proof.
  unfold chain. rewrite list_elem_of_fmap. split.
  - intros (n & -> & Hn). apply elem_of_seq in Hn. exists n. split; [lia|done].
  - intros (n & Hn & ->). exists n. split; [done|]. apply elem_of_seq. lia.
Qed.

Lemma chain_app (a : bool) (l l' : list string) (q : Path) :
  q ∈ chain (mk_path a l) -> q ∈ chain (mk_path a (l ++ l')).
Proof.
  rewrite !chain_elem_of. cbn [parts absolute]. intros (n & Hn & ->).
  exists n. rewrite length_app. split; [lia|]. by rewrite take_app_le by lia.
Qed.

Lemma mkdir_p_succeeds (p : Path) (s : fs) :
  (forall q, q ∈ chain p -> is_file q s = false) ->
  exists s', mkdir_p p s = (Py.Ok tt, s').
Proof.
  intros Hno. unfold mkdir_p.
  destruct (existsb _ _) eqn:Hex; [|eauto].
  apply existsb_exists in Hex as (q & Hq & Hf).
  apply list_elem_of_In, Hno in Hq. congruence.
Qed.

(** X10.  [initialize_storage_structure] never returns: its first call
    of [create_partitioned_path] passes two arguments where three are
    required.  It raises after creating at most the directories down to
    [raw/csv/events]; no regular file is touched; and when no regular
    file is in the way of these directories, the exception is the
    [TypeError] of that call and the directories are there. *)
Theorem initialize_storage_structure_raises (cfg : Config) (now : DateTime.datetime)
    (s : fs) :
  let events_dir := base_path cfg // "raw" // "csv" // "events" in
  exists e s',
    initialize_storage_structure cfg now s = (Py.Raise e, s') /\
    (forall q c, s' !! q = Some (File c) <-> s !! q = Some (File c)) /\
    (forall q, s' !! q = s !! q \/ (s' !! q = Some Dir /\ q ∈ chain events_dir)) /\
    ((forall q, q ∈ chain events_dir -> is_file q s = false) ->
     (exists msg, e = Py.TypeError msg) /\
     forall q, q ∈ chain events_dir -> s' !! q = Some Dir).
Proof.
  cbv zeta.
  set (raw_dir := base_path cfg // "raw").
  set (events_dir := raw_dir // "csv" // "events").
  assert (forall q, q ∈ chain raw_dir -> q ∈ chain events_dir) as Hsub.
  { intros q Hq. unfold events_dir, raw_dir, joinpath in *. cbn in *.
    rewrite <- app_assoc. by apply chain_app. }
  unfold initialize_storage_structure, Py.try_except, Py.bind, Py.raise.
  cbn [init_main storage_structure]. unfold Py.bind. fold raw_dir.
  destruct (mkdir_p_cases raw_dir s) as [[s1 Hmk1]|[e1 Hmk1]]; rewrite Hmk1.
  2:{ exists e1, s. split; [done|]. split; [done|]. split; [by left|].
      intros Hno. destruct (mkdir_p_succeeds raw_dir s) as [s1 Hs1]; [|congruence].
      intros q Hq. by apply Hno, Hsub. }
  destruct (mkdir_p_ok _ _ _ Hmk1) as [Hl1 Hf1].
  cbn [init_nested init_nested_types]. unfold Py.bind. fold events_dir.
  destruct (mkdir_p_cases events_dir s1) as [[s2 Hmk2]|[e2 Hmk2]]; rewrite Hmk2.
  2:{ exists e2, s1. split; [done|].
      split; [intros q c; by apply (mkdir_p_files _ _ _ _ q c Hmk1)|].
      split.
      - intros q. rewrite Hl1. case_bool_decide as Hq; [right|by left].
        split; [done|by apply Hsub].
      - intros Hno. destruct (mkdir_p_succeeds events_dir s1) as [s2 Hs2]; [|congruence].
        intros q Hq. unfold is_file. rewrite Hl1. case_bool_decide; [done|].
        by apply Hno. }
  destruct (mkdir_p_ok _ _ _ Hmk2) as [Hl2 Hf2].
  unfold returned, create_partitioned_path_call.
  eexists _, s2. split; [done|].
  split.
  { intros q c. rewrite (mkdir_p_files _ _ _ _ q c Hmk2).
    by apply (mkdir_p_files _ _ _ _ q c Hmk1). }
  split.
  { intros q. rewrite Hl2. case_bool_decide as Hq2; [by right|].
    rewrite Hl1. case_bool_decide as Hq1; [|by left]. by apply Hsub in Hq1. }
  intros _. split; [by eexists|].
  intros q Hq. rewrite Hl2. by rewrite bool_decide_eq_true_2.
Qed.

Lemma copy_into_partition (env : Env) (target_path src : Path) (s : fs) :
  fst ((mkdir_p target_path ;; copy2 env src (target_path // name src))%function s)
    = Py.Ok tt ->
  exists c, s !! src = Some (File c) /\
    snd ((mkdir_p target_path ;; copy2 env src (target_path // name src))%function s)
      !! (target_path // name src) = Some (File c).
Proof.
  unfold Py.bind, copy2.
  destruct (mkdir_p target_path s) as [[[]|e] s1] eqn:Hmk; [|done].
  destruct (s1 !! src) as [[|c]|] eqn:Hsrc; [done| |done].
  destruct (write_file _ _ c s1) as [[[]|e] s2] eqn:Hw; [|done].
  apply write_file_ok in Hw as ->. intros _. exists c. cbn [snd].
  split; [by apply (mkdir_p_files _ _ _ _ src c Hmk)|apply lookup_insert_eq].
Qed.

(** X11.  [_organize_archive_file] passes the timestamp where
    [create_partitioned_path] expects the source.  A call that returns
    has copied the file into the partition whose source is that
    timestamp, printed as a date and time, and whose timestamp is the
    time of the call, not the one in the file name. *)
Theorem organize_archive_file_partition (cfg : Config) (env : Env)
    (now now' : DateTime.datetime) (file_path : Path) (data_type : string) (s : fs) :
  fst (_organize_archive_file cfg env now now' file_path data_type s) = Py.Ok tt ->
  let stamp := default now (_extract_timestamp_from_filename (name file_path)) in
  let target_file :=
    base_path cfg // "archive" // ("source=" +:+ DateTime.str stamp) //
      ("type=" +:+ data_type) // ("timestamp=" +:+ DateTime.strftime_compact now') //
      name file_path in
  exists c, s !! file_path = Some (File c) /\
    snd (_organize_archive_file cfg env now now' file_path data_type s) !! target_file
      = Some (File c).
Proof.
  intros H. cbv zeta. revert H.
  unfold _organize_archive_file, returned, create_partitioned_path_call.
  unfold Py.bind at 1 3. cbv beta iota.
  apply copy_into_partition.
Qed.

Lemma organize_archive_file_partition_witness :
  let run := _organize_archive_file Scenario.storage_cfg Scenario.disk_ok
               Scenario.noon Scenario.noon
               (of_string "data/archive/events_20240229_101500.csv") "csv_backups"
               Scenario.disk_with_backups in
  fst run = Py.Ok tt /\
  exists c,
    snd run !! of_string
      "data/archive/source=2024-02-29 10:15:00/type=csv_backups/timestamp=20240301_120000/events_20240229_101500.csv"
      = Some (File c).
Proof.
  cbv zeta.
  assert (fst (_organize_archive_file Scenario.storage_cfg Scenario.disk_ok
                 Scenario.noon Scenario.noon
                 (of_string "data/archive/events_20240229_101500.csv") "csv_backups"
                 Scenario.disk_with_backups) = Py.Ok tt) as Hrun
    by (vm_compute; reflexivity).
  split; [exact Hrun|].
  destruct (organize_archive_file_partition _ _ _ _ _ _ _ Hrun) as (c & _ & Hc).
  exists c. exact Hc.
Defined.

(** X12.  [_organize_metadata_file] makes the same call: the file is
    copied below [metadata/<data_type>] into the partition whose source
    is the timestamp, whose type is [csv_ingestion] when the file name
    contains that word and [api_ingestion] otherwise, and whose
    timestamp is the time of the call. *)
Theorem organize_metadata_file_partition (cfg : Config) (env : Env)
    (now now' : DateTime.datetime) (file_path : Path) (data_type : string) (s : fs) :
  fst (_organize_metadata_file cfg env now now' file_path data_type s) = Py.Ok tt ->
  let stamp := default now (_extract_timestamp_from_filename (name file_path)) in
  let ingestion_type :=
    if PyStr.contains "csv_ingestion" (name file_path)
    then "csv_ingestion" else "api_ingestion" in
  let target_file :=
    base_path cfg // ("metadata/" +:+ data_type) // ("source=" +:+ DateTime.str stamp) //
      ("type=" +:+ ingestion_type) // ("timestamp=" +:+ DateTime.strftime_compact now') //
      name file_path in
  exists c, s !! file_path = Some (File c) /\
    snd (_organize_metadata_file cfg env now now' file_path data_type s) !! target_file
      = Some (File c).
Proof.
  intros H. cbv zeta. revert H.
  unfold _organize_metadata_file, returned, create_partitioned_path_call.
  unfold Py.bind at 1 3. cbv beta iota.
  apply copy_into_partition.
Qed.

Lemma organize_metadata_file_partition_witness :
  let run := _organize_metadata_file Scenario.storage_cfg Scenario.disk_ok
               Scenario.noon Scenario.noon
               (of_string "data/ingestion_metadata/csv_ingestion_events_20240229_101500.json")
               "ingestion_logs" Scenario.disk_with_backups in
  fst run = Py.Ok tt /\
  exists c,
    snd run !! of_string
      "data/metadata/ingestion_logs/source=2024-02-29 10:15:00/type=csv_ingestion/timestamp=20240301_120000/csv_ingestion_events_20240229_101500.json"
      = Some (File c).
Proof.
  cbv zeta.
  assert (fst (_organize_metadata_file Scenario.storage_cfg Scenario.disk_ok
                 Scenario.noon Scenario.noon
                 (of_string "data/ingestion_metadata/csv_ingestion_events_20240229_101500.json")
                 "ingestion_logs" Scenario.disk_with_backups) = Py.Ok tt) as Hrun
    by (vm_compute; reflexivity).
  split; [exact Hrun|].
  destruct (organize_metadata_file_partition _ _ _ _ _ _ _ Hrun) as (c & _ & Hc).
  exists c. exact Hc.
Defined.
End StorageStructure.


(** ** The API ingester: one endpoint, the run, and the scheduler's
  reading of its result *)

Section ApiEndpoint.
Import Trace ApiPipeline.

Lemma append_nonempty (a : ascii) (p s : string) : String a p +:+ s <> "".
Proof. done. Qed.

(** A failed request carries a message. *)
Lemma request_loop_message (cfg : Api.Config) (request : Z -> Api.outcome)
    (attempts : list Z) (t : list event) :
  let res := Api.request_loop cfg request attempts t in
  fst (fst (fst res)) = false -> snd (fst res) <> "".
Proof.
  revert t. induction attempts as [|attempt rest IH]; intros t; cbn; [done|].
  destruct (request attempt) as [code text body|msg].
  - destruct (code =? 200).
    + destruct body as [data|]; [done|].
      unfold Api.on_exception. destruct (attempt <? _); [apply IH|done].
    + destruct (code =? 429); [apply IH|done].
  - unfold Api.on_exception. destruct (attempt <? _); [apply IH|done].
Qed.

Lemma save_api_data_status (cfg : Config) (env : Env) (df : Pandas.DataFrame)
    (endpoint_name : string) (w : Csv.World) :
  let out := save_api_data cfg env df endpoint_name w in
  (s_status (fst out) = "success" /\ s_records_count (fst out) = Pandas.len df) \/
  (exists e, fst out = mk_save "failed" 0 "" ""
     ("Failed to save data for " +:+ endpoint_name +:+ ": " +:+ Py.str_of e)).
Proof.
  cbv zeta. unfold save_api_data, save_block, now, Py.bind, Py.ret, Csv.on_files.
  destruct (Storage.organize_data _ _ _ _ _ _ _ _ _) as [[out|e] s1];
    [|right; by exists e].
  destruct (FS.to_parquet _ _ _ _) as [[[]|e] s2]; [by left|right; by exists e].
Qed.

Lemma record_count_nonneg (df : Pandas.DataFrame) : 0 <= Pandas.len df.
Proof. unfold Pandas.len. lia. Qed.

(** The shape of what [ingest_endpoint] returns and does to the
    statistics, with the pause it ends with. *)
Lemma ingest_endpoint_cases (cfg : Config) (env : Env) (endpoint_name : string) (r : Run) :
  let out := ingest_endpoint cfg env endpoint_name r in
  let request := Api.make_api_request (api cfg) (request env endpoint_name) in
  let res := fst out in
  let st := stats r in
  let st' := stats (snd out) in
  endpoint res = endpoint_name /\
  apis_processed st' = apis_processed st /\ apis_failed st' = apis_failed st /\
  (exists pause,
     trace (snd out) = trace r ++ snd request ++ pause /\
     (pause = [] \/ pause = [Sleep (rate_limit_delay cfg)]) /\
     (fst (fst (fst request)) = false -> pause = []) /\
     (status res = "success" -> pause = [Sleep (rate_limit_delay cfg)])) /\
  ((status res = "success" /\ error res = "" /\ 0 <= records_count res /\
    fst (fst (fst request)) = true /\
    errors st' = errors st /\
    total_records st' = total_records st + records_count res) \/
   (status res = "failed" /\ error res <> "" /\ records_count res = 0 /\
    output_file res = "" /\
    total_records st' = total_records st /\
    exists msg, errors st' = errors st ++ [endpoint_name +:+ ": " +:+ msg])).
Proof.
  cbv zeta. unfold ingest_endpoint.
  pose proof (request_loop_message (api cfg) (request env endpoint_name)
                (Api.range1 (Api.retry_attempts (api cfg))) []) as Hmsg.
  fold (Api.make_api_request (api cfg) (request env endpoint_name)) in Hmsg.
  destruct (Api.make_api_request (api cfg) (request env endpoint_name))
    as [[[success raw_data] error_msg] tries].
  cbn [fst snd] in *. destruct success; cbn [negb].
  2:{ cbn. split; [done|]. split; [done|]. split; [done|]. split.
      - exists []. rewrite app_nil_r. repeat split; auto. done.
      - right. repeat split; auto. by eexists. }
  destruct (backup_response _ _ _ _ _) as [[[]|e] w1].
  2:{ cbn. split; [done|]. split; [done|]. split; [done|]. split.
      - exists [Sleep (rate_limit_delay cfg)]. rewrite <- app_assoc.
        repeat split; auto. done.
      - right. repeat split; auto. by eexists. }
  destruct (process_api_data _ _ _) as [df|].
  2:{ cbn. split; [done|]. split; [done|]. split; [done|]. split.
      - exists []. rewrite app_nil_r. repeat split; auto; done.
      - right. repeat split; auto. by eexists. }
  pose proof (save_api_data_status cfg env df endpoint_name w1) as Hsave.
  destruct (save_api_data cfg env df endpoint_name w1) as [save_result w2].
  cbn [fst snd] in Hsave.
  destruct Hsave as [(Hst & Hrec)|(e & ->)].
  - rewrite Hst. cbn. split; [done|]. split; [done|]. split; [done|]. split.
    + exists [Sleep (rate_limit_delay cfg)]. rewrite <- app_assoc.
      repeat split; auto; done.
    + left. rewrite Hrec. repeat split; auto. apply record_count_nonneg.
  - cbn. split; [done|]. split; [done|]. split; [done|]. split.
    + exists [Sleep (rate_limit_delay cfg)]. rewrite <- app_assoc.
      repeat split; auto. done.
    + right. repeat split; auto. by eexists.
Qed.

Lemma dict_set_fresh {V} (k : string) (v : V) (d : list (string * V)) :
  k ∉ map fst d -> dict_set k v d = d ++ [(k, v)].
Proof.
  induction d as [|[k' v'] d IH]; cbn; [done|]. intros Hk.
  apply not_elem_of_cons in Hk as [Hne Hk].
  destruct (String.eqb_spec k k') as [->|_]; [done|]. by rewrite IH.
Qed.

Lemma counts_app (a b : list (string * EndpointResult)) :
  succeeded (a ++ b) = succeeded a + succeeded b /\
  failed (a ++ b) = failed a + failed b /\
  records (a ++ b) = records a + records b.
Proof.
  unfold succeeded, failed, records.
  rewrite !List.filter_app, !length_app, !Nat2Z.inj_add, map_app, foldr_app.
  repeat split. induction a as [|x a IH]; cbn; [done|]. rewrite IH. lia.
Qed.

Lemma ingest_all_accounting (cfg : Config) (env : Env) (endpoints : list string)
    (results : list (string * EndpointResult)) (r : Run) :
  NoDup endpoints -> (forall k, k ∈ endpoints -> k ∉ map fst results) ->
  let out := ingest_all cfg env endpoints results r in
  exists new,
    fst out = results ++ new /\ map fst new = endpoints /\
    apis_processed (stats (snd out)) = apis_processed (stats r) + succeeded new /\
    apis_failed (stats (snd out)) = apis_failed (stats r) + failed new /\
    total_records (stats (snd out)) = total_records (stats r) + records new /\
    length (errors (stats (snd out))) =
      (length (errors (stats r)) + Z.to_nat (failed new))%nat.
Proof.
  revert results r. induction endpoints as [|name rest IH]; intros results r Hnd Hfresh.
  { exists []. cbn. rewrite app_nil_r. repeat split; try done; unfold succeeded, failed, records; cbn; lia. }
  apply NoDup_cons in Hnd as [Hname Hnd].
  cbn [ingest_all].
  pose proof (ingest_endpoint_cases cfg env name r) as Hone.
  destruct (ingest_endpoint cfg env name r) as [res r1]. cbn [fst snd] in Hone.
  destruct Hone as (Hend & Hproc & Hfail & _ & Hcases).
  rewrite (dict_set_fresh name res results) by (apply Hfresh; left).
  destruct (IH (results ++ [(name, res)])
              (count_endpoint (String.eqb (status res) "success") r1) Hnd)
    as (new & Hout & Hkeys & Hp & Hf & Ht & He).
  { intros k Hk. rewrite map_app, elem_of_app. cbn. intros [Hin|Hin].
    - by apply (Hfresh k); [right|].
    - apply list_elem_of_singleton in Hin as ->. done. }
  exists ((name, res) :: new). cbv zeta.
  rewrite Hout, <- app_assoc. split; [done|]. split; [cbn; by rewrite Hkeys|].
  rewrite Hp, Hf, Ht, He. clear Hout Hp Hf Ht He IH.
  destruct (counts_app [(name, res)] new) as (Hs' & Hf' & Hr').
  cbn [app] in Hs', Hf', Hr'. rewrite Hs', Hf', Hr'. clear Hs' Hf' Hr'.
  assert (succeeded [(name, res)] = if ok res then 1 else 0) as ->
    by (unfold succeeded; cbn; by destruct (ok res)).
  assert (failed [(name, res)] = if ok res then 0 else 1) as ->
    by (unfold failed; cbn; by destruct (ok res)).
  assert (records [(name, res)] = records_count res) as ->
    by (unfold records; cbn; lia).
  assert (0 <= failed new) as Hnn by (unfold failed; lia).
  unfold ok.
  destruct Hcases as [(Hst & _ & _ & _ & Herrs & Hrec)|(Hst & _ & Hzero & _ & Hrec & msg & Herrs)];
    rewrite Hst; cbn; rewrite ?Herrs, ?Hrec, ?Hzero, ?length_app; cbn;
    repeat split; lia.
Qed.

Lemma failed_count_results (results : list (string * EndpointResult)) :
  Scheduler.failed_count
    (map snd (map (fun kv => (fst kv, result_pyval (snd kv))) results))
  = Py.Ok (failed results).
Proof.
  induction results as [|[k res] results IH]; [done|].
  cbn [map snd fst Scheduler.failed_count]. rewrite IH.
  unfold result_pyval, Scheduler.not_success. cbn.
  f_equal. unfold failed. cbn. unfold ok.
  destruct (String.eqb (status res) "success"); cbn; lia.
Qed.

Lemma failed_zero (results : list (string * EndpointResult)) :
  (failed results =? 0) = forallb (fun kv => ok (snd kv)) results.
Proof.
  unfold failed. induction results as [|[k res] results IH]; [done|].
  cbn. destruct (ok res); cbn; [exact IH|]. apply Z.eqb_neq. lia.
Qed.

(** X13.  What [ingest_endpoint] returns is either a success, with no
    error text, after a request that succeeded, and then the record
    count is added to the statistics and no error is recorded; or a
    failure, with an error text, no records and no output file, and
    then exactly one error, prefixed with the endpoint's name, is
    recorded.  It never touches the endpoint counters. *)
Theorem ingest_endpoint_result (cfg : Config) (env : Env) (endpoint_name : string)
    (r : Run) :
  let out := ingest_endpoint cfg env endpoint_name r in
  let res := fst out in
  let st := stats r in
  let st' := stats (snd out) in
  endpoint res = endpoint_name /\
  apis_processed st' = apis_processed st /\ apis_failed st' = apis_failed st /\
  ((status res = "success" /\ error res = "" /\ 0 <= records_count res /\
    fst (fst (fst (Api.make_api_request (api cfg) (request env endpoint_name)))) = true /\
    errors st' = errors st /\
    total_records st' = total_records st + records_count res) \/
   (status res = "failed" /\ error res <> "" /\ records_count res = 0 /\
    output_file res = "" /\
    total_records st' = total_records st /\
    exists msg, errors st' = errors st ++ [endpoint_name +:+ ": " +:+ msg])).
Proof.
  cbv zeta.
  destruct (ingest_endpoint_cases cfg env endpoint_name r) as (H1 & H2 & H3 & _ & H4).
  auto.
Qed.

(** X14.  The pauses of [ingest_endpoint], for pause lengths that are
    not negative: after the tries and pauses of the request it pauses
    once more, for [rate_limit_delay], or not at all; it does not pause
    when the request failed, and it pauses whenever the ingestion
    succeeded. *)
Theorem ingest_endpoint_pacing (cfg : Config) (env : Env) (endpoint_name : string)
    (r : Run) :
  0 <= Api.retry_delay (api cfg) -> 0 <= rate_limit_delay cfg ->
  let out := ingest_endpoint cfg env endpoint_name r in
  let request := Api.make_api_request (api cfg) (request env endpoint_name) in
  exists pause,
    trace (snd out) = trace r ++ snd request ++ pause /\
    (pause = [] \/ pause = [Sleep (rate_limit_delay cfg)]) /\
    (fst (fst (fst request)) = false -> pause = []) /\
    (status (fst out) = "success" -> pause = [Sleep (rate_limit_delay cfg)]).
Proof.
  intros _ _. cbv zeta.
  destruct (ingest_endpoint_cases cfg env endpoint_name r) as (_ & _ & _ & H & _).
  exact H.
Qed.

Lemma ingest_endpoint_pacing_witness :
  0 <= Api.retry_delay (api Scenario.two_endpoints) /\
  0 <= rate_limit_delay Scenario.two_endpoints /\
  trace (snd (ingest_endpoint Scenario.two_endpoints Scenario.api_surroundings
                "products" Scenario.api_start)) = [Attempt 1; Sleep 1] /\
  trace (snd (ingest_endpoint Scenario.two_endpoints Scenario.api_surroundings
                "categories" Scenario.api_start)) = [Attempt 1].
Proof.
  assert (0 <= Api.retry_delay (api Scenario.two_endpoints)) as Hd
    by (vm_compute; discriminate).
  assert (0 <= rate_limit_delay Scenario.two_endpoints) as Hr
    by (vm_compute; discriminate).
  split; [exact Hd|]. split; [exact Hr|]. split.
  - destruct (ingest_endpoint_pacing Scenario.two_endpoints Scenario.api_surroundings
                "products" Scenario.api_start Hd Hr) as (pause & Htrace & _ & _ & Hok).
    rewrite Htrace, Hok by (vm_compute; reflexivity). vm_compute. reflexivity.
  - destruct (ingest_endpoint_pacing Scenario.two_endpoints Scenario.api_surroundings
                "categories" Scenario.api_start Hd Hr) as (pause & Htrace & _ & Hfail & _).
    rewrite Htrace, Hfail by (vm_compute; reflexivity). vm_compute. reflexivity.
Defined.

(** X15.  [run_ingestion] over a non-empty table of endpoints, for
    pause lengths that are not negative, returns
    one result per endpoint, in the order of the table; the counters
    of processed and failed endpoints grow by the numbers of successful
    and failed results, which add up to the number of endpoints; the
    record total grows by the records of the results, and one error is
    recorded per failed result. *)
Theorem run_ingestion_accounting (cfg : Config) (env : Env) (r : Run) :
  0 <= Api.retry_delay (api cfg) -> 0 <= rate_limit_delay cfg ->
  NoDup (api_endpoints cfg) -> api_endpoints cfg <> [] ->
  let out := run_ingestion cfg env r in
  let st := stats r in
  let st' := stats (snd out) in
  exists results,
    fst out = ByEndpoint results /\
    map fst results = api_endpoints cfg /\
    succeeded results + failed results = Z.of_nat (length (api_endpoints cfg)) /\
    apis_processed st' = apis_processed st + succeeded results /\
    apis_failed st' = apis_failed st + failed results /\
    total_records st' = total_records st + records results /\
    length (errors st') = (length (errors st) + Z.to_nat (failed results))%nat.
Proof.
  intros _ _ Hnd Hne. cbv zeta. unfold run_ingestion.
  destruct (api_endpoints cfg) as [|name rest] eqn:Hends; [done|].
  destruct (ingest_all_accounting cfg env (name :: rest) [] (tick r) Hnd)
    as (results & Hout & Hkeys & Hp & Hf & Ht & He).
  { intros k _. apply not_elem_of_nil. }
  destruct (ingest_all cfg env (name :: rest) [] (tick r)) as [results' r1].
  cbn [fst snd] in *. subst results'. cbn [app].
  exists results. split; [done|]. split; [done|].
  unfold _save_ingestion_metadata, Csv.on_files. cbn [tick set_world world stats].
  destruct (FS.dump_json _ _ _ _) as [res s']. cbn [set_world stats].
  split; [|done].
  rewrite <- Hkeys, length_map. unfold succeeded, failed.
  clear. induction results as [|[k res] results IH]; cbn; [done|].
  destruct (ok res); cbn; lia.
Qed.

Lemma run_ingestion_accounting_witness :
  0 <= Api.retry_delay (api Scenario.two_endpoints) /\
  0 <= rate_limit_delay Scenario.two_endpoints /\
  NoDup (api_endpoints Scenario.two_endpoints) /\
  api_endpoints Scenario.two_endpoints <> [] /\
  exists results,
    fst (run_ingestion Scenario.two_endpoints Scenario.api_surroundings Scenario.api_start)
      = ByEndpoint results /\
    map fst results = ["products"; "categories"] /\
    succeeded results + failed results = 2.
Proof.
  assert (NoDup (api_endpoints Scenario.two_endpoints)) as Hnd.
  { cbn. apply NoDup_cons. split; [|apply NoDup_singleton].
    intros Hin. apply list_elem_of_singleton in Hin. discriminate Hin. }
  assert (api_endpoints Scenario.two_endpoints <> []) as Hne by done.
  assert (0 <= Api.retry_delay (api Scenario.two_endpoints)) as Hd
    by (vm_compute; discriminate).
  assert (0 <= rate_limit_delay Scenario.two_endpoints) as Hr
    by (vm_compute; discriminate).
  split; [exact Hd|]. split; [exact Hr|]. split; [exact Hnd|]. split; [exact Hne|].
  destruct (run_ingestion_accounting Scenario.two_endpoints Scenario.api_surroundings
              Scenario.api_start Hd Hr Hnd Hne) as (results & Hout & Hkeys & Hsum & _).
  exists results. split; [exact Hout|]. split; [exact Hkeys|exact Hsum].
Defined.

(** X16.  The scheduler's reading of [run_ingestion].  When no endpoint
    is configured the returned dict is flat, its values are strings,
    and [_run_job_safe] records the job as an error; otherwise it
    records success exactly when every endpoint's result reports
    success, and failure otherwise. *)
Theorem api_ingestion_job_outcome (cfg : Config) (env : Env) (r : Run)
    (start finish : DateTime.datetime) (write_ok : bool) (st : Scheduler.State) :
  let out := fst (run_ingestion cfg env r) in
  let st' := Scheduler._run_job_safe start finish write_ok "api_ingestion"
               (Scheduler.api_ingestion_job (fun _ => Py.Ok (to_pyval out))) st in
  exists entry,
    Scheduler.jobs_status st' !! "api_ingestion" = Some entry /\
    match out with
    | NoEndpoints =>
        api_endpoints cfg = [] /\
        Scheduler.status entry = "error" /\ Scheduler.last_result entry = None
    | ByEndpoint results =>
        Scheduler.status entry =
          if forallb (fun kv => ok (snd kv)) results then "success" else "failed"
    end.
Proof.
  cbv zeta. unfold Scheduler._run_job_safe, Scheduler._save_job_status.
  cbn [Scheduler.jobs_status]. rewrite lookup_insert_eq. eexists. split; [done|].
  unfold Scheduler.api_ingestion_job, Scheduler.call_method.
  rewrite bool_decide_eq_true_2 by (vm_compute; set_solver).
  unfold run_ingestion.
  destruct (api_endpoints cfg) as [|name rest] eqn:Hends.
  - cbn. done.
  - destruct (ingest_all cfg env (name :: rest) [] (tick r)) as [results r1].
    cbn [fst to_pyval Scheduler.is_success].
    rewrite failed_count_results, failed_zero.
    by destruct (forallb _ results).
Qed.

(** X17.  [save_api_data] turns every exception into a failed result.
    A success result carries the length of the frame and the path
    [organize_data] returned, and the latest file of the endpoint then
    holds the frame; a failed result carries no records, no output
    file and the message of the exception. *)
Theorem save_api_data_outcome (cfg : Config) (env : Env) (df : Pandas.DataFrame)
    (endpoint_name : string) (w : Csv.World) :
  let out := save_api_data cfg env df endpoint_name w in
  (s_status (fst out) = "success" /\ s_records_count (fst out) = Pandas.len df /\
   s_error (fst out) = "" /\
   Csv.files (snd out) !! latest cfg endpoint_name = Some (FS.File (FS.Parquet df)) /\
   exists s1, Storage.organize_data (storage cfg) (fs_env env) (clock env (S (Csv.ticks w)))
                df endpoint_name "api_ingestion" (Some (clock env (S (Csv.ticks w))))
                (Some [("endpoint", Json.JStr endpoint_name);
                       ("ingestion_timestamp",
                        Json.JStr (DateTime.strftime_compact (clock env (Csv.ticks w))));
                       ("api_source", Json.JStr "dummyjson");
                       ("total_records", Json.JInt (Pandas.len df))]) (Csv.files w)
              = (Py.Ok (s_output_file (fst out)), s1)) \/
  (exists e, fst out = mk_save "failed" 0 "" ""
     ("Failed to save data for " +:+ endpoint_name +:+ ": " +:+ Py.str_of e)).
Proof.
  cbv zeta. unfold save_api_data, save_block, now, Py.bind, Py.ret, Csv.on_files.
  cbn [Csv.files Csv.ticks].
  destruct (Storage.organize_data _ _ _ _ _ _ _ _ _) as [[out|e] s1] eqn:Horg.
  2:{ right. by exists e. }
  unfold FS.to_parquet. cbv beta iota. cbn [Csv.files Csv.ticks].
  destruct (FS.write_file _ _ _ s1) as [[[]|e] s2] eqn:Hw.
  2:{ right. by exists e. }
  apply write_file_ok in Hw as ->. left. cbn.
  split; [done|]. split; [done|]. split; [done|].
  split; [apply lookup_insert_eq|by exists s1].
Qed.
End ApiEndpoint.


(** ** The scheduler: single runs and the registration of jobs *)

Section Scheduling.
Import Scheduler.

(** X18.  [run_once] with the job name [csv], with an empty name or
    with none raises the [AttributeError] of the CSV job; in the last
    two cases, where both ingestion jobs are meant to run, the API job
    is never reached. *)
Theorem run_once_csv_raises (csv_impl api_impl : string -> Py.result pyval)
    (health cleanup : bool) (st : State) :
  let e := Py.AttributeError "'CSVDataIngester' object has no attribute 'run_ingestion'" in
  run_once csv_impl api_impl health cleanup (Some "csv") st = Py.Raise e /\
  run_once csv_impl api_impl health cleanup (Some "") st = Py.Raise e /\
  run_once csv_impl api_impl health cleanup None st = Py.Raise e.
Proof.
  cbv zeta. unfold run_once. cbn [String.eqb Ascii.eqb].
  rewrite (csv_ingestion_job_raises csv_impl st). done.
Qed.

Lemma period_bounds (m : Z) :
  1 <= m ->
  let e name :=
    if m <? 60 then Every m Minutes name
    else if m <? 1440 then Every (m / 60) Hours name
    else Every (m / 1440) Days name in
  forall name, period (e name) <= m < 2 * period (e name) /\
               (m < 60 -> period (e name) = m).
Proof.
  intros Hm e name. unfold e.
  destruct (m <? 60) eqn:H60; [cbn; lia|].
  destruct (m <? 1440) eqn:H1440; cbn; split; try lia.
  - apply Z.ltb_ge in H60. apply Z.ltb_lt in H1440. div_lia.
  - apply Z.ltb_ge in H1440. div_lia.
Qed.

(** X19.  [schedule_job] for an interval of [m >= 1] minutes registers
    one periodic entry for the job, after the daily entry when a start
    time is given.  The entry's period is [m] below an hour; above, it
    is rounded down to whole hours or days, so it is at most [m] and
    more than half of [m]. *)
Theorem schedule_job_period (at_ok : string -> bool) (job_name interval_str : string)
    (start_time : option string) (jobs : list entry) (m : Z) :
  parse_interval interval_str = Py.Ok m -> 1 <= m ->
  (forall t, start_time = Some t -> at_ok t = true) ->
  exists e,
    schedule_job at_ok job_name interval_str start_time jobs =
      Py.Ok (jobs ++
             match start_time with
             | Some (String _ _ as t) => [DailyAt t job_name]
             | _ => []
             end ++ [e]) /\
    job_of e = job_name /\
    period e <= m < 2 * period e /\
    (m < 60 -> period e = m).
Proof.
  intros Hparse Hm Hat. unfold schedule_job. rewrite Hparse.
  pose proof (period_bounds m Hm job_name) as Hb. cbv zeta in Hb.
  assert (exists jobs', match start_time with
            | Some (String _ _ as t) =>
                if at_ok t then Py.Ok (jobs ++ [DailyAt t job_name])
                else Py.Raise (Py.ValueError "Invalid time format")
            | _ => Py.Ok jobs
            end = Py.Ok jobs' /\
          jobs' = jobs ++ match start_time with
                          | Some (String _ _ as t) => [DailyAt t job_name]
                          | _ => []
                          end) as (jobs' & -> & ->).
  { destruct start_time as [[|c t]|].
    - eexists. split; [done|]. by rewrite app_nil_r.
    - rewrite (Hat _ eq_refl). by eexists.
    - eexists. split; [done|]. by rewrite app_nil_r. }
  rewrite <- !app_assoc.
  destruct (m <? 60); [|destruct (m <? 1440)]; eexists; (split; [done|]); cbn [job_of];
    split; try done; exact Hb.
Qed.

Lemma schedule_job_period_witness :
  parse_interval "90m" = Py.Ok 90 /\ 1 <= 90 /\
  schedule_job (fun _ => true) "csv_ingestion" "90m" (Some "08:00") [] =
    Py.Ok [DailyAt "08:00" "csv_ingestion"; Every 1 Hours "csv_ingestion"].
Proof.
  assert (parse_interval "90m" = Py.Ok 90) as Hparse by (vm_compute; reflexivity).
  split; [exact Hparse|]. split; [lia|].
  destruct (schedule_job_period (fun _ => true) "csv_ingestion" "90m" (Some "08:00") [] 90
              Hparse ltac:(lia) ltac:(done)) as (e & Hrun & _).
  rewrite Hrun. vm_compute in Hrun. injection Hrun as <-. reflexivity.
Defined.

(** X20.  [setup_schedules] reads [enabled] with defaults but the
    section itself by subscript: when the [csv_ingestion] section is
    absent, the job counts as enabled and the call raises [KeyError]
    before anything is registered; likewise for [api_ingestion] once the
    CSV block has passed. *)
Theorem setup_schedules_missing_section (at_ok : string -> bool) (cfg : Scheduling)
    (jobs : list entry) :
  (csv_section cfg = None ->
   setup_schedules at_ok cfg jobs = Py.Raise (Py.KeyError "'csv_ingestion'")) /\
  (api_section cfg = None ->
   forall jobs', setup_ingestion at_ok "csv_ingestion" "6h" (csv_section cfg) jobs
                   = Py.Ok jobs' ->
   setup_schedules at_ok cfg jobs = Py.Raise (Py.KeyError "'api_ingestion'")).
Proof.
  unfold setup_schedules. split.
  - intros ->. done.
  - intros -> jobs' ->. done.
Qed.

Lemma setup_schedules_missing_section_witness :
  setup_schedules (fun _ => true) (mk_scheduling None None (Some "30m") None) []
    = Py.Raise (Py.KeyError "'csv_ingestion'") /\
  setup_schedules (fun _ => true)
    (mk_scheduling (Some (mk_job_config (Some false) None None)) None None None) []
    = Py.Raise (Py.KeyError "'api_ingestion'").
Proof.
  split.
  - destruct (setup_schedules_missing_section (fun _ => true)
                (mk_scheduling None None (Some "30m") None) []) as [Hcsv _].
    apply Hcsv. reflexivity.
  - destruct (setup_schedules_missing_section (fun _ => true)
                (mk_scheduling (Some (mk_job_config (Some false) None None)) None None None)
                []) as [_ Hapi].
    apply (Hapi eq_refl []). reflexivity.
Defined.
End Scheduling.


(** ** The orchestrator *)

Section OrchestratorFacts.
Import Orchestrator.

Lemma api_summary_returns (repr : ApiPipeline.EndpointResult -> string) (api : ApiOutcome) :
  exists ok_n failed_n count lines,
    api_summary repr (run_api_ingestion api) = Py.Ok (ok_n, failed_n, count, lines) /\
    ok_n = (if fst (run_api_ingestion api) then 1 else 0) /\
    failed_n = (if fst (run_api_ingestion api) then 0 else 1) /\
    (fst (run_api_ingestion api) = false -> count = 0) /\
    (fst (run_api_ingestion api) = true -> lines = []).
Proof.
  destruct api as [e|[|results]]; cbn [run_api_ingestion api_summary fst].
  - by eexists _, _, _, _.
  - by eexists _, _, _, _.
  - destruct (forallb _ results) eqn:Hall; cbn [api_summary].
    + by eexists _, _, _, _.
    + destruct (ApiPipeline.dict_get_result "error" results); by eexists _, _, _, _.
Qed.

Lemma csv_summary_cases (csv : CsvOutcome) :
  exists count lines,
    csv_summary (run_csv_ingestion csv) =
      (if fst (run_csv_ingestion csv) then 1 else 0,
       if fst (run_csv_ingestion csv) then 0 else 1, count, lines) /\
    (fst (run_csv_ingestion csv) = false -> count = 0) /\
    lines = match csv with
            | CsvRaised e => ["CSV: CSV ingestion failed: " +:+ Py.str_of e]
            | CsvReturned _ _ => []
            end.
Proof.
  destruct csv as [e|ev ip]; cbn [run_csv_ingestion csv_summary fst].
  - by eexists _, _.
  - destruct (source_ok ev && source_ok ip); by eexists _, _.
Qed.

(** X21.  [run_full_ingestion], once the components are initialised,
    never raises and always runs the CSV ingestion, a wait of ten
    seconds and the API ingestion, whatever the CSV ingestion did.  The
    overall status is [success] exactly when the CSV pipeline returned
    two successful sources and the API pipeline returned results that
    are all successful.  In the summary two sources are counted, each
    as successful or failed; the overall status is [success] exactly
    when none failed; the record total is the sum of the two record
    counts; and a failed half contributes no records. *)
Theorem run_full_ingestion_summary (repr : ApiPipeline.EndpointResult -> string)
    (csv : CsvOutcome) (api : ApiOutcome) :
  exists res s,
    run_full_ingestion repr true csv api = (Py.Ok res, [RunCsv; Wait 10; RunApi]) /\
    summary res = Some s /\
    csv_ingestion res = Some (run_csv_ingestion csv) /\
    api_ingestion res = Some (run_api_ingestion api) /\
    (overall_status res = "success" <->
     (exists ev ip, csv = CsvReturned ev ip /\ source_ok ev = true /\
                    source_ok ip = true) /\
     (exists results, api = ApiReturned (ApiPipeline.ByEndpoint results) /\
                      forallb (fun kv => ApiPipeline.ok (snd kv)) results = true)) /\
    (overall_status res = "success" <-> failed_sources s = 0) /\
    (overall_status res = "success" \/ overall_status res = "failed") /\
    total_sources s = 2 /\
    successful_sources s + failed_sources s = 2 /\
    total_records s = csv_records s + api_records s /\
    (fst (run_csv_ingestion csv) = false -> csv_records s = 0) /\
    (fst (run_api_ingestion api) = false -> api_records s = 0).
Proof.
  unfold run_full_ingestion, _generate_pipeline_summary. cbn [negb].
  destruct (csv_summary_cases csv) as (ccount & clines & -> & Hc0 & _).
  destruct (api_summary_returns repr api)
    as (ok_n & failed_n & acount & alines & -> & -> & -> & Ha0 & _).
  eexists _, _. split; [reflexivity|]. cbn [summary csv_ingestion api_ingestion
    overall_status total_sources successful_sources failed_sources total_records
    csv_records api_records].
  split; [done|]. split; [done|]. split; [done|].
  assert (fst (run_csv_ingestion csv) = true <->
          exists ev ip, csv = CsvReturned ev ip /\ source_ok ev = true /\
                        source_ok ip = true) as Hcsv.
  { destruct csv as [e|ev ip]; cbn.
    - split; [done|]. by intros (? & ? & ? & _).
    - rewrite andb_true_iff. split.
      + intros [? ?]. by exists ev, ip.
      + by intros (? & ? & [= <- <-] & ? & ?). }
  assert (fst (run_api_ingestion api) = true <->
          exists results, api = ApiReturned (ApiPipeline.ByEndpoint results) /\
                          forallb (fun kv => ApiPipeline.ok (snd kv)) results = true) as Hapi.
  { destruct api as [e|[|results]]; cbn.
    - split; [done|]. by intros (? & ? & _).
    - split; [done|]. by intros (? & ? & _).
    - split; [intros ?; by exists results|]. by intros (? & [= <-] & ?). }
  rewrite <- Hcsv, <- Hapi.
  destruct (fst (run_csv_ingestion csv)), (fst (run_api_ingestion api)); cbn;
    repeat split; try done; try lia; intuition (try done; try lia).
Qed.

(** X22.  A CSV pipeline that returned never adds a line to the
    summary's errors: its failed sources are counted, not named.  So
    when a CSV source failed and every endpoint succeeded, the overall
    status is [failed], one source is counted as failed, the error list
    is empty, and the record total holds the API records only, whatever
    the other CSV source ingested. *)
Theorem failed_csv_source_is_not_reported (repr : ApiPipeline.EndpointResult -> string)
    (events item_properties : SourceResult)
    (results : list (string * ApiPipeline.EndpointResult)) :
  source_ok events && source_ok item_properties = false ->
  forallb (fun kv => ApiPipeline.ok (snd kv)) results = true ->
  exists res s,
    fst (run_full_ingestion repr true (CsvReturned events item_properties)
           (ApiReturned (ApiPipeline.ByEndpoint results))) = Py.Ok res /\
    summary res = Some s /\
    overall_status res = "failed" /\
    failed_sources s = 1 /\ successful_sources s = 1 /\
    errors s = [] /\
    total_records s = success_records results.
Proof.
  intros Hcsv Hapi.
  unfold run_full_ingestion, _generate_pipeline_summary. cbn [negb].
  cbn [run_csv_ingestion run_api_ingestion]. rewrite Hcsv, Hapi.
  cbn [csv_summary api_summary fst andb].
  eexists _, _. split; [reflexivity|]. cbn. repeat split; lia.
Qed.

Lemma failed_csv_source_is_not_reported_witness :
  let events := mk_source "failed" 0 in
  let item_properties := mk_source "success" 1200 in
  let results := [("products", ApiPipeline.mk_result "products" "success" 30 "out" "")] in
  source_ok events && source_ok item_properties = false /\
  forallb (fun kv => ApiPipeline.ok (snd kv)) results = true /\
  exists res s,
    fst (run_full_ingestion (fun _ => "") true (CsvReturned events item_properties)
           (ApiReturned (ApiPipeline.ByEndpoint results))) = Py.Ok res /\
    summary res = Some s /\ overall_status res = "failed" /\
    errors s = [] /\ total_records s = 30.
Proof.
  cbv zeta. split; [reflexivity|]. split; [reflexivity|].
  destruct (failed_csv_source_is_not_reported (fun _ => "")
              (mk_source "failed" 0) (mk_source "success" 1200)
              [("products", ApiPipeline.mk_result "products" "success" 30 "out" "")]
              eq_refl eq_refl) as (res & s & Hrun & Hs & Hst & _ & _ & Herr & Htot).
  exists res, s. split; [exact Hrun|]. split; [exact Hs|]. split; [exact Hst|].
  split; [exact Herr|]. rewrite Htot. reflexivity.
Defined.

(** X23.  Without configured endpoints, the message of [run_ingestion]
    does not reach the pipeline's results: [run_api_ingestion] fails on
    the flat dict and reports its own [AttributeError], which is also
    the only error line of the summary for the API half; no API records
    are counted and the overall status is [failed]. *)
Theorem no_endpoints_through_orchestrator (repr : ApiPipeline.EndpointResult -> string)
    (cfg : ApiPipeline.Config) (env : ApiPipeline.Env) (r : ApiPipeline.Run)
    (csv : CsvOutcome) :
  ApiPipeline.api_endpoints cfg = [] ->
  let message := "API ingestion failed: 'str' object has no attribute 'get'" in
  exists res s,
    fst (run_full_ingestion repr true csv
           (ApiReturned (fst (ApiPipeline.run_ingestion cfg env r)))) = Py.Ok res /\
    api_ingestion res = Some (false, ApiError message) /\
    overall_status res = "failed" /\
    summary res = Some s /\
    api_records s = 0 /\
    exists csv_lines, errors s = csv_lines ++ ["API: " +:+ message].
Proof.
  intros Hnone. cbv zeta. unfold ApiPipeline.run_ingestion. rewrite Hnone. cbn [fst].
  unfold run_full_ingestion, _generate_pipeline_summary. cbn [negb].
  cbn [run_api_ingestion api_summary fst Py.str_of].
  destruct (csv_summary (run_csv_ingestion csv)) as [[[c1 c2] c3] c4].
  eexists _, _. split; [reflexivity|]. cbn.
  split; [done|]. split; [by rewrite andb_false_r|]. split; [done|]. split; [done|].
  by exists c4.
Qed.

Lemma no_endpoints_through_orchestrator_witness :
  ApiPipeline.api_endpoints Scenario.no_endpoints = [] /\
  exists res,
    fst (run_full_ingestion (fun _ => "") true
           (CsvReturned (mk_source "success" 10) (mk_source "success" 20))
           (ApiReturned (fst (ApiPipeline.run_ingestion Scenario.no_endpoints
                                Scenario.api_surroundings Scenario.api_start))))
      = Py.Ok res /\
    overall_status res = "failed".
Proof.
  split; [reflexivity|].
  destruct (no_endpoints_through_orchestrator (fun _ => "") Scenario.no_endpoints
              Scenario.api_surroundings Scenario.api_start
              (CsvReturned (mk_source "success" 10) (mk_source "success" 20)) eq_refl)
    as (res & s & Hrun & _ & Hst & _).
  exists res. split; [exact Hrun|exact Hst].
Defined.
End OrchestratorFacts.


(** ** Timestamps in file names *)

Section FilenameStamps.
Import PyStr DateTime.

Lemma append_cons (a : ascii) (s r : string) : String a s +:+ r = String a (s +:+ r).
Proof. reflexivity. Qed.

Lemma append_empty (r : string) : "" +:+ r = r.
Proof. reflexivity. Qed.

Lemma append_assoc (a b c : string) : (a +:+ b) +:+ c = a +:+ (b +:+ c).
Proof.
  induction a as [|x a IH]; [by rewrite !append_empty|].
  by rewrite !append_cons, IH.
Qed.

Lemma digit_char_value (d : Z) :
  0 <= d < 10 ->
  is_digit (digit_char d) = true /\ Z.of_nat (nat_of_ascii (digit_char d)) - 48 = d.
Proof.
  intros Hd.
  destruct (digit_range_cases d Hd) as [->|[->|[->|[->|[->|[->|[->|[->|[->| ->]]]]]]]]];
    split; reflexivity.
Qed.

Lemma read_digit (d acc : Z) (n : nat) (rest : string) :
  0 <= d < 10 ->
  read_digits (S n) acc (String (digit_char d) rest) = read_digits n (10 * acc + d) rest.
Proof.
  intros Hd. destruct (digit_char_value d Hd) as [Hdig Hval].
  cbn [read_digits]. by rewrite Hdig, Hval.
Qed.

Lemma read_digits_pad2 (n : Z) (rest : string) :
  0 <= n < 100 -> read_digits 2 0 (pad2 n +:+ rest) = Some (n, rest).
Proof.
  intros Hn. unfold pad2. rewrite !append_cons, append_empty.
  rewrite !read_digit by div_lia. cbn [read_digits]. do 2 f_equal. div_lia.
Qed.

Lemma read_digits_pad4 (n : Z) (rest : string) :
  0 <= n < 10000 -> read_digits 4 0 (pad4 n +:+ rest) = Some (n, rest).
Proof.
  intros Hn. unfold pad4. rewrite !append_cons, append_empty.
  rewrite !read_digit by div_lia. cbn [read_digits]. do 2 f_equal. div_lia.
Qed.

Lemma match_stamp_strftime (t : datetime) (suffix : string) :
  valid t = true -> 1000 <= year t ->
  match_stamp (strftime_compact t +:+ suffix) =
  Some (mk_dt (year t) (month t) (day t) (hour t) (minute t) (second t) 0).
Proof.
  intros Hv Hlong. apply valid_bounds in Hv as (Hy & Hm & Hd & Hh & Hmi & Hs & _).
  unfold match_stamp, strftime_compact. rewrite (strftime_Y_long _ Hlong).
  rewrite !append_assoc.
  rewrite read_digits_pad4 by lia.
  rewrite read_digits_pad2 by lia.
  rewrite read_digits_pad2 by lia.
  rewrite append_cons, append_empty.
  rewrite read_digits_pad2 by lia.
  rewrite read_digits_pad2 by lia.
  rewrite read_digits_pad2 by lia.
  reflexivity.
Qed.

Lemma match_stamp_no_digit (c : ascii) (s : string) :
  is_digit c = false -> match_stamp (String c s) = None.
Proof. intros Hc. unfold match_stamp. cbn [read_digits]. by rewrite Hc. Qed.

Lemma search_stamp_prefix (prefix s : string) (t : datetime) :
  (forall c, contains_char c prefix = true -> is_digit c = false) ->
  match_stamp s = Some t ->
  search_stamp (prefix +:+ s) = Some t.
Proof.
  intros Hfree Hs. induction prefix as [|c prefix IH].
  - rewrite append_empty. destruct s; cbn [search_stamp]; by rewrite Hs.
  - rewrite append_cons. cbn [search_stamp].
    rewrite match_stamp_no_digit.
    + apply IH. intros c' Hc'. apply Hfree. cbn. rewrite Hc'. apply orb_true_r.
    + apply Hfree. cbn. by rewrite Ascii.eqb_refl.
Qed.

(** X24.  [_extract_timestamp_from_filename] reads back what
    [strftime("%Y%m%d_%H%M%S")] printed: for a valid time [t] from the
    year 1000 on, a name made of a prefix without digits, the printed
    [t] and any suffix yields [t] up to the second.  So the names the
    ingesters give their backups, [events_<timestamp>.csv], are filed
    by [organize_file] under the time in the name. *)
Theorem extract_timestamp_round_trip (prefix suffix : string) (t : datetime) :
  valid t = true -> 1000 <= year t ->
  (forall c, contains_char c prefix = true -> is_digit c = false) ->
  Storage._extract_timestamp_from_filename (prefix +:+ strftime_compact t +:+ suffix)
  = Some (mk_dt (year t) (month t) (day t) (hour t) (minute t) (second t) 0).
Proof.
  intros Hv Hlong Hfree. unfold Storage._extract_timestamp_from_filename.
  rewrite (search_stamp_prefix prefix _ _ Hfree (match_stamp_strftime t suffix Hv Hlong)).
  assert (valid (mk_dt (year t) (month t) (day t) (hour t) (minute t) (second t) 0) = true)
    as ->; [|done].
  unfold valid in *. cbn [year month day hour minute second microsecond].
  repeat (apply andb_true_iff in Hv as [Hv ?]).
  repeat (apply andb_true_iff; split); done.
Qed.

Lemma extract_timestamp_round_trip_witness :
  valid Scenario.noon = true /\ 1000 <= year Scenario.noon /\
  Storage._extract_timestamp_from_filename
    ("events_" +:+ strftime_compact Scenario.noon +:+ ".csv") = Some Scenario.noon.
Proof.
  split; [reflexivity|]. split; [vm_compute; discriminate|].
  apply (extract_timestamp_round_trip "events_" ".csv" Scenario.noon);
    [reflexivity|vm_compute; discriminate|].
  intros c Hc. cbn [contains_char] in Hc.
  repeat (apply orb_true_iff in Hc as [Hc|Hc];
          [apply Ascii.eqb_eq in Hc; subst c; reflexivity|]).
  discriminate Hc.
Defined.
End FilenameStamps.


(** ** Validation of the storage structure *)

Section Validation.
Import PurePath FS Storage.

Lemma quiet_ret : quiet (Py.ret tt).
Proof. intros v. by exists v. Qed.

Lemma quiet_add_issue (msg : string) : quiet (add_issue msg).
Proof. intros v. by eexists. Qed.

Lemma quiet_add_recommendation (msg : string) : quiet (add_recommendation msg).
Proof. intros v. by eexists. Qed.

Lemma quiet_seq (m k : Py.M Validation unit) : quiet m -> quiet k -> quiet (m ;; k).
Proof.
  intros Hm Hk v. destruct (Hm v) as (v1 & Hv1 & H1). destruct (Hk v1) as (v2 & Hv2 & H2).
  exists v2. unfold Py.bind. rewrite Hv1, Hv2. split; [done|congruence].
Qed.

Lemma quiet_for_each {A} (l : list A) (body : A -> Py.M Validation unit) :
  (forall x, x ∈ l -> quiet (body x)) -> quiet (for_each l body).
Proof.
  induction l as [|x l IH]; intros Hbody; cbn [for_each]; [apply quiet_ret|].
  apply quiet_seq; [apply Hbody; left|]. apply IH. intros y Hy. apply Hbody. by right.
Qed.

Lemma validate_partitions_quiet (base : Path) (s : fs) : quiet (_validate_partitions base s).
Proof.
  unfold _validate_partitions. apply quiet_for_each. intros d _.
  destruct (is_dir d s) eqn:Hd; cbn [andb]; [|apply quiet_ret].
  destruct (PyStr.contains _ _); [|apply quiet_ret].
  unfold yielded, iterdir. rewrite Hd. intros v. unfold Py.bind.
  destruct (existsb _ _); [apply quiet_ret|apply quiet_add_issue].
Qed.

(** The first loop: the flag goes down when a main directory is
    missing. *)
Lemma missing_loop (cfg : Config) (s : fs) (dirs : list string) (v : Validation) :
  exists v',
    for_each dirs (missing_step cfg s) v = (Py.Ok tt, v') /\
    v_valid v' = v_valid v && forallb (fun d => exists_ (base_path cfg // d) s) dirs.
Proof.
  revert v. induction dirs as [|d dirs IH]; intros v; cbn [for_each forallb].
  { exists v. by rewrite andb_true_r. }
  unfold Py.bind at 1, missing_step at 1.
  destruct (exists_ (base_path cfg // d) s); cbn [negb].
  - unfold Py.ret at 1. destruct (IH v) as (v' & -> & Hv'). exists v'. by rewrite Hv'.
  - unfold Py.bind at 1, add_issue, invalidate.
    match goal with |- context [for_each dirs _ ?v0] =>
      destruct (IH v0) as (v' & -> & Hv')
    end.
    exists v'. rewrite Hv'. cbn. by rewrite andb_false_r.
Qed.

Lemma orphan_step_cases (cfg : Config) (s : fs) (d : string) (v : Validation) :
  exists r v',
    orphan_step cfg s d v = (r, v') /\ v_valid v' = v_valid v /\
    Py.is_raise r = negb (negb (exists_ (base_path cfg // d) s) ||
                          is_dir (base_path cfg // d) s).
Proof.
  unfold orphan_step.
  destruct (exists_ (base_path cfg // d) s) eqn:Hex; cbn [negb orb].
  - unfold yielded, iterdir. rewrite Hex. unfold Py.bind at 1.
    destruct (is_dir (base_path cfg // d) s) eqn:Hdir.
    + match goal with |- context [for_each ?l ?body v] =>
        destruct (quiet_for_each l body) with (v := v) as (v1 & -> & H1)
      end.
      { intros file _. destruct (is_file file s); [|apply quiet_ret].
        apply quiet_seq; [apply quiet_add_issue|apply quiet_add_recommendation]. }
      by exists (Py.Ok tt), v1.
    + by eexists _, v.
  - by exists (Py.Ok tt), v.
Qed.

(** The second loop: it raises when an existing directory among the
    three is not a directory, and leaves the flag alone. *)
Lemma orphan_loop (cfg : Config) (s : fs) (dirs : list string) (v : Validation) :
  exists r v',
    for_each dirs (orphan_step cfg s) v = (r, v') /\
    v_valid v' = v_valid v /\
    Py.is_raise r =
      negb (forallb (fun d => negb (exists_ (base_path cfg // d) s) ||
                              is_dir (base_path cfg // d) s) dirs).
Proof.
  revert v. induction dirs as [|d dirs IH]; intros v; cbn [for_each forallb].
  { by exists (Py.Ok tt), v. }
  unfold Py.bind at 1.
  destruct (orphan_step_cases cfg s d v) as (r1 & v1 & -> & H1 & Hr1).
  destruct r1 as [[]|e]; cbn [Py.is_raise] in Hr1.
  - destruct (IH v1) as (r & v' & -> & Hv' & Hr). exists r, v'.
    split; [done|]. split; [congruence|].
    apply (f_equal negb) in Hr1. rewrite negb_involutive in Hr1. cbn in Hr1.
    by rewrite <- Hr1, andb_true_l.
  - exists (Py.Raise e), v1. split; [done|]. split; [done|].
    apply (f_equal negb) in Hr1. rewrite negb_involutive in Hr1. cbn in Hr1.
    by rewrite <- Hr1.
Qed.

Lemma partition_loop (cfg : Config) (s : fs) (dirs : list string) :
  quiet (for_each dirs (partition_step cfg s)).
Proof.
  apply quiet_for_each. intros d _. unfold partition_step.
  destruct (exists_ _ s); [apply validate_partitions_quiet|apply quiet_ret].
Qed.

(** X25.  [validate_storage_structure] reports a valid structure
    exactly when every main directory of the storage structure exists
    and [raw], [processed] and [features] are directories.  Orphaned
    files and year partitions without a month are listed as issues but
    never make the structure invalid. *)
Theorem validate_storage_structure_valid (cfg : Config) (s : fs) :
  v_valid (validate_storage_structure cfg s) = true <->
  (forall d, d ∈ map fst storage_structure -> exists_ (base_path cfg // d) s = true) /\
  (forall d, d ∈ ["raw"; "processed"; "features"] -> is_dir (base_path cfg // d) s = true).
Proof.
  unfold validate_storage_structure, validation_block.
  unfold Py.bind at 1.
  destruct (missing_loop cfg s (map fst storage_structure) (mk_validation true [] []))
    as (v1 & -> & H1). cbn [v_valid andb] in H1.
  unfold Py.bind at 1.
  destruct (orphan_loop cfg s ["raw"; "processed"; "features"] v1)
    as (r & v2 & -> & H2 & Hr).
  assert ((forall d, d ∈ map fst storage_structure ->
             exists_ (base_path cfg // d) s = true) <-> v_valid v1 = true) as Hall.
  { rewrite H1, forallb_forall. split; intros H d Hd; apply H; by apply list_elem_of_In. }
  assert (forall d, d ∈ ["raw"; "processed"; "features"] -> d ∈ map fst storage_structure)
    as Hsub.
  { intros d Hd. cbn. rewrite !elem_of_cons in Hd. rewrite !elem_of_cons.
    rewrite elem_of_nil in Hd. intuition. }
  destruct r as [[]|e]; cbn [Py.is_raise] in Hr.
  - destruct (partition_loop cfg s ["raw"; "processed"; "features"] v2) as (v3 & -> & H3).
    rewrite H3, H2. symmetry in Hr. apply negb_false_iff in Hr.
    rewrite forallb_forall in Hr. split.
    + intros Hv. pose proof (proj2 Hall Hv) as Hex. split; [done|]. intros d Hd.
      specialize (Hr d ltac:(by apply list_elem_of_In)).
      rewrite (Hex d (Hsub d Hd)) in Hr. done.
    + intros [Hex _]. by apply Hall.
  - cbn [v_valid]. split; [done|]. intros [_ Hd]. exfalso.
    symmetry in Hr. apply negb_true_iff in Hr.
    assert (forallb (fun d => negb (exists_ (base_path cfg // d) s) ||
                              is_dir (base_path cfg // d) s)
              ["raw"; "processed"; "features"] = true) as Hall'; [|congruence].
    apply forallb_forall. intros d Hin.
    apply list_elem_of_In in Hin. by rewrite (Hd d Hin), orb_true_r.
Qed.
End Validation.


Section Orphans.
Import PurePath FS Storage.

Lemma keeps_ret {A} (a : A) : keeps_issues (Py.ret a : Py.M Validation A).
Proof. intros v. exists []. cbn. by rewrite app_nil_r. Qed.

Lemma keeps_yielded {A} (r : Py.result A) : keeps_issues (yielded r).
Proof. intros v. exists []. cbn. by rewrite app_nil_r. Qed.

Lemma keeps_add_issue (msg : string) : keeps_issues (add_issue msg).
Proof. intros v. by exists [msg]. Qed.

Lemma keeps_add_recommendation (msg : string) : keeps_issues (add_recommendation msg).
Proof. intros v. exists []. cbn. by rewrite app_nil_r. Qed.

Lemma keeps_invalidate : keeps_issues invalidate.
Proof. intros v. exists []. cbn. by rewrite app_nil_r. Qed.

Lemma keeps_bind {A B} (m : Py.M Validation A) (k : A -> Py.M Validation B) :
  keeps_issues m -> (forall a, keeps_issues (k a)) -> keeps_issues (Py.bind m k).
Proof.
  intros Hm Hk v. destruct (Hm v) as (more1 & H1). unfold Py.bind.
  destruct (m v) as [[a|e] v1]; cbn [snd] in *.
  - destruct (Hk a v1) as (more2 & H2). exists (more1 ++ more2).
    by rewrite H2, H1, app_assoc.
  - by exists more1.
Qed.

Lemma keeps_for_each {A} (l : list A) (body : A -> Py.M Validation unit) :
  (forall x, keeps_issues (body x)) -> keeps_issues (for_each l body).
Proof.
  intros Hbody. induction l as [|x l IH]; cbn [for_each]; [apply keeps_ret|].
  apply keeps_bind; [apply Hbody|]. intros _. exact IH.
Qed.

Lemma keeps_elem {A} (m : Py.M Validation A) (v : Validation) (msg : string) :
  keeps_issues m -> msg ∈ v_issues v -> msg ∈ v_issues (snd (m v)).
Proof. intros Hm Hin. destruct (Hm v) as (more & ->). apply elem_of_app. by left. Qed.

Lemma keeps_orphan_file (main_dir : string) (s : fs) (file : Path) :
  keeps_issues
    (if is_file file s then
       add_issue ("Orphaned file in " +:+ main_dir +:+ ": " +:+ name file) ;;
       add_recommendation ("Move " +:+ name file +:+ " to proper partitioned structure")
     else Py.ret tt).
Proof.
  destruct (is_file file s); [|apply keeps_ret].
  apply keeps_bind; [apply keeps_add_issue|]. intros _. apply keeps_add_recommendation.
Qed.

Lemma keeps_orphan_step (cfg : Config) (s : fs) (d : string) :
  keeps_issues (orphan_step cfg s d).
Proof.
  unfold orphan_step. destruct (exists_ _ s); [|apply keeps_ret].
  apply keeps_bind; [apply keeps_yielded|]. intros files.
  apply keeps_for_each. intros file. apply keeps_orphan_file.
Qed.

Lemma keeps_validate_partitions (base : Path) (s : fs) :
  keeps_issues (_validate_partitions base s).
Proof.
  unfold _validate_partitions. apply keeps_for_each. intros d.
  destruct (_ && _); [|apply keeps_ret].
  apply keeps_bind; [apply keeps_yielded|]. intros children.
  destruct (existsb _ _); [apply keeps_ret|apply keeps_add_issue].
Qed.

Lemma keeps_partition_step (cfg : Config) (s : fs) (d : string) :
  keeps_issues (partition_step cfg s d).
Proof.
  unfold partition_step. destruct (exists_ _ s); [|apply keeps_ret].
  apply keeps_validate_partitions.
Qed.

(** The loop over the entries of a directory lists every regular file
    among them. *)
Lemma orphan_files_listed (main_dir : string) (s : fs) (files : list Path)
    (file : Path) (v : Validation) :
  file ∈ files -> is_file file s = true ->
  ("Orphaned file in " +:+ main_dir +:+ ": " +:+ name file) ∈
    v_issues (snd (for_each files (fun file =>
      if is_file file s then
        add_issue ("Orphaned file in " +:+ main_dir +:+ ": " +:+ name file) ;;
        add_recommendation ("Move " +:+ name file +:+ " to proper partitioned structure")
      else Py.ret tt) v)).
Proof.
  intros Hin Hfile. revert v. induction files as [|f files IH]; intros v.
  { by apply elem_of_nil in Hin. }
  cbn [for_each]. apply elem_of_cons in Hin as [<-|Hin].
  - rewrite Hfile. unfold Py.bind at 1 2, add_issue, add_recommendation.
    apply keeps_elem.
    + apply keeps_for_each. intros x. apply keeps_orphan_file.
    + cbn. apply elem_of_app. right. by left.
  - unfold Py.bind at 1.
    destruct (is_file f s).
    + unfold Py.bind at 1, add_issue, add_recommendation. by apply IH.
    + unfold Py.ret at 1. by apply IH.
Qed.

(** X26.  When [raw] is a directory, every regular file directly
    inside it is listed by [validate_storage_structure] as an orphaned
    file.  The latest files the ingesters write there,
    [<raw_path>/events_latest.parquet] and the like, are such files. *)
Theorem validate_reports_orphans (cfg : Config) (s : fs) (file : Path) (c : content) :
  is_dir (base_path cfg // "raw") s = true ->
  is_child (base_path cfg // "raw") file = true ->
  s !! file = Some (File c) ->
  ("Orphaned file in raw: " +:+ name file) ∈ v_issues (validate_storage_structure cfg s).
Proof.
  intros Hdir Hchild Hfile.
  assert (exists_ (base_path cfg // "raw") s = true) as Hex.
  { unfold is_dir, exists_ in *. destruct (parts (base_path cfg // "raw")); [done|].
    destruct (s !! (base_path cfg // "raw")) as [[|?]|] eqn:Hl; done. }
  assert (forall v, ("Orphaned file in raw: " +:+ name file) ∈
            v_issues (snd (orphan_step cfg s "raw" v))) as Hstep.
  { intros v. unfold orphan_step. rewrite Hex. unfold yielded, iterdir. rewrite Hdir.
    unfold Py.bind at 1.
    apply (orphan_files_listed "raw").
    - apply list_elem_of_fmap. exists (file, File c). split; [done|].
      apply list_elem_of_In, filter_In. split; [|done].
      apply list_elem_of_In. unfold entries. by apply elem_of_map_to_list.
    - unfold is_file. by rewrite Hfile. }
  assert (("Orphaned file in raw: " +:+ name file) ∈
            v_issues (snd (validation_block cfg s (mk_validation true [] [])))) as Hblock.
  { unfold validation_block. unfold Py.bind at 1.
    destruct (missing_loop cfg s (map fst storage_structure) (mk_validation true [] []))
      as (v1 & -> & _).
    change (for_each ["raw"; "processed"; "features"] (orphan_step cfg s))
      with (orphan_step cfg s "raw" ;; for_each ["processed"; "features"] (orphan_step cfg s)).
    specialize (Hstep v1).
    unfold Py.bind at 1 2.
    destruct (orphan_step cfg s "raw" v1) as [[[]|e] v2]; cbn [snd] in *; [|done].
    apply (keeps_elem (Py.bind _ _)); [|done].
    apply keeps_bind.
    - apply keeps_for_each. intros x. apply keeps_orphan_step.
    - intros _. apply keeps_for_each. intros x. apply keeps_partition_step. }
  unfold validate_storage_structure.
  destruct (validation_block cfg s (mk_validation true [] [])) as [[[]|e] v]; cbn [snd] in *.
  - done.
  - cbn [v_issues]. apply elem_of_app. by left.
Qed.

Lemma validate_reports_orphans_witness :
  is_dir (base_path Scenario.storage_cfg // "raw") Scenario.disk_with_latest = true /\
  "Orphaned file in raw: events_latest.parquet" ∈
    v_issues (validate_storage_structure Scenario.storage_cfg Scenario.disk_with_latest).
Proof.
  assert (is_dir (base_path Scenario.storage_cfg // "raw") Scenario.disk_with_latest = true)
    as Hdir by (vm_compute; reflexivity).
  split; [exact Hdir|].
  apply (validate_reports_orphans Scenario.storage_cfg Scenario.disk_with_latest
           (Csv.events_latest Scenario.csv_cfg)
           (Parquet Scenario.events_chunk) Hdir).
  - vm_compute. reflexivity.
  - apply lookup_insert_eq.
Defined.
End Orphans.


(** ** The item properties ingester *)

Section ItemsIngester.
Import PurePath FS Csv.

Lemma keep_last_nonempty {K} `{EqDecision K} (key : Z * list Pandas.cell -> K)
    (r : Z * list Pandas.cell) (l : list (Z * list Pandas.cell)) :
  (1 <= length (Pandas.keep_last key (r :: l)))%nat.
Proof.
  revert r. induction l as [|r' l IH]; intros r.
  - cbn. rewrite bool_decide_eq_false_2 by apply not_elem_of_nil. cbn. lia.
  - cbn [Pandas.keep_last]. destruct (bool_decide _); [apply IH|cbn; lia].
Qed.

Lemma omap_map {A B C} (f : B -> option C) (g : A -> B) (l : list A) :
  omap f (map g l) = omap (fun x => f (g x)) l.
Proof. induction l as [|x l IH]; cbn; [done|]. by rewrite IH. Qed.

Lemma omap_length {A B} (f : A -> option B) (l : list A) :
  (length (omap f l) <= length l)%nat.
Proof. induction l as [|x l IH]; cbn; [done|]. destruct (f x); cbn; lia. Qed.

(** A frame read from a file has at least one row. *)
Lemma read_part_len (env : Env) (w : World) (p : string) (df : Pandas.DataFrame) :
  fst (read_part env w p) = Some df -> 1 <= Pandas.len df.
Proof.
  unfold read_part. destruct (negb _); [done|].
  destruct (fst (validate_csv_structure _ _ _ _)) as [[[] msg]|e]; try done.
  destruct (read_csv_chunks _ _ _ _) as [all_chunks|e]; [|done].
  pose proof (kept_chunks_len all_chunks) as Hlen.
  destruct (kept_chunks all_chunks) as [|c chunks]; [done|].
  intros [= <-]. rewrite concat_len. by apply Hlen.
Qed.

Lemma parts_total (env : Env) (w : World) (file_paths : list string) :
  Z.of_nat (length (parts_read env w file_paths)) <=
  foldr Z.add 0 (map Pandas.len (parts_read env w file_paths)).
Proof.
  unfold parts_read. induction file_paths as [|p l IH]; cbn; [done|].
  pose proof (read_part_len env w p) as Hp.
  destruct (fst (read_part env w p)) as [df|]; [|done].
  specialize (Hp df eq_refl). cbn. lia.
Qed.

(** X27.  A try of [ingest_item_properties_csv] that returns has read a
    frame from at least one of the files: [files_processed] is the
    number of files read, which is at most the number of paths; the
    records it reports and the duplicates it removed add up to the rows
    of these frames; at least one record is reported and the count of
    duplicates is not negative.  Files that are missing, fail the
    validation or hold no rows are passed over. *)
Theorem items_try_block_accounting (cfg : Config) (env : Env)
    (file_paths : list string) (w : World) (res : ItemsResult) :
  fst (items_try_block cfg env file_paths w) = Py.Ok res ->
  exists dups,
    i_status res = "success" /\
    i_duplicates_removed res = Some dups /\
    i_files_processed res = Z.of_nat (length (parts_read env w file_paths)) /\
    1 <= i_files_processed res <= Z.of_nat (length file_paths) /\
    i_records_count res + dups =
      foldr Z.add 0 (map Pandas.len (parts_read env w file_paths)) /\
    1 <= i_records_count res /\ 0 <= dups.
Proof.
  unfold items_try_block, Py.bind, Py.get, Py.raise, Py.ret.
  rewrite !(omap_map fst). fold (parts_read env w file_paths).
  pose proof (parts_total env w file_paths) as Htotal.
  pose proof (omap_length (fun p => fst (read_part env w p)) file_paths) as Hle.
  fold (parts_read env w file_paths) in Hle.
  destruct (parts_read env w file_paths) as [|df0 dfs] eqn:Hparts; [done|].
  rewrite <- concat_len in Htotal.
  unfold now. cbn [files ticks].
  set (df := Pandas.set_column _ _ (Pandas.set_column _ _ (Pandas.set_column _ _ _))) in *.
  assert (Pandas.len df = Pandas.len (Pandas.concat (df0 :: dfs))) as Hlen.
  { unfold df. by rewrite !set_column_len. }
  unfold dedupe_item_properties, Pandas.drop_duplicates_last.
  destruct (forallb _ _); [|done].
  set (kept := Pandas.keep_last _ (Pandas.rows df)).
  assert ((1 <= length kept <= length (Pandas.rows df))%nat) as [Hk1 Hk2].
  { unfold kept. split; [|apply keep_last_length].
    destruct (Pandas.rows df) as [|r rs] eqn:Hrows; [|apply keep_last_nonempty].
    unfold Pandas.len in Hlen, Htotal. rewrite Hrows in Hlen. cbn in Hlen, Htotal. lia. }
  destruct (on_files _ _) as [[out|e] w5]; [|done].
  destruct (on_files _ w5) as [[[]|e] w6]; [|done].
  assert (forall w7,
    fst (Py.Ok (mk_items file_paths "success" (Pandas.len (Pandas.mk_df (Pandas.columns df) kept))
                  (Z.of_nat (length (df0 :: dfs)))
                  (omap snd (map (read_part env w) file_paths)) (Some out)
                  (Some (Pandas.len df - Pandas.len (Pandas.mk_df (Pandas.columns df) kept)))),
         w7 : World) = Py.Ok res ->
    exists dups,
      i_status res = "success" /\
      i_duplicates_removed res = Some dups /\
      i_files_processed res = Z.of_nat (length (df0 :: dfs)) /\
      1 <= i_files_processed res <= Z.of_nat (length file_paths) /\
      i_records_count res + dups =
        foldr Z.add 0 (map Pandas.len (df0 :: dfs)) /\
      1 <= i_records_count res /\ 0 <= dups) as Hfinal.
  { intros w7 [= <-]. eexists. cbn [i_status i_duplicates_removed i_files_processed
      i_records_count fst].
    split; [done|]. split; [done|]. split; [done|].
    rewrite <- concat_len, <- Hlen. unfold Pandas.len in *. cbn [Pandas.rows length] in *.
    repeat split; lia. }
  destruct (backup_files cfg).
  - destruct (on_files _ w6) as [[[]|e] w7]; [|done]. apply Hfinal.
  - apply Hfinal.
Qed.

Lemma items_try_block_accounting_witness :
  fst (items_try_block Scenario.csv_cfg Scenario.items_surroundings Scenario.items_paths
         (mk_world Scenario.disk_with_items 0))
    = Py.Ok (Scenario.items_result_of Scenario.items_try) /\
  i_files_processed (Scenario.items_result_of Scenario.items_try) = 1 /\
  exists dups,
    i_records_count (Scenario.items_result_of Scenario.items_try) + dups = 3.
Proof.
  assert (fst (items_try_block Scenario.csv_cfg Scenario.items_surroundings
                 Scenario.items_paths (mk_world Scenario.disk_with_items 0))
          = Py.Ok (Scenario.items_result_of Scenario.items_try)) as Hok
    by (vm_compute; reflexivity).
  split; [exact Hok|].
  destruct (items_try_block_accounting _ _ _ _ _ Hok)
    as (dups & _ & _ & Hfiles & _ & Hsum & _).
  assert (parts_read Scenario.items_surroundings (mk_world Scenario.disk_with_items 0)
            Scenario.items_paths = [Pandas.concat [Scenario.items_chunk]]) as Hparts
    by (vm_compute; reflexivity).
  rewrite Hparts in Hfiles, Hsum.
  split; [exact Hfiles|]. exists dups. rewrite Hsum. reflexivity.
Defined.
End ItemsIngester.


(** ** The directories of the ingesters *)

Section SetupDirectories.
Import PurePath FS Storage.

Lemma mkdirs_noop (l : list Path) (s : fs) :
  (forall q, q ∈ l -> s !! q = Some Dir) ->
  foldr (fun q acc => <[q := Dir]> acc) s l = s.
Proof.
  induction l as [|q l IH]; intros Hall; cbn [foldr]; [done|].
  rewrite IH by (intros q' Hq'; apply Hall; by right).
  apply insert_id. apply Hall. left.
Qed.

Lemma mkdir_p_noop (p : Path) (s : fs) :
  (forall q, q ∈ chain p -> s !! q = Some Dir) -> mkdir_p p s = (Py.Ok tt, s).
Proof.
  intros Hall. unfold mkdir_p.
  destruct (existsb _ _) eqn:Hex.
  - apply existsb_exists in Hex as (q & Hq & Hf). apply list_elem_of_In, Hall in Hq.
    unfold is_file in Hf. by rewrite Hq in Hf.
  - by rewrite mkdirs_noop.
Qed.

Lemma mkdir_p_keeps_dirs (p : Path) (s s' : fs) (q : Path) :
  mkdir_p p s = (Py.Ok tt, s') -> s !! q = Some Dir -> s' !! q = Some Dir.
Proof.
  intros Hmk Hq. destruct (mkdir_p_ok p s s' Hmk) as [Hl _]. rewrite Hl.
  by case_bool_decide.
Qed.

Lemma chain_self (p : Path) : parts p <> [] -> p ∈ chain p.
Proof.
  intros Hne. apply chain_elem_of. exists (length (parts p)). split.
  - destruct (parts p); [done|cbn; lia].
  - rewrite firstn_all. by destruct p.
Qed.

Lemma make_directories_ok (directories : list string) (s s' : fs) :
  make_directories directories s = (Py.Ok tt, s') ->
  (forall d q, d ∈ directories -> q ∈ chain (of_string d) -> s' !! q = Some Dir) /\
  (forall q, s !! q = Some Dir -> s' !! q = Some Dir) /\
  (forall q c, s' !! q = Some (File c) <-> s !! q = Some (File c)).
Proof.
  unfold make_directories. revert s.
  induction directories as [|d l IH]; intros s; cbn [for_each].
  { intros [= <-]. split; [|done]. intros d q Hd. by apply elem_of_nil in Hd. }
  unfold Py.bind at 1.
  destruct (mkdir_p (of_string d) s) as [[[]|e] s1] eqn:Hmk; [|done].
  intros Hrest. destruct (IH s1 Hrest) as (Hdirs & Hkeep & Hfiles).
  destruct (mkdir_p_ok _ _ _ Hmk) as [Hl _].
  split; [|split].
  - intros d' q Hd' Hq. apply elem_of_cons in Hd' as [->|Hd'].
    + apply Hkeep. rewrite Hl. by rewrite bool_decide_eq_true_2.
    + by apply (Hdirs d').
  - intros q Hq. apply Hkeep. by apply (mkdir_p_keeps_dirs _ _ _ _ Hmk).
  - intros q c. rewrite Hfiles. by apply (mkdir_p_files _ _ _ _ q c Hmk).
Qed.

Lemma make_directories_noop (directories : list string) (s : fs) :
  (forall d q, d ∈ directories -> q ∈ chain (of_string d) -> s !! q = Some Dir) ->
  make_directories directories s = (Py.Ok tt, s).
Proof.
  unfold make_directories. induction directories as [|d l IH]; intros Hall;
    cbn [for_each]; [done|].
  unfold Py.bind at 1. rewrite mkdir_p_noop.
  - apply IH. intros d' q Hd'. apply Hall. by right.
  - intros q. apply Hall. left.
Qed.

(** X28.  [setup_directories], in the CSV and in the API ingester: when
    the loop returns, every listed directory is a directory, every
    directory that was there still is, and no regular file was added,
    removed or changed; and running it again in the state it left
    returns and changes nothing. *)
Theorem make_directories_idempotent (directories : list string) (s : fs) :
  fst (make_directories directories s) = Py.Ok tt ->
  let s' := snd (make_directories directories s) in
  (forall d, d ∈ directories -> is_dir (of_string d) s' = true) /\
  (forall q, s !! q = Some Dir -> s' !! q = Some Dir) /\
  (forall q c, s' !! q = Some (File c) <-> s !! q = Some (File c)) /\
  make_directories directories s' = (Py.Ok tt, s').
Proof.
  destruct (make_directories directories s) as [r s'] eqn:Hrun. cbn [fst snd].
  intros ->. destruct (make_directories_ok directories s s' Hrun) as (Hdirs & Hkeep & Hfiles).
  split; [|split; [done|split; [done|]]].
  - intros d Hd. unfold is_dir.
    destruct (parts (of_string d)) as [|x l] eqn:Hparts; [done|].
    rewrite (Hdirs d (of_string d) Hd); [done|].
    apply chain_self. by rewrite Hparts.
  - by apply make_directories_noop.
Qed.

Lemma make_directories_idempotent_witness :
  let directories := csv_directories "data/raw" "data/archive" "data/staging" in
  fst (make_directories directories ∅) = Py.Ok tt /\
  is_dir (of_string "data/ingestion_metadata") (snd (make_directories directories ∅)) = true.
Proof.
  cbv zeta.
  assert (fst (make_directories (csv_directories "data/raw" "data/archive" "data/staging") ∅)
          = Py.Ok tt) as Hrun by (vm_compute; reflexivity).
  split; [exact Hrun|].
  destruct (make_directories_idempotent _ _ Hrun) as (Hdirs & _).
  apply Hdirs. unfold csv_directories. rewrite !elem_of_cons. auto 10.
Defined.
End SetupDirectories.


(** ** A successful endpoint, end to end *)

Section EndpointSuccess.
Import Trace ApiPipeline.

Lemma save_api_data_latest (cfg : Config) (env : Env) (df : Pandas.DataFrame)
    (endpoint_name : string) (w : Csv.World) :
  let out := save_api_data cfg env df endpoint_name w in
  s_status (fst out) = "success" ->
  s_records_count (fst out) = Pandas.len df /\
  Csv.files (snd out) !! latest cfg endpoint_name = Some (FS.File (FS.Parquet df)).
Proof.
  cbv zeta. unfold save_api_data, save_block, now, Py.bind, Py.ret, Csv.on_files.
  cbn [Csv.files Csv.ticks].
  destruct (Storage.organize_data _ _ _ _ _ _ _ _ _) as [[out|e] s1]; [|done].
  unfold FS.to_parquet. cbv beta iota. cbn [Csv.files Csv.ticks].
  destruct (FS.write_file _ _ _ s1) as [[[]|e] s2] eqn:Hw; [|done].
  apply write_file_ok in Hw as ->. intros _. split; [done|]. apply lookup_insert_eq.
Qed.

Lemma process_products (env : Env) (data : Json.json) (df : Pandas.DataFrame) :
  process_api_data env "products" data = Some df ->
  exists fields products,
    data = Json.JObj fields /\ Json.assoc "products" fields = Some products /\
    frame env "products" products = Py.Ok df.
Proof.
  unfold process_api_data. cbn [String.eqb Ascii.eqb Bool.eqb].
  destruct data as [| | | | |fields]; try done.
  destruct (Json.assoc "products" fields) as [products|] eqn:Hassoc; [|done].
  destruct (frame env "products" products) as [df'|e] eqn:Hframe; [|done].
  intros [= <-]. by exists fields, products.
Qed.

(** X29.  A successful [ingest_endpoint], end to end: some try within
    the ceiling got a 200 response with a decoded body, the frame built
    from that body is what was saved, the result reports the length of
    that frame, and the endpoint's latest file holds it.  For the
    [products] endpoint the body is an object and the frame is built
    from the value of its [products] key. *)
Theorem ingest_endpoint_success_sound (cfg : Config) (env : Env)
    (endpoint_name : string) (r : Run) :
  status (fst (ingest_endpoint cfg env endpoint_name r)) = "success" ->
  exists K text data df,
    1 <= K <= Api.retry_attempts (api cfg) /\
    request env endpoint_name K = Api.Response 200 text (Some data) /\
    process_api_data env endpoint_name data = Some df /\
    records_count (fst (ingest_endpoint cfg env endpoint_name r)) = Pandas.len df /\
    Csv.files (world (snd (ingest_endpoint cfg env endpoint_name r)))
      !! latest cfg endpoint_name = Some (FS.File (FS.Parquet df)) /\
    (endpoint_name = "products" ->
     exists fields products,
       data = Json.JObj fields /\ Json.assoc "products" fields = Some products /\
       frame env "products" products = Py.Ok df).
Proof.
  unfold ingest_endpoint.
  destruct (Z_le_gt_dec (Api.retry_attempts (api cfg)) 0) as [Hle|Hgt].
  { unfold Api.make_api_request, Api.range1.
    replace (Z.to_nat (Api.retry_attempts (api cfg))) with 0%nat by lia. cbn. done. }
  assert (Z.of_nat 1 + Z.of_nat (Z.to_nat (Api.retry_attempts (api cfg)))
          = Api.retry_attempts (api cfg) + 1) as Hm by lia.
  assert (Api.make_api_request (api cfg) (request env endpoint_name) =
          Api.request_loop (api cfg) (request env endpoint_name)
            (map Z.of_nat (seq 1 (Z.to_nat (Api.retry_attempts (api cfg))))) [])
    as Hreq by reflexivity.
  pose proof (request_loop_success (api cfg) (request env endpoint_name) _ 1 [] Hm)
    as [Hyes _]. cbv zeta in Hyes. rewrite <- Hreq in Hyes.
  destruct (Api.make_api_request (api cfg) (request env endpoint_name))
    as [[[success raw_data] error_msg] tries].
  cbn [fst snd] in Hyes. destruct success; cbn [negb]; [|done].
  destruct (Hyes eq_refl) as (K & text & data & HK & HreqK & -> & _ & _).
  cbn [default from_option id].
  destruct (backup_response _ _ _ _ _) as [[[]|e] w1]; [|done].
  destruct (process_api_data env endpoint_name data) as [df|] eqn:Hproc; [|done].
  pose proof (save_api_data_latest cfg env df endpoint_name w1) as Hsave.
  cbv zeta in Hsave.
  destruct (save_api_data cfg env df endpoint_name w1) as [save_result w2].
  cbn [fst snd] in Hsave.
  destruct (String.eqb (s_status save_result) "success") eqn:Hst; [|done].
  apply String.eqb_eq in Hst. destruct (Hsave Hst) as [Hrec Hlatest].
  intros _. exists K, text, data, df. cbn.
  split; [lia|]. split; [done|]. split; [done|]. split; [done|]. split; [done|].
  intros ->. by apply process_products.
Qed.

Lemma ingest_endpoint_success_sound_witness :
  status (fst (ingest_endpoint Scenario.two_endpoints Scenario.api_surroundings
                 "products" Scenario.api_start)) = "success" /\
  records_count (fst (ingest_endpoint Scenario.two_endpoints Scenario.api_surroundings
                        "products" Scenario.api_start)) = 2.
Proof.
  assert (status (fst (ingest_endpoint Scenario.two_endpoints Scenario.api_surroundings
                         "products" Scenario.api_start)) = "success") as Hok
    by (vm_compute; reflexivity).
  split; [exact Hok|].
  destruct (ingest_endpoint_success_sound _ _ _ _ Hok)
    as (K & text & data & df & _ & _ & _ & Hrec & _ & Hshape).
  destruct (Hshape eq_refl) as (fields & products & _ & _ & Hframe).
  rewrite Hrec. cbn in Hframe. injection Hframe as <-. reflexivity.
Defined.
End EndpointSuccess.
